(** * CronDst: a shallow embedding of [crondst/__init__.py]

    The development follows the layout of the Python module: the host
    primitives the module relies on (exceptions, list indexing, [range],
    [int], [str.split], the proleptic Gregorian calendar of [datetime]),
    then the field catalog, the expression parser, the schedule methods,
    the wallclock search and the DST-aware iterator.

    Conventions.
    - Python integers are [Z]; floor division [//] and [%] with a positive
      divisor are [Z.div] and [Z.modulo].
    - A Python [str] is a [string] whose characters are read as the code
      points 0..255.
    - A call that may raise returns [result A]; the exception classes that
      can occur are the constructors of [exn].
    - A Python [set] of integers is a [gset Z]; [sorted(s)] is
      [merge_sort Z.le (elements s)].
    - A [datetime] is the record of its civil fields and its fold; the
      [tzinfo] every datetime of one iteration shares is passed separately.
      Offsets are whole seconds and instants are counted in microseconds.
      The floats the module compares and subtracts are timestamps of
      datetimes on whole seconds, which a float holds exactly; the one
      float of another datetime, that of the start of an iteration, is
      modelled as a binary64 number. *)

From Equations Require Import Equations.
From stdpp Require Import gmap list sorting strings.
From Stdlib Require Import ZArith Lia Ascii.

Open Scope Z_scope.

(** ** Exceptions *)

Inductive exn :=
| CronDstError (msg : string)
| ValueError
| IndexError
| OverflowError.

Inductive result (A : Type) :=
| Ok (a : A)
| Raise (e : exn).
Arguments Ok {A} a.
Arguments Raise {A} e.

#[global] Instance result_ret : MRet result := fun A a => Ok a.
#[global] Instance result_bind : MBind result := fun A B f r =>
  match r with Ok a => f a | Raise e => Raise e end.
#[global] Instance result_fmap : FMap result := fun A B f r =>
  match r with Ok a => Ok (f a) | Raise e => Raise e end.

(** ** Python built-ins *)

Module Py.

(** [l[i]], negative indices counting from the end. *)
Definition index {A} (l : list A) (i : Z) : result A :=
  let n := Z.of_nat (length l) in
  let j := if i <? 0 then i + n else i in
  if (j <? 0) || (n <=? j) then Raise IndexError
  else match l !! Z.to_nat j with Some x => Ok x | None => Raise IndexError end.

(** [list(range(lo, hi, step))] for a positive [step]. *)
Definition range (lo hi step : Z) : list Z :=
  if hi <=? lo then []
  else (fun k => lo + Z.of_nat k * step) <$> seq 0 (Z.to_nat ((hi - lo + step - 1) / step)).

(** [max(l)]; [ValueError] on an empty sequence. *)
Definition max (l : list Z) : result Z :=
  match l with
  | [] => Raise ValueError
  | x :: l' => Ok (foldl Z.max x l')
  end.

Definition code (c : ascii) : Z := Z.of_N (Ascii.N_of_ascii c).

(** [str.isspace] on one character, as [str.split()] and [str.strip()] use it. *)
Definition isspace (c : ascii) : bool :=
  let n := code c in
  ((9 <=? n) && (n <=? 13)) || ((28 <=? n) && (n <=? 32)) || (n =? 133) || (n =? 160).

(** The white space [int()] skips around a literal. *)
Definition int_space (c : ascii) : bool :=
  let n := code c in
  ((9 <=? n) && (n <=? 13)) || (n =? 32) || (n =? 133) || (n =? 160).

Definition isdigit (c : ascii) : bool :=
  let n := code c in (48 <=? n) && (n <=? 57).

Definition digit (c : ascii) : Z := code c - 48.

Fixpoint chars (s : string) : list ascii :=
  match s with
  | EmptyString => []
  | String c s' => c :: chars s'
  end.

Fixpoint str (l : list ascii) : string :=
  match l with
  | [] => EmptyString
  | c :: l' => String c (str l')
  end.

(** [len(s)] *)
Definition len (s : string) : Z := Z.of_nat (String.length s).

(** [s.split(sep)] for a one-character separator: every occurrence splits,
    empty pieces are kept. *)
Fixpoint split_chars (sep : ascii) (cur : list ascii) (l : list ascii) : list (list ascii) :=
  match l with
  | [] => [reverse cur]
  | c :: l' =>
      if Ascii.eqb c sep then reverse cur :: split_chars sep [] l'
      else split_chars sep (c :: cur) l'
  end.

Definition split (sep : ascii) (s : string) : list string :=
  str <$> split_chars sep [] (chars s).

(** [s.split(sep, maxsplit=1)] *)
Fixpoint split1_chars (sep : ascii) (cur : list ascii) (l : list ascii) : list (list ascii) :=
  match l with
  | [] => [reverse cur]
  | c :: l' =>
      if Ascii.eqb c sep then [reverse cur; l']
      else split1_chars sep (c :: cur) l'
  end.

Definition split1 (sep : ascii) (s : string) : list string :=
  str <$> split1_chars sep [] (chars s).

(** [s.split()]: runs of white space separate, none at the ends counts. *)
Fixpoint split_ws_chars (cur : list ascii) (l : list ascii) : list (list ascii) :=
  match l with
  | [] => match cur with [] => [] | _ => [reverse cur] end
  | c :: l' =>
      if isspace c
      then match cur with
           | [] => split_ws_chars [] l'
           | _ => reverse cur :: split_ws_chars [] l'
           end
      else split_ws_chars (c :: cur) l'
  end.

Definition split_ws (s : string) : list string :=
  str <$> split_ws_chars [] (chars s).

(** [s.strip()], parameterised by the white space to drop. *)
Fixpoint dropwhile (sp : ascii -> bool) (l : list ascii) : list ascii :=
  match l with
  | [] => []
  | c :: l' => if sp c then dropwhile sp l' else l
  end.

Definition strip_chars (sp : ascii -> bool) (l : list ascii) : list ascii :=
  reverse (dropwhile sp (reverse (dropwhile sp l))).

Definition strip (s : string) : string := str (strip_chars isspace (chars s)).

(** [s.startswith(c)] for a one-character prefix. *)
Definition startswith (c : ascii) (s : string) : bool :=
  match s with
  | String c' _ => Ascii.eqb c' c
  | EmptyString => false
  end.

(** The digits of a decimal literal after its first digit: single
    underscores may separate digits, none may end the literal. *)
Fixpoint int_digits (acc : Z) (after_underscore : bool) (l : list ascii) : option Z :=
  match l with
  | [] => if after_underscore then None else Some acc
  | c :: l' =>
      if isdigit c then int_digits (acc * 10 + digit c) false l'
      else if Ascii.eqb c "_"%char
           then if after_underscore then None else int_digits acc true l'
           else None
  end.

Definition int_unsigned (l : list ascii) : option Z :=
  match l with
  | c :: l' => if isdigit c then int_digits (digit c) false l' else None
  | [] => None
  end.

(** [int(s)]; [None] stands for the [ValueError] the callers catch. *)
Definition int (s : string) : option Z :=
  match strip_chars int_space (chars s) with
  | c :: l' =>
      if Ascii.eqb c "+"%char then int_unsigned l'
      else if Ascii.eqb c "-"%char then Z.opp <$> int_unsigned l'
      else int_unsigned (c :: l')
  | [] => None
  end.

End Py.

(** ** The host calendar: [datetime], [timedelta], [tzinfo] *)

Module Cal.

Definition MINYEAR : Z := 1.
Definition MAXYEAR : Z := 9999.

Definition is_leap (year : Z) : bool :=
  (year mod 4 =? 0) && (negb (year mod 100 =? 0) || (year mod 400 =? 0)).

Definition days_before_year (year : Z) : Z :=
  let y := year - 1 in y * 365 + y / 4 - y / 100 + y / 400.

Definition DAYS_IN_MONTH : list Z := [31; 28; 31; 30; 31; 30; 31; 31; 30; 31; 30; 31].

(** Number of days of [month] in [year]; 0 outside 1..12. *)
Definition days_in_month (year month : Z) : Z :=
  if (month =? 2) && is_leap year then 29
  else if (1 <=? month) && (month <=? 12)
       then nth (Z.to_nat (month - 1)) DAYS_IN_MONTH 0 else 0.

Definition days_before_month (year month : Z) : Z :=
  foldr Z.add 0 (take (Z.to_nat (month - 1)) DAYS_IN_MONTH)
  + (if (2 <? month) && is_leap year then 1 else 0).

(** Proleptic Gregorian ordinal, 0001-01-01 being day 1. *)
Definition ymd2ord (year month day : Z) : Z :=
  days_before_year year + days_before_month year month + day.

Definition MAXORDINAL : Z := 3652059.

Definition DI400Y : Z := 146097.
Definition DI100Y : Z := 36524.
Definition DI4Y : Z := 1461.

(** Month and day from the zero-based day of the year. *)
Definition doy2md (leapyear : bool) (n : Z) : Z * Z :=
  let month := Z.shiftr (n + 50) 5 in
  let preceding := days_before_month (if leapyear then 4 else 1) month in
  if n <? preceding
  then let month' := month - 1 in
       (month', n - days_before_month (if leapyear then 4 else 1) month' + 1)
  else (month, n - preceding + 1).

(** Inverse of [ymd2ord]. *)
Definition ord2ymd (ordinal : Z) : Z * Z * Z :=
  let n := ordinal - 1 in
  let n400 := n / DI400Y in
  let n := n mod DI400Y in
  let n100 := n / DI100Y in
  let n := n mod DI100Y in
  let n4 := n / DI4Y in
  let n := n mod DI4Y in
  let n1 := n / 365 in
  let n := n mod 365 in
  let year := n400 * 400 + 1 + n100 * 100 + n4 * 4 + n1 in
  if (n1 =? 4) || (n100 =? 4) then (year - 1, 12, 31)
  else
    let leapyear := (n1 =? 3) && (negb (n4 =? 24) || (n100 =? 3)) in
    let '(month, day) := doy2md leapyear n in
    (year, month, day).

Record datetime := mk_datetime {
  year : Z;
  month : Z;
  day : Z;
  hour : Z;
  minute : Z;
  second : Z;
  microsecond : Z;
  fold : Z
}.

(** The checks of the [datetime] constructor. *)
Definition fields_ok (d : datetime) : bool :=
  (MINYEAR <=? year d) && (year d <=? MAXYEAR)
  && (1 <=? month d) && (month d <=? 12)
  && (1 <=? day d) && (day d <=? days_in_month (year d) (month d))
  && (0 <=? hour d) && (hour d <=? 23)
  && (0 <=? minute d) && (minute d <=? 59)
  && (0 <=? second d) && (second d <=? 59)
  && (0 <=? microsecond d) && (microsecond d <=? 999999)
  && ((fold d =? 0) || (fold d =? 1)).

(** [datetime(...)] and [d.replace(...)]: [ValueError] on a field out of range. *)
Definition make (d : datetime) : result datetime :=
  if fields_ok d then Ok d else Raise ValueError.

(** [datetime(year, month, day, hour, minute, tzinfo=...)] *)
Definition datetime5 (y mo d h mi : Z) : result datetime :=
  make (mk_datetime y mo d h mi 0 0 0).

Definition US_PER_SECOND : Z := 1000000.
Definition US_PER_DAY : Z := 86400 * US_PER_SECOND.

(** Microseconds of the civil fields since the start of ordinal day 0. *)
Definition civil_us (d : datetime) : Z :=
  ymd2ord (year d) (month d) (day d) * US_PER_DAY
  + (hour d * 3600 + minute d * 60 + second d) * US_PER_SECOND + microsecond d.

(** The civil fields of a microsecond count; the fold is 0. *)
Definition of_civil_us (t : Z) : datetime :=
  let ordinal := t / US_PER_DAY in
  let r := t mod US_PER_DAY in
  let '(y, mo, d) := ord2ymd ordinal in
  let secs := r / US_PER_SECOND in
  mk_datetime y mo d (secs / 3600) (secs mod 3600 / 60) (secs mod 60) (r mod US_PER_SECOND) 0.

(** [d + timedelta(microseconds=delta)]: arithmetic on the civil fields,
    the fold of the sum is 0, [OverflowError] outside the calendar. *)
Definition add (d : datetime) (delta : Z) : result datetime :=
  let t := civil_us d + delta in
  let ordinal := t / US_PER_DAY in
  if (0 <? ordinal) && (ordinal <=? MAXORDINAL) then Ok (of_civil_us t)
  else Raise OverflowError.

(** [d.weekday()], Monday being 0. *)
Definition weekday (d : datetime) : Z :=
  (ymd2ord (year d) (month d) (day d) + 6) mod 7.

(** A time zone: the UTC offset in seconds of a civil time with its fold,
    and [fromutc], which maps the civil fields of a UTC time to local
    time with its fold. *)
Record tzinfo := mk_tzinfo {
  utcoffset : datetime -> Z;
  fromutc : datetime -> result datetime
}.

Definition EPOCH_US : Z := 719163 * US_PER_DAY.

(** The instant of [d] as an exact count of microseconds since the epoch:
    [(d - epoch) // timedelta(microseconds=1)]. [d.timestamp()] is the
    float nearest to a millionth of it, see [timestamp_float]; on a whole
    number of seconds that float is exact, and the datetimes whose
    timestamps the module compares are on whole seconds. *)
Definition timestamp (tz : tzinfo) (d : datetime) : Z :=
  civil_us d - utcoffset tz d * US_PER_SECOND - EPOCH_US.

(** [datetime.fromtimestamp] once the seconds and microseconds of its
    argument are read: the UTC civil time of [t] microseconds is built
    first, then handed to [tz.fromutc]. *)
Definition fromtimestamp (tz : tzinfo) (t : Z) : result datetime :=
  let u := t + EPOCH_US in
  let ordinal := u / US_PER_DAY in
  if (0 <? ordinal) && (ordinal <=? MAXORDINAL) then fromutc tz (of_civil_us u)
  else Raise ValueError.

(** A binary64 float, as far as timestamps need it: the pair [(m, k)]
    stands for [m * 2^k]. The numbers met here are zero or of a magnitude
    between a millionth and [2^53], so no infinity, NaN or subnormal
    arises. *)
Definition float : Type := Z * Z.

(** The integer nearest to [p / q] for [0 < q], a tie going to the even one. *)
Definition round_half_even (p q : Z) : Z :=
  let f := p / q in
  let r := p mod q in
  if (q <? 2 * r) || ((2 * r =? q) && Z.odd f) then f + 1 else f.

(** The float nearest to [p / q] for [0 < q], a tie going to the even
    significand of 53 bits: what the true division [p / q] of two
    integers returns. *)
Definition float_of_quotient (p q : Z) : float :=
  if p =? 0 then (0, 0)
  else
    let a := Z.abs p in
    let e0 := Z.log2 a - Z.log2 q in
    let reaches := if 0 <=? e0 then q * 2 ^ e0 <=? a else q <=? a * 2 ^ (- e0) in
    let e := if reaches then e0 else e0 - 1 in
    let k := e - 52 in
    let m := if 0 <=? k then round_half_even a (q * 2 ^ k)
             else round_half_even (a * 2 ^ (- k)) q in
    (Z.sgn p * m, k).

(** [d.timestamp()]: [(d - epoch).total_seconds()], the microseconds
    divided by [10**6]. *)
Definition timestamp_float (tz : tzinfo) (d : datetime) : float :=
  float_of_quotient (timestamp tz d) US_PER_SECOND.

(** The seconds and microseconds [fromtimestamp] reads off a float: the
    integral part and the fraction of [modf], the fraction times [1e6]
    rounded to a float and then to the nearest integer, ties to even, and
    the carry into the seconds. The result is in microseconds. *)
Definition microseconds_of_float (t : float) : Z :=
  let '(m, k) := t in
  let intpart := if 0 <=? k then m * 2 ^ k else Z.quot m (2 ^ (- k)) in
  let frac : float := if 0 <=? k then (0, 0) else (m - intpart * 2 ^ (- k), k) in
  let '(xm, xk) := float_of_quotient (fst frac * US_PER_SECOND) (2 ^ (- snd frac)) in
  let us := if 0 <=? xk then xm * 2 ^ xk else round_half_even xm (2 ^ (- xk)) in
  if US_PER_SECOND <=? us then (intpart + 1) * US_PER_SECOND + (us - US_PER_SECOND)
  else if us <? 0 then (intpart - 1) * US_PER_SECOND + (us + US_PER_SECOND)
  else intpart * US_PER_SECOND + us.

(** [datetime.fromtimestamp(t, tz)] for a float [t]. *)
Definition fromtimestamp_float (tz : tzinfo) (t : float) : result datetime :=
  fromtimestamp tz (microseconds_of_float t).

(** [datetime.timezone(timedelta(seconds=offset))] *)
Definition fixed_tz (offset : Z) : tzinfo :=
  {| utcoffset := fun _ => offset;
     fromutc := fun d => add d (offset * US_PER_SECOND) |}.

End Cal.

(** ** The module *)

Definition MAX_EXPRESSION_LENGTH : Z := 1000.
Definition MAX_YEARS_BETWEEN_MATCHES : Z := 50.

Record _CronField := mk_CronField {
  name : string;
  bound : Z * Z;
  text_map : option (gmap string Z)
}.

Definition FIELD_PROPS : list _CronField :=
  [ mk_CronField "minute" (0, 59) None;
    mk_CronField "hour" (0, 23) None;
    mk_CronField "day-of-month" (1, 31) None;
    mk_CronField "month" (1, 12)
      (Some (list_to_map
         [("jan", 1); ("feb", 2); ("mar", 3); ("apr", 4); ("may", 5); ("jun", 6);
          ("jul", 7); ("aug", 8); ("sep", 9); ("oct", 10); ("nov", 11); ("dec", 12)]));
    mk_CronField "day-of-week" (0, 7)
      (Some (list_to_map
         [("sun", 0); ("mon", 1); ("tue", 2); ("wed", 3); ("thu", 4); ("fri", 5);
          ("sat", 6)])) ].

Definition _number_from_item (item : string) (text_map : option (gmap string Z)) : option Z :=
  match Py.int item with
  | Some number => Some number
  | None =>
      match text_map with
      | Some m => if decide (m = ∅) then None else m !! item
      | None => None
      end
  end.

Record _CronEntry := mk_CronEntry {
  minutes : list Z;
  hours : list Z;
  days : list Z;
  months : list Z;
  days_of_week : list Z;
  minute_star : bool;
  hour_star : bool;
  day_star : bool;
  day_of_week_star : bool
}.

(** [sorted(s)] for a set [s] *)
Definition sorted (s : gset Z) : list Z := merge_sort Z.le (elements s).

Fixpoint mapM {A B} (f : A -> result B) (l : list A) : result (list B) :=
  match l with
  | [] => Ok []
  | x :: l' => y ← f x; ys ← mapM f l'; Ok (y :: ys)
  end.

Definition has_triggers (self : _CronEntry) : result bool :=
  let max_day_of_month := [31; 29; 31; 30; 31; 30; 31; 31; 30; 31; 30; 31] in
  let days_of_month := days self in
  let months := months self in
  if day_of_week_star self then
    last ← Py.index days_of_month (-1);
    longest ← mapM (fun month => Py.index max_day_of_month (month - 1)) months;
    m ← Py.max longest;
    if m <? last then Ok false else Ok true
  else Ok true.

Definition is_wildcard (self : _CronEntry) : bool :=
  minute_star self || hour_star self.

Definition bad {A} (name : string) : result A :=
  Raise (CronDstError ("Bad " +:+ name)).

(** One pass of the body of [for token in field.split(',')]: the set of
    the field after the token, or the error the token raises. *)
Definition parse_token (f : _CronField) (token : string) (s : gset Z) : result (gset Z) :=
  let parts := Py.split1 "/" token in
  let is_step_specified := 1 <? Z.of_nat (length parts) in
  list_item ← Py.index parts 0;
  step ← (if is_step_specified
          then p1 ← Py.index parts 1;
               match Py.int p1 with Some n => Ok n | None => bad (name f) end
          else Ok 1);
  if step <=? 0 then bad (name f) else
  if String.eqb list_item "*"
  then Ok (s ∪ list_to_set (Py.range (fst (bound f)) (snd (bound f) + 1) step))
  else
    let range_expression := Py.split "-" list_item in
    if Z.of_nat (length range_expression) =? 1 then
      match _number_from_item list_item (text_map f) with
      | None => bad (name f)
      | Some num =>
          if (num <? fst (bound f)) || (snd (bound f) <? num) then bad (name f)
          else if is_step_specified
               then Ok (s ∪ list_to_set (Py.range num (snd (bound f) + 1) step))
               else Ok (s ∪ {[ num ]})
      end
    else if negb (Z.of_nat (length range_expression) =? 2) then bad (name f)
    else
      r0 ← Py.index range_expression 0;
      r1 ← Py.index range_expression 1;
      match _number_from_item r0 (text_map f), _number_from_item r1 (text_map f) with
      | Some lower, Some upper =>
          if upper <? lower then bad (name f)
          else if (lower <? fst (bound f)) || (snd (bound f) <? upper) then bad (name f)
          else Ok (s ∪ list_to_set (Py.range lower (upper + 1) step))
      | _, _ => bad (name f)
      end.

Fixpoint parse_tokens (f : _CronField) (tokens : list string) (s : gset Z) : result (gset Z) :=
  match tokens with
  | [] => Ok s
  | token :: rest => s' ← parse_token f token s; parse_tokens f rest s'
  end.

(** The four flags in the order minute, hour, day, day of week. *)
Definition stars : Type := bool * bool * bool * bool.

Definition update_stars (idx : Z) (field : string) (st : stars) : stars :=
  let '(minute_star, hour_star, day_star, day_of_week_star) := st in
  if Py.startswith "*" field
  then (minute_star || (idx =? 0), hour_star || (idx =? 1),
        day_star || (idx =? 2), day_of_week_star || (idx =? 4))
  else st.

(** [for idx, field in enumerate(fields)], from index [idx] on. *)
Fixpoint parse_fields (idx : Z) (fields : list string) (structure : list (gset Z)) (st : stars)
  : result (list (gset Z) * stars) :=
  match fields with
  | [] => Ok (structure, st)
  | field :: rest =>
      let st' := update_stars idx field st in
      f ← Py.index FIELD_PROPS idx;
      s ← Py.index structure idx;
      s' ← parse_tokens f (Py.split "," field) s;
      parse_fields (idx + 1) rest (<[Z.to_nat idx := s']> structure) st'
  end.

Definition from_expression (expression : string) : result _CronEntry :=
  if MAX_EXPRESSION_LENGTH <? Py.len expression
  then Raise (CronDstError "Bad expression - length exceeds 1000 characters")
  else
    let structure : list (gset Z) := replicate 5 ∅ in
    let fields := Py.split_ws (Py.strip expression) in
    if negb (Z.of_nat (length fields) =? 5)
    then Raise (CronDstError "Bad expression - expect five (5) fields separated by whitespace")
    else
      '(structure, (minute_star, hour_star, day_star, day_of_week_star)) ←
        parse_fields 0 fields structure (false, false, false, false);
      if existsb (fun s => bool_decide (s = ∅)) structure
      then Raise (CronDstError "Bad expression")
      else
        s0 ← Py.index structure 0;
        s1 ← Py.index structure 1;
        s2 ← Py.index structure 2;
        s3 ← Py.index structure 3;
        s4 ← Py.index structure 4;
        let entry :=
          mk_CronEntry (sorted s0) (sorted s1) (sorted s2) (sorted s3) (sorted s4)
                       minute_star hour_star day_star day_of_week_star in
        ok ← has_triggers entry;
        if negb ok
        then Raise (CronDstError "Bad expression - results in no triggers")
        else Ok entry.

Import Cal.

Definition _days_in_month (d : datetime) : result Z :=
  first ← make (mk_datetime (year d) (month d mod 12 + 1) 1 (hour d) (minute d)
                            (second d) (microsecond d) (fold d));
  last ← add first (- US_PER_DAY);
  Ok (day last).

(** The loop of [merge_days_and_days_of_week] over [range(1, n + 1)]:
    [weekday] is the value the variable holds when [day] is reached. *)
Fixpoint merge_loop (use_and_operator : bool) (days_set days_of_week_set : gset Z)
    (range : list Z) (weekday : Z) (result : list Z) : list Z :=
  match range with
  | [] => result
  | day :: rest =>
      let weekday := (weekday + 1) mod 7 in
      let in_days := bool_decide (day ∈ days_set) in
      let in_week := bool_decide (weekday ∈ days_of_week_set) in
      let result :=
        if use_and_operator && (in_days && in_week) then result ++ [day] else result in
      let result :=
        if negb use_and_operator && (in_days || in_week) then result ++ [day] else result in
      merge_loop use_and_operator days_set days_of_week_set rest weekday result
  end.

Definition merge_days_and_days_of_week (self : _CronEntry) (d : datetime)
    (use_and_operator : option bool) : result (list Z) :=
  let use_and_operator :=
    match use_and_operator with
    | None => day_star self || day_of_week_star self
    | Some b => b
    end in
  let days_set : gset Z := list_to_set (days self) in
  let days_of_week_set : gset Z :=
    list_to_set (if bool_decide (7 ∈ days_of_week self)
                 then 0 :: days_of_week self else days_of_week self) in
  first ← make (mk_datetime (year d) (month d) 1 (hour d) (minute d)
                            (second d) (microsecond d) (fold d));
  let weekday := weekday first in
  n ← _days_in_month d;
  Ok (merge_loop use_and_operator days_set days_of_week_set (Py.range 1 (n + 1) 1) weekday []).

(** The [while] loop of the binary search on the pair [(low, high)]. *)
Equations? index_loop (numbers : list Z) (target low high : Z) : result Z
  by wf (Z.to_nat (high - low)) lt :=
  index_loop numbers target low high with decide (low + 1 < high) => {
    | left _ =>
        match Py.index numbers (low + (high - low) / 2) with
        | Raise e => Raise e
        | Ok v =>
            if target <=? v
            then index_loop numbers target low (low + (high - low) / 2)
            else index_loop numbers target (low + (high - low) / 2) high
        end
    | right _ => Ok high }.
Proof.
  all: Z.div_mod_to_equations; lia.
Qed.

Definition _index_of_nearest_number (numbers : list Z) (target : Z) : result Z :=
  index_loop numbers target (-1) (Z.of_nat (length numbers)).

(** The local variables of [_next_wallclock_datetime]. *)
Record candidate := mk_candidate {
  next_minute : Z;
  next_hour : Z;
  next_day : Z;
  next_month : Z;
  next_year : Z;
  is_placeholder_day : bool
}.

(** The minute, hour and day stages, up to the [for] loop. *)
Definition wallclock_stages (start : datetime) (entry : _CronEntry) : result candidate :=
  let minutes := minutes entry in
  let hours := hours entry in
  let next_minute := minute start + 1 in
  let next_hour := hour start in
  let next_day := day start in
  let next_month := month start in
  let next_year := year start in
  (* minutes *)
  idx ← _index_of_nearest_number minutes next_minute;
  '(next_minute, next_hour) ←
    (if idx <? Z.of_nat (length minutes)
     then m ← Py.index minutes idx; Ok (m, next_hour)
     else m ← Py.index minutes 0; Ok (m, next_hour + 1));
  (* hours *)
  idx ← _index_of_nearest_number hours next_hour;
  '(next_minute, next_hour, next_day) ←
    (if idx <? Z.of_nat (length hours)
     then h ← Py.index hours idx;
          if negb (h =? hour start)
          then m ← Py.index minutes 0; Ok (m, h, next_day)
          else Ok (next_minute, h, next_day)
     else m ← Py.index minutes 0; h ← Py.index hours 0; Ok (m, h, next_day + 1));
  (* days, days of week *)
  days_and_days_of_week ← merge_days_and_days_of_week entry start None;
  idx ← _index_of_nearest_number days_and_days_of_week next_day;
  if idx <? Z.of_nat (length days_and_days_of_week)
  then d ← Py.index days_and_days_of_week idx;
       if negb (d =? day start)
       then m ← Py.index minutes 0; h ← Py.index hours 0;
            Ok (mk_candidate m h d next_month next_year false)
       else Ok (mk_candidate next_minute next_hour d next_month next_year false)
  else m ← Py.index minutes 0; h ← Py.index hours 0;
       Ok (mk_candidate m h 1 (next_month + 1) next_year true).

(** The [for] loop over [range(n)]; the second component counts the
    passes through its body. *)
Fixpoint month_loop (start : datetime) (entry : _CronEntry) (n : nat) (c : candidate)
    (passes : Z) : result (option datetime * Z) :=
  match n with
  | O => Ok (None, passes)
  | S n' =>
      let minutes := minutes entry in
      let hours := hours entry in
      let months := months entry in
      idx ← _index_of_nearest_number months (next_month c);
      c ← (if idx <? Z.of_nat (length months)
           then mo ← Py.index months idx;
                if negb (mo =? month start)
                then m ← Py.index minutes 0; h ← Py.index hours 0;
                     Ok (mk_candidate m h 1 mo (next_year c) true)
                else Ok (mk_candidate (next_minute c) (next_hour c) (next_day c) mo
                                      (next_year c) (is_placeholder_day c))
           else m ← Py.index minutes 0; h ← Py.index hours 0; mo ← Py.index months 0;
                Ok (mk_candidate m h 1 mo (next_year c + 1) true));
      timestamp ← datetime5 (next_year c) (next_month c) (next_day c) (next_hour c)
                            (next_minute c);
      if is_placeholder_day c then
        days_and_days_of_week ← merge_days_and_days_of_week entry timestamp None;
        match days_and_days_of_week with
        | d :: _ =>
            t ← make (mk_datetime (next_year c) (next_month c) d (hour timestamp)
                                  (minute timestamp) (second timestamp)
                                  (microsecond timestamp) (fold timestamp));
            Ok (Some t, passes + 1)
        | [] =>
            month_loop start entry n'
              (mk_candidate (next_minute c) (next_hour c) (next_day c) (next_month c + 1)
                            (next_year c) (is_placeholder_day c))
              (passes + 1)
        end
      else Ok (Some timestamp, passes + 1)
  end.

Definition wallclock_search (start : datetime) (entry : _CronEntry)
    (max_years_between_matches : Z) : result (option datetime * Z) :=
  c ← wallclock_stages start entry;
  month_loop start entry (Z.to_nat (Z.max max_years_between_matches 0 * 12)) c 0.

Definition _next_wallclock_datetime (start : datetime) (entry : _CronEntry)
    (max_years_between_matches : Z) : result (option datetime) :=
  fst <$> wallclock_search start entry max_years_between_matches.

(** [d.replace(minute=0, second=0, microsecond=0)] *)
Definition on_the_hour (d : datetime) : result datetime :=
  make (mk_datetime (year d) (month d) (day d) (hour d) 0 0 0 (fold d)).

(** [d.replace(fold=f)] *)
Definition with_fold (d : datetime) (f : Z) : result datetime :=
  make (mk_datetime (year d) (month d) (day d) (hour d) (minute d) (second d)
                    (microsecond d) f).

Definition _delta_seconds_between_fold (tz : tzinfo) (d : datetime) : Z :=
  let d0 := mk_datetime (year d) (month d) (day d) (hour d) (minute d) (second d) 0 0 in
  let d1 := mk_datetime (year d) (month d) (day d) (hour d) (minute d) (second d) 0 1 in
  (timestamp tz d0 - timestamp tz d1) / US_PER_SECOND.

(** The cursor of one iteration. *)
Record cursor := mk_cursor {
  start : datetime;
  monotonic_datetime : datetime;
  goto_datetime : option datetime
}.

(** How one pass through the body of [while True] ends. *)
Inductive pass :=
| Yield (value : datetime) (next : cursor)
| Continue (next : cursor)
| Return.

Section Iter.

Variable tz : tzinfo.
Variable entry : _CronEntry.
Variable max_years_between_matches : Z.

(** The statements of [iter] before its loop. *)
Definition iter_begin (start : datetime) : result cursor :=
  start ← fromtimestamp_float tz (timestamp_float tz start);
  start ← make (mk_datetime (year start) (month start) (day start) (hour start)
                            (minute start) 0 0 (fold start));
  Ok (mk_cursor start start None).

(** The first statements of the loop body, which handle starting or
    landing in ambiguous time: the start to search from and the pending
    jump back. *)
Definition ambiguous_start (c : cursor) : result (datetime * option datetime) :=
  let is_wildcard_job := is_wildcard entry in
  let start := start c in
  let goto_datetime := goto_datetime c in
  let delta_seconds := _delta_seconds_between_fold tz start in
  if delta_seconds <? 0 then
    start ← (if negb is_wildcard_job && (0 <? fold start)
             then h ← on_the_hour start; add h (3600 * US_PER_SECOND - 1)
             else Ok start);
    goto_datetime ←
      (if is_wildcard_job && (fold start <=? 0)
          && match goto_datetime with None => true | Some _ => false end
       then h ← on_the_hour start;
            g ← add h ((3600 + delta_seconds) * US_PER_SECOND);
            g ← with_fold g 1;
            Ok (Some g)
       else Ok goto_datetime);
    Ok (start, goto_datetime)
  else Ok (start, goto_datetime).

Definition iter_body (c : cursor) : result pass :=
  let is_wildcard_job := is_wildcard entry in
  '(start, goto_datetime) ← ambiguous_start c;
  (* the statements from [if goto_datetime and ...] to the end of the body *)
  let finish (value : datetime) : result pass :=
    match goto_datetime with
    | Some g =>
        if timestamp tz g <=? timestamp tz value
        then s ← add g (-1); Ok (Continue (mk_cursor s (monotonic_datetime c) None))
        else Ok (Yield value (mk_cursor value value goto_datetime))
    | None => Ok (Yield value (mk_cursor value value goto_datetime))
    end in
  result ← _next_wallclock_datetime start entry max_years_between_matches;
  match result with
  | None => Ok Return
  | Some result =>
      result ← (if timestamp tz result <=? timestamp tz (monotonic_datetime c)
                then with_fold result 1 else Ok result);
      let delta_seconds := _delta_seconds_between_fold tz result in
      if 0 <? delta_seconds then
        h ← on_the_hour result;
        result ← add h (delta_seconds * US_PER_SECOND);
        if is_wildcard_job
        then s ← add result (-1);
             Ok (Continue (mk_cursor s (monotonic_datetime c) goto_datetime))
        else finish result
      else finish result
  end.

(** One pull of the generator from the top of its loop. *)
Inductive pulled :=
| Next (value : datetime) (after : cursor)
| Stop
| OutOfFuel.

Fixpoint pull (fuel : nat) (c : cursor) : result pulled :=
  match fuel with
  | O => Ok OutOfFuel
  | S fuel' =>
      p ← iter_body c;
      match p with
      | Yield value next => Ok (Next value next)
      | Continue next => pull fuel' next
      | Return => Ok Stop
      end
  end.

(** How a run of pulls ends. *)
Inductive ending :=
| Pending (c : cursor)
| Ended
| Failed (e : exn)
| Stuck.

(** The values of the first [n] pulls, each given [fuel] passes. *)
Fixpoint take (fuel n : nat) (c : cursor) : list datetime * ending :=
  match n with
  | O => ([], Pending c)
  | S n' =>
      match pull fuel c with
      | Raise e => ([], Failed e)
      | Ok OutOfFuel => ([], Stuck)
      | Ok Stop => ([], Ended)
      | Ok (Next value after) =>
          let '(values, e) := take fuel n' after in (value :: values, e)
      end
  end.

(** [itertools.islice(iter(start, max_years), n)] *)
Definition iter (fuel n : nat) (start : datetime) : list datetime * ending :=
  match iter_begin start with
  | Raise e => ([], Failed e)
  | Ok c => take fuel n c
  end.

End Iter.

(** ** Specification vocabulary *)

(** [i] is an insertion index of [target] in [numbers]:
    [numbers[i-1] < target <= numbers[i]], each side where it exists. *)
Definition insertion_index (numbers : list Z) (target i : Z) : Prop :=
  0 <= i <= Z.of_nat (length numbers)
  /\ (0 < i -> exists v, numbers !! Z.to_nat (i - 1) = Some v /\ v < target)
  /\ (i < Z.of_nat (length numbers) -> exists v, numbers !! Z.to_nat i = Some v /\ target <= v).

(** A datetime the constructor accepts. *)
Definition valid (d : datetime) : Prop := fields_ok d = true.

(** Civil order at the resolution of the schedule, the fold ignored. *)
Definition civil_lt (a b : datetime) : Prop :=
  year a < year b \/ (year a = year b /\
  (month a < month b \/ (month a = month b /\
  (day a < day b \/ (day a = day b /\
  (hour a < hour b \/ (hour a = hour b /\ minute a < minute b))))))).

(** Day of the week of a date, Sunday being 0 and Saturday 6. *)
Definition cron_weekday (y m day : Z) : Z :=
  (weekday (mk_datetime y m day 0 0 0 0 0) + 1) mod 7.

(** The day of the week of the date is in the day-of-week list, 7 read as 0. *)
Definition weekday_selected (e : _CronEntry) (y m day : Z) : Prop :=
  cron_weekday y m day ∈ days_of_week e \/ (cron_weekday y m day = 0 /\ 7 ∈ days_of_week e).

Definition day_selected (e : _CronEntry) (y m day : Z) : Prop :=
  if day_star e || day_of_week_star e
  then day ∈ days e /\ weekday_selected e y m day
  else day ∈ days e \/ weekday_selected e y m day.

(** The invariant of one value sequence of a schedule. *)
Definition field_ok (lo hi : Z) (l : list Z) : Prop :=
  l <> [] /\ StronglySorted Z.lt l /\ Forall (fun v => lo <= v <= hi) l.

Definition schedule_ok (e : _CronEntry) : Prop :=
  field_ok 0 59 (minutes e) /\ field_ok 0 23 (hours e) /\ field_ok 1 31 (days e)
  /\ field_ok 1 12 (months e) /\ field_ok 0 7 (days_of_week e).

(** [t] satisfies the five fields of [e]. *)
Definition matches (e : _CronEntry) (t : datetime) : Prop :=
  minute t ∈ minutes e /\ hour t ∈ hours e /\ month t ∈ months e
  /\ exists l, merge_days_and_days_of_week e t None = Ok l /\ day t ∈ l.

Definition md_check (leap : bool) : bool :=
  forallb (fun m =>
    forallb (fun d =>
      let y := if leap then 4 else 1 in
      implb (d <=? days_in_month y m)
        (let '(m', d') := doy2md leap (days_before_month y m + d - 1) in (m' =? m) && (d' =? d)))
      (Py.range 1 32 1)) (Py.range 1 13 1).

(** The time of day of a valid datetime, in microseconds. *)
Definition time_us (d : datetime) : Z :=
  (hour d * 3600 + minute d * 60 + second d) * US_PER_SECOND + microsecond d.

(** Whether the loop of the day merge keeps [day], whose day of the week is [wd]. *)
Definition pick (use_and : bool) (days_set days_of_week_set : gset Z) (wd day : Z) : bool :=
  if use_and
  then bool_decide (day ∈ days_set) && bool_decide (wd ∈ days_of_week_set)
  else bool_decide (day ∈ days_set) || bool_decide (wd ∈ days_of_week_set).

(** The list the merge builds for a year and a month. *)
Definition merged (e : _CronEntry) (use_and_operator : option bool) (y m : Z) : list Z :=
  merge_loop
    (match use_and_operator with
     | None => day_star e || day_of_week_star e
     | Some b => b
     end)
    (list_to_set (days e))
    (list_to_set (if bool_decide (7 ∈ days_of_week e)
                  then 0 :: days_of_week e else days_of_week e))
    (Py.range 1 (days_in_month y m + 1) 1)
    (weekday (mk_datetime y m 1 0 0 0 0 0)) [].

(** [x] is the largest value of [l]. *)
Definition greatest (x : Z) (l : list Z) : Prop :=
  x ∈ l /\ forall y, y ∈ l -> y <= x.

(** The most days a month can have, February counted with 29. *)
Definition longest_month (month : Z) : Z :=
  if month =? 2 then 29
  else if (month =? 4) || (month =? 6) || (month =? 9) || (month =? 11) then 30
  else 31.

(** Every value of the set lies within the bound of the field. *)
Definition within (f : _CronField) (s : gset Z) : Prop :=
  forall x, x ∈ s -> fst (bound f) <= x <= snd (bound f).

(** Only the parser's own error class is raised. *)
Definition raises_CronDstError {A} (r : result A) : Prop :=
  exists msg, r = Raise (CronDstError msg).

(** The sets of the five fields, each within the bound of its field. *)
Definition structure_ok (structure : list (gset Z)) : Prop :=
  length structure = 5%nat
  /\ forall (i : nat) (f : _CronField) (s : gset Z),
       FIELD_PROPS !! i = Some f -> structure !! i = Some s -> within f s.

(** The flags after the fields from index [idx] on have been seen. *)
Fixpoint stars_after (idx : Z) (fields : list string) (st : stars) : stars :=
  match fields with
  | [] => st
  | field :: rest => stars_after (idx + 1) rest (update_stars idx field st)
  end.

(** C7 as the claim words it: a flag is set exactly when its field is the
    one character [*]. *)
Definition C7_as_stated (expression : string) : Prop :=
  forall e, from_expression expression = Ok e ->
  exists f0 f1 f2 f3 f4,
    Py.split_ws (Py.strip expression) = [f0; f1; f2; f3; f4]
    /\ (minute_star e = true <-> f0 = "*")
    /\ (hour_star e = true <-> f1 = "*")
    /\ (day_star e = true <-> f2 = "*")
    /\ (day_of_week_star e = true <-> f4 = "*").

(** Lexicographic order on (day, hour, minute). *)
Definition lex3_lt (a b c a' b' c' : Z) : Prop :=
  a < a' \/ (a = a' /\ (b < b' \/ (b = b' /\ c < c'))).

Definition lex3_le (a b c a' b' c' : Z) : Prop :=
  a < a' \/ (a = a' /\ (b < b' \/ (b = b' /\ c <= c'))).

(** What the minute, hour and day stages establish about the candidate,
    [D] being the merged days of the month of [start] and [M0], [H0] the
    smallest minute and hour of the schedule. *)
Definition stage_post (e : _CronEntry) (start : datetime) (D : list Z) (M0 H0 : Z)
    (c : candidate) : Prop :=
  next_year c = year start
  /\ ((is_placeholder_day c = false /\ next_month c = month start
       /\ next_day c ∈ D /\ next_hour c ∈ hours e /\ next_minute c ∈ minutes e
       /\ lex3_lt (day start) (hour start) (minute start)
                  (next_day c) (next_hour c) (next_minute c)
       /\ forall d h mi, d ∈ D -> h ∈ hours e -> mi ∈ minutes e ->
            lex3_lt (day start) (hour start) (minute start) d h mi ->
            lex3_le (next_day c) (next_hour c) (next_minute c) d h mi)
      \/ (is_placeholder_day c = true /\ next_month c = month start + 1
          /\ next_day c = 1 /\ next_hour c = H0 /\ next_minute c = M0
          /\ forall d h mi, d ∈ D -> h ∈ hours e -> mi ∈ minutes e ->
               ~ lex3_lt (day start) (hour start) (minute start) d h mi)).

(** Months counted from year 0. *)
Definition ym (y m : Z) : Z := 12 * y + m.

(** The candidate at the top of a pass of the loop once the day is a
    placeholder: it is the first day of a month after the month of
    [start], at the smallest hour and minute, and no match after [start]
    lies in an earlier month. *)
Definition placeholder_inv (e : _CronEntry) (start : datetime) (M0 H0 : Z) (c : candidate)
    : Prop :=
  is_placeholder_day c = true /\ next_day c = 1 /\ next_hour c = H0 /\ next_minute c = M0
  /\ 1 <= next_month c <= 13 /\ year start <= next_year c
  /\ ym (year start) (month start) < ym (next_year c) (next_month c)
  /\ forall t, valid t -> matches e t -> civil_lt start t ->
       ym (next_year c) (next_month c) <= ym (year t) (month t).

(** When the search raises, [last_year] being the last year its passes
    can reach. [OverflowError] comes from the length of December of year 1:
    [start] is in year 1, in December or with December a month of the
    schedule, and no match follows it within year 1. [ValueError] comes from
    a candidate in year 10000: no match follows [start] in the calendar and
    the passes reach past year 9999. *)
Definition search_raises (e : _CronEntry) (start : datetime) (last_year : Z) (x : exn) : Prop :=
  (x = OverflowError /\ year start = 1 /\ (month start = 12 \/ 12 ∈ months e)
   /\ forall t, valid t -> matches e t -> civil_lt start t -> 2 <= year t)
  \/ (x = ValueError /\ 9999 < last_year
      /\ forall t, valid t -> matches e t -> civil_lt start t -> False).

(** What the loop returns after at most [n] passes from candidate [c] with
    [p] passes done: the earliest match after [start], or nothing when no
    match lies in the [n] months from month [lower] on; when it raises, it
    is as [search_raises] says. *)
Definition search_post (e : _CronEntry) (start : datetime) (lower last_year : Z)
    (n : nat) (p : Z) (r : result (option datetime * Z)) : Prop :=
  match r with
  | Ok (Some t, p') =>
      valid t /\ civil_lt start t /\ matches e t
      /\ (forall t', valid t' -> matches e t' -> civil_lt start t' -> ~ civil_lt t' t)
      /\ p < p' <= p + Z.of_nat n
  | Ok (None, p') =>
      p' = p + Z.of_nat n
      /\ forall t', valid t' -> matches e t' -> civil_lt start t' ->
           lower + Z.of_nat n <= ym (year t') (month t')
  | Raise x => search_raises e start last_year x
  end.

(** [t] is the earliest timestamp after [start] that satisfies the schedule. *)
Definition earliest_after (e : _CronEntry) (start t : datetime) : Prop :=
  valid t /\ civil_lt start t /\ matches e t
  /\ forall t', valid t' -> matches e t' -> civil_lt start t' -> ~ civil_lt t' t.

(** No timestamp after [start] satisfies the schedule in the
    [12 * max(max_years, 0)] months that begin with the month of [start]. *)
Definition none_within (e : _CronEntry) (start : datetime) (max_years : Z) : Prop :=
  forall t', valid t' -> matches e t' -> civil_lt start t' ->
    ym (year start) (month start) + 12 * Z.max max_years 0 <= ym (year t') (month t').

Definition wallclock_result_ok (e : _CronEntry) (start : datetime) (max_years : Z)
    (r : option datetime) : Prop :=
  match r with
  | Some t => earliest_after e start t
  | None => none_within e start max_years
  end.

(** C1 as the claim words it, for one schedule, start and budget: the
    search returns, whatever the start. *)
Definition C1_as_stated (e : _CronEntry) (start : datetime) (max_years : Z) : Prop :=
  schedule_ok e -> valid start -> 0 <= max_years ->
  exists r, _next_wallclock_datetime start e max_years = Ok r
            /\ wallclock_result_ok e start max_years r.

(** C3 as the claim words it, for one schedule and datetime: the merge
    returns its list, whatever the datetime. *)
Definition C3_as_stated (e : _CronEntry) (d : datetime) : Prop :=
  valid d ->
  exists l, merge_days_and_days_of_week e d None = Ok l
    /\ StronglySorted Z.lt l
    /\ forall day, day ∈ l <->
         1 <= day <= days_in_month (year d) (month d)
         /\ day_selected e (year d) (month d) day.

(** The successive results of the wallclock search, each started from the
    one before: the values and how the chain ends after at most [n] of them. *)
Fixpoint wallclock_chain (e : _CronEntry) (max_years : Z) (n : nat) (start : datetime)
    : list datetime * ending :=
  match n with
  | O => ([], Pending (mk_cursor start start None))
  | S n' =>
      match _next_wallclock_datetime start e max_years with
      | Raise x => ([], Failed x)
      | Ok None => ([], Ended)
      | Ok (Some r) =>
          let '(values, en) := wallclock_chain e max_years n' r in (r :: values, en)
      end
  end.

(** The instants of the values increase strictly from [prev] on. *)
Fixpoint increasing (tz : tzinfo) (prev : Z) (values : list datetime) : Prop :=
  match values with
  | [] => True
  | v :: rest => prev < timestamp tz v /\ increasing tz (timestamp tz v) rest
  end.

(** C5 as the claim words it, for one zone, schedule and start: the
    instants of the emitted values increase strictly from the instant of
    the normalised start on. *)
Definition C5_as_stated (tz : tzinfo) (e : _CronEntry) (max_years : Z) (fuel n : nat)
    (start0 : datetime) : Prop :=
  forall c, iter_begin tz start0 = Ok c ->
    increasing tz (timestamp tz (start c)) (fst (iter tz e max_years fuel n start0)).


(** The schedule of ["0 13 */999 1,4,7,10 3"]. *)
Definition vixie_hack : _CronEntry :=
  mk_CronEntry [0] [13] [1] [1; 4; 7; 10] [3] false false true false.

(** The schedule of ["0 0 1 1 *"]. *)
Definition new_year : _CronEntry :=
  mk_CronEntry [0] [0] [1] [1] [0; 1; 2; 3; 4; 5; 6; 7] false false false true.

(** The schedule of ["0 0 29 2 */7"]: a 29th of February that is a Sunday. *)
Definition leap_sunday : _CronEntry :=
  mk_CronEntry [0] [0] [29] [2] [0; 7] false false false true.

(** The schedule of ["15,50 2-3 * * *"]. *)
Definition twice_an_hour : _CronEntry :=
  mk_CronEntry [15; 50] [2; 3] (seqZ 1 31) (seqZ 1 12) (seqZ 0 8) false false true true.

(** A zone with the one transition of Pacific/Chatham on 2023-09-24: at
    02:45 local time, 12:45 ahead of UTC, clocks go to 03:45, 13:45 ahead.
    A civil time in the gap has the offset before the transition at fold 0
    and the offset after it at fold 1. *)
Definition chatham_2023 : tzinfo :=
  let gap_start := civil_us (mk_datetime 2023 9 24 2 45 0 0 0) in
  let gap_end := civil_us (mk_datetime 2023 9 24 3 45 0 0 0) in
  {| utcoffset := fun d =>
       if civil_us d <? gap_start then 45900
       else if civil_us d <? gap_end then (if fold d =? 0 then 45900 else 49500)
       else 49500;
     fromutc := fun d =>
       if civil_us d <? gap_start - 45900 * US_PER_SECOND
       then add d (45900 * US_PER_SECOND)
       else add d (49500 * US_PER_SECOND) |}.

(** The values one item of a comma list stands for in field [f]; [None]
    when the item is malformed. *)
Definition token_values (f : _CronField) (token : string) : option (gset Z) :=
  match parse_token f token ∅ with
  | Ok v => Some v
  | Raise _ => None
  end.

(** The values of the items of a comma list together; [None] when one of
    the items is malformed. *)
Fixpoint tokens_values (f : _CronField) (tokens : list string) : option (gset Z) :=
  match tokens with
  | [] => Some ∅
  | token :: rest =>
      match token_values f token, tokens_values f rest with
      | Some v, Some vs => Some (v ∪ vs)
      | _, _ => None
      end
  end.

(** [x] is one of the values an item of the comma list [field] stands for
    in the field at position [i]. *)
Definition item_value (i : nat) (field : string) (x : Z) : Prop :=
  exists f token v,
    FIELD_PROPS !! i = Some f /\ token ∈ Py.split "," field
    /\ token_values f token = Some v /\ x ∈ v.

(** The messages of the errors the parser raises. *)
Definition parser_messages : list string :=
  [ "Bad expression - length exceeds 1000 characters";
    "Bad expression - expect five (5) fields separated by whitespace";
    "Bad minute"; "Bad hour"; "Bad day-of-month"; "Bad month"; "Bad day-of-week";
    "Bad expression - results in no triggers" ].

(** The successive values are each the earliest match after the one before. *)
Fixpoint enumerates (e : _CronEntry) (prev : datetime) (values : list datetime) : Prop :=
  match values with
  | [] => True
  | v :: rest => earliest_after e prev v /\ enumerates e v rest
  end.

(** Two datetimes with the same fields down to the minute. *)
Definition same_minute (a b : datetime) : Prop :=
  year a = year b /\ month a = month b /\ day a = day b
  /\ hour a = hour b /\ minute a = minute b.

(** [d.replace(second=0, microsecond=0, fold=0)] of a valid [d]. *)
Definition to_the_minute (d : datetime) : datetime :=
  mk_datetime (year d) (month d) (day d) (hour d) (minute d) 0 0 0.

Definition HOUR_US : Z := 3600 * US_PER_SECOND.

(** The civil microsecond counts of the calendar. *)
Definition in_calendar (w : Z) : Prop := US_PER_DAY <= w < (MAXORDINAL + 1) * US_PER_DAY.

(** The UTC offset, in seconds, that the zone gives the civil time of [w]
    microseconds at fold [f]. *)
Definition offset_at (tz : tzinfo) (w f : Z) : Z :=
  let d := of_civil_us w in
  utcoffset tz (mk_datetime (year d) (month d) (day d) (hour d) (minute d) (second d)
                            (microsecond d) f).

(** What [_delta_seconds_between_fold] returns at the civil time [w]:
    positive in missing time, negative in ambiguous time. *)
Definition delta_at (tz : tzinfo) (w : Z) : Z := offset_at tz w 1 - offset_at tz w 0.

(** The instant of the civil time [w] at fold 1, counted like [w]. *)
Definition instant_at_fold_1 (tz : tzinfo) (w : Z) : Z := w - offset_at tz w 1 * US_PER_SECOND.

(** [w] truncated to the hour, as [replace(minute=0, second=0, microsecond=0)]. *)
Definition top_of_hour (w : Z) : Z := w - w mod HOUR_US.

(** A zone whose clock changes are aligned to the hour, as far as the
    iterator relies on it.
    - At fold 1 a later civil time that is not missing is a later instant.
    - Missing time: the top of the hour plus the size of the gap is past
      the missing time, is itself neither missing nor ambiguous, and the
      second before it is not ambiguous.
    - Ambiguous time: the fold-1 offset at the top of the next hour less
      the size of the overlap is that of the overlap, and the second before
      that time is not ambiguous.
    - The local time [fromutc] returns is, to the minute, not missing. *)
Record hour_aligned (tz : tzinfo) : Prop := {
  later_at_fold_1 : forall w1 w2,
    in_calendar w1 -> in_calendar w2 -> w1 < w2 -> delta_at tz w2 <= 0 ->
    instant_at_fold_1 tz w1 < instant_at_fold_1 tz w2;
  gap_snap : forall w,
    in_calendar w -> 0 < delta_at tz w ->
    in_calendar (top_of_hour w + delta_at tz w * US_PER_SECOND) ->
    w < top_of_hour w + delta_at tz w * US_PER_SECOND
    /\ delta_at tz (top_of_hour w + delta_at tz w * US_PER_SECOND) = 0
    /\ 0 <= delta_at tz (top_of_hour w + delta_at tz w * US_PER_SECOND - US_PER_SECOND);
  overlap_start : forall w,
    in_calendar w -> delta_at tz w < 0 ->
    in_calendar (top_of_hour w + HOUR_US + delta_at tz w * US_PER_SECOND) ->
    offset_at tz (top_of_hour w + HOUR_US + delta_at tz w * US_PER_SECOND) 1 = offset_at tz w 1
    /\ 0 <= delta_at tz (top_of_hour w + HOUR_US + delta_at tz w * US_PER_SECOND - US_PER_SECOND);
  fromutc_not_missing : forall u d,
    fromutc tz u = Ok d ->
    delta_at tz (civil_us d - second d * US_PER_SECOND - microsecond d) <= 0
}.

(** No search from [s] can come back before the instant of [m]: whatever
    civil time after [s] is not missing, its instant at fold 1 is after
    the instant of [m]. *)
Definition ahead (tz : tzinfo) (s m : datetime) : Prop :=
  forall w, in_calendar w -> civil_us s < w -> delta_at tz w <= 0 ->
    timestamp tz m + EPOCH_US < instant_at_fold_1 tz w.

(** A pending jump back: a valid datetime at fold 1, later than the last
    value, with a microsecond before it that is not ambiguous. *)
Definition goto_ok (tz : tzinfo) (m : datetime) (g : option datetime) : Prop :=
  match g with
  | None => True
  | Some G =>
      valid G /\ fold G = 1 /\ timestamp tz m < timestamp tz G
      /\ forall p, add G (-1) = Ok p -> 0 <= _delta_seconds_between_fold tz p
  end.

(** The invariant of the cursor at the top of the loop. *)
Definition cursor_inv (tz : tzinfo) (c : cursor) : Prop :=
  valid (start c)
  /\ microsecond (monotonic_datetime c) = 0
  /\ ahead tz (start c) (monotonic_datetime c)
  /\ (start c = monotonic_datetime c \/ 0 <= _delta_seconds_between_fold tz (start c))
  /\ goto_ok tz (monotonic_datetime c) (goto_datetime c).

(** What a pass of the body establishes: a value it yields is later than
    the last one, and the cursor it leaves satisfies the invariant. *)
Definition pass_post (tz : tzinfo) (c : cursor) (p : pass) : Prop :=
  match p with
  | Yield v next =>
      timestamp tz (monotonic_datetime c) < timestamp tz v
      /\ monotonic_datetime next = v /\ cursor_inv tz next
  | Continue next =>
      monotonic_datetime next = monotonic_datetime c /\ cursor_inv tz next
  | Return => True
  end.

(** The offset of a zone with one period of summer time, at a civil time
    and fold. Clocks go forward by [shift] seconds at the civil time
    [gap_start] and back by as much at [overlap_end]; outside summer time
    the offset is [standard]. In the missing time fold 0 has the offset
    before the change and fold 1 the offset after it; in the repeated time
    fold 0 is the first pass. *)
Definition summer_offset (standard shift gap_start overlap_end w f : Z) : Z :=
  if w <? gap_start then standard
  else if w <? gap_start + shift * US_PER_SECOND
       then (if f =? 0 then standard else standard + shift)
  else if w <? overlap_end - shift * US_PER_SECOND then standard + shift
  else if w <? overlap_end then (if f =? 0 then standard + shift else standard)
  else standard.

(** The zone of that offset; [fromutc] gives the second pass through the
    repeated time fold 1, as [zoneinfo] does. *)
Definition summer_time (standard shift gap_start overlap_end : Z) : tzinfo :=
  {| utcoffset := fun d =>
       summer_offset standard shift gap_start overlap_end (civil_us d) (fold d);
     fromutc := fun u =>
       if civil_us u <? gap_start - standard * US_PER_SECOND
       then add u (standard * US_PER_SECOND)
       else if civil_us u <? overlap_end - (standard + shift) * US_PER_SECOND
       then add u ((standard + shift) * US_PER_SECOND)
       else if civil_us u <? overlap_end - standard * US_PER_SECOND
       then d ← add u (standard * US_PER_SECOND); with_fold d 1
       else add u (standard * US_PER_SECOND) |}.

(** The clock changes of such a zone are on the hour, by whole minutes up
    to an hour, and the summer time between them is not empty. *)
Definition on_the_hour_changes (shift gap_start overlap_end : Z) : Prop :=
  0 < shift <= 3600 /\ shift mod 60 = 0
  /\ gap_start mod HOUR_US = 0 /\ overlap_end mod HOUR_US = 0
  /\ US_PER_DAY + HOUR_US <= gap_start
  /\ gap_start + shift * US_PER_SECOND < overlap_end - shift * US_PER_SECOND.

(** America/New_York in 2023: 5 hours behind UTC, 4 in summer time, which
    begins on 12 March at 02:00 and ends on 5 November at 02:00. *)
Definition new_york_2023 : tzinfo :=
  summer_time (-18000) 3600 (civil_us (mk_datetime 2023 3 12 2 0 0 0 0))
              (civil_us (mk_datetime 2023 11 5 2 0 0 0 0)).

(** The schedule of ["*/30 * * * *"]. *)
Definition every_half_hour : _CronEntry :=
  mk_CronEntry [0; 30] (seqZ 0 24) (seqZ 1 31) (seqZ 1 12) (seqZ 0 8) true true true true.

(** * Proofs *)

(** ** List indexing *)

Lemma index_in_range {A} (l : list A) (i : Z) :
  0 <= i < Z.of_nat (length l) ->
  exists x, Py.index l i = Ok x /\ l !! Z.to_nat i = Some x.
Proof.
  intros Hi. unfold Py.index. cbv zeta.
  destruct (Z.ltb_spec i 0) as [?|_]; [lia|].
  destruct (Z.ltb_spec i 0) as [?|_]; [lia|].
  destruct (Z.leb_spec (Z.of_nat (length l)) i) as [?|_]; [lia|].
  cbn [orb].
  destruct (l !! Z.to_nat i) as [x|] eqn:E; [eauto|].
  apply lookup_ge_None in E. lia.
Qed.

Lemma index_Ok_lookup {A} (l : list A) (i : Z) (x : A) :
  0 <= i -> Py.index l i = Ok x -> l !! Z.to_nat i = Some x /\ i < Z.of_nat (length l).
Proof.
  intros Hi. unfold Py.index. cbv zeta.
  destruct (Z.ltb_spec i 0) as [?|_]; [lia|].
  destruct (Z.ltb_spec i 0) as [?|_]; [lia|].
  destruct (Z.leb_spec (Z.of_nat (length l)) i) as [?|?]; cbn [orb]; [discriminate|].
  destruct (l !! Z.to_nat i); [|discriminate]. intros [= ->]. split; [done|lia].
Qed.

Lemma sorted_lookup_le (l : list Z) (i j : nat) (x y : Z) :
  StronglySorted Z.lt l -> (i <= j)%nat -> l !! i = Some x -> l !! j = Some y -> x <= y.
Proof.
  intros Hs. revert i j. induction Hs as [|a l Hs IH Hall]; intros i j Hij Hi Hj.
  - by rewrite lookup_nil in Hi.
  - destruct i as [|i], j as [|j]; simpl in *.
    + simplify_eq. lia.
    + simplify_eq. rewrite Forall_forall in Hall.
      assert (x < y); [|lia]. apply Hall. eapply list_elem_of_lookup_2; eauto.
    + lia.
    + eapply IH; [|eauto..]. lia.
Qed.

Lemma sorted_lookup_lt (l : list Z) (i j : nat) (x y : Z) :
  StronglySorted Z.lt l -> (i < j)%nat -> l !! i = Some x -> l !! j = Some y -> x < y.
Proof.
  intros Hs. revert i j. induction Hs as [|a l Hs IH Hall]; intros i j Hij Hi Hj.
  - by rewrite lookup_nil in Hi.
  - destruct i as [|i], j as [|j]; simpl in *; try lia.
    + simplify_eq. rewrite Forall_forall in Hall.
      apply Hall. eapply list_elem_of_lookup_2; eauto.
    + eapply IH; [|eauto..]. lia.
Qed.

(** ** The binary search *)

Lemma index_loop_spec (numbers : list Z) (target low high : Z) :
  -1 <= low < high -> high <= Z.of_nat (length numbers) ->
  (0 <= low -> exists v, numbers !! Z.to_nat low = Some v /\ v < target) ->
  (high < Z.of_nat (length numbers) ->
   exists v, numbers !! Z.to_nat high = Some v /\ target <= v) ->
  exists i, index_loop numbers target low high = Ok i /\ insertion_index numbers target i.
Proof.
  funelim (index_loop numbers target low high); intros Hlh Hhi Hlow Hhigh.
  - clear Heq Heqcall.
    set (mid := low + (high - low) / 2) in *.
    assert (Hmid : low < mid < high) by (subst mid; Z.div_mod_to_equations; lia).
    destruct (index_in_range numbers mid) as (v & -> & Hv); [lia|].
    destruct (Z.leb_spec target v).
    + apply (H v); [lia..|done|]. intros _. eauto.
    + apply (H0 v); [lia..| |done]. intros _. eauto with lia.
  - exists high. split; [done|]. assert (high = low + 1) as -> by lia.
    split; [lia|]. split.
    + intros Hpos. replace (low + 1 - 1) with low by lia. apply Hlow. lia.
    + done.
Qed.

Lemma index_of_nearest_number_insertion (numbers : list Z) (target : Z) :
  exists i, _index_of_nearest_number numbers target = Ok i /\ insertion_index numbers target i.
Proof.
  unfold _index_of_nearest_number.
  destruct numbers as [|x numbers'] eqn:E.
  - exists 0. split; [by simp index_loop|]. repeat split; simpl; lia.
  - rewrite <- E. assert (0 < Z.of_nat (length numbers)) by (subst; simpl; lia).
    apply index_loop_spec; [lia|lia|lia|lia].
Qed.

Lemma insertion_index_unique (numbers : list Z) (target i j : Z) :
  StronglySorted Z.lt numbers ->
  insertion_index numbers target i -> insertion_index numbers target j -> i = j.
Proof.
  intros Hs (Hi & Hil & Hir) (Hj & Hjl & Hjr).
  assert (Hlt : forall a b, insertion_index numbers target a -> insertion_index numbers target b ->
                       a < b -> False).
  { intros a b (Ha & _ & Har) (Hb & Hbl & _) Hab.
    destruct Har as (va & Hva & ?); [lia|]. destruct Hbl as (vb & Hvb & ?); [lia|].
    assert (va <= vb); [|lia].
    eapply (sorted_lookup_le numbers (Z.to_nat a) (Z.to_nat (b - 1))); eauto. lia. }
  destruct (Z.lt_trichotomy i j) as [?|[?|?]]; [exfalso|done|exfalso].
  - eapply (Hlt i j); unfold insertion_index; eauto.
  - eapply (Hlt j i); unfold insertion_index; eauto.
Qed.

(** C10: on a strictly ascending list the search returns, without raising,
    the one index [i] in [0..len] with [numbers[i-1] < target <= numbers[i]]. *)
Theorem C10_index_of_nearest_number (numbers : list Z) (target : Z) :
  StronglySorted Z.lt numbers ->
  exists i, _index_of_nearest_number numbers target = Ok i
            /\ insertion_index numbers target i
            /\ forall j, insertion_index numbers target j -> j = i.
Proof.
  intros Hs. destruct (index_of_nearest_number_insertion numbers target) as (i & Hi & Hins).
  exists i. split; [done|]. split; [done|].
  intros j Hj. eapply insertion_index_unique; eauto.
Qed.

Lemma C10_index_of_nearest_number_witness :
  StronglySorted Z.lt [1; 3; 5; 9]
  /\ exists i, _index_of_nearest_number [1; 3; 5; 9] 4 = Ok i
            /\ insertion_index [1; 3; 5; 9] 4 i
            /\ forall j, insertion_index [1; 3; 5; 9] 4 j -> j = i.
Proof.
  assert (Hs : StronglySorted Z.lt [1; 3; 5; 9]).
  { repeat (constructor; [|repeat constructor; lia]). constructor. }
  split; [exact Hs|]. exact (C10_index_of_nearest_number [1; 3; 5; 9] 4 Hs).
Defined.

Lemma div_mod_small (d q x : Z) :
  0 <= x < d -> (d * q + x) / d = q /\ (d * q + x) mod d = x.
Proof.
  intros H. split.
  - symmetry. apply (Z.div_unique _ _ _ x); lia.
  - symmetry. apply (Z.mod_unique _ _ q x); lia.
Qed.

Lemma year_decompose (y : Z) :
  1 <= y ->
  exists a b c r,
    y - 1 = 400 * a + 100 * b + 4 * c + r
    /\ 0 <= a /\ 0 <= b < 4 /\ 0 <= c < 25 /\ 0 <= r < 4
    /\ days_before_year y = 146097 * a + 36524 * b + 1461 * c + 365 * r
    /\ is_leap y = (r =? 3) && (negb (c =? 24) || (b =? 3)).
Proof.
  intros Hy.
  exists ((y - 1) / 400), ((y - 1) mod 400 / 100), ((y - 1) mod 100 / 4), ((y - 1) mod 4).
  unfold days_before_year, is_leap. cbv zeta.
  repeat split; try (Z.div_mod_to_equations; lia).
Qed.

Lemma days_before_month_leap (y m : Z) :
  days_before_month y m = days_before_month (if is_leap y then 4 else 1) m.
Proof. unfold days_before_month. destruct (is_leap y); reflexivity. Qed.

Lemma md_check_ok : md_check true = true /\ md_check false = true.
Proof. split; vm_compute; reflexivity. Qed.

Ltac eval_dim H :=
  match type of H with
  | context [days_in_month ?a ?b] =>
      let v := eval vm_compute in (days_in_month a b) in
      change (days_in_month a b) with v in H
  end.

Ltac eval_dbm :=
  match goal with
  | |- context [days_before_month ?a ?b] =>
      let v := eval vm_compute in (days_before_month a b) in
      change (days_before_month a b) with v
  end.

Lemma days_in_month_leap (y m : Z) :
  days_in_month y m = days_in_month (if is_leap y then 4 else 1) m.
Proof. unfold days_in_month. destruct (is_leap y); reflexivity. Qed.

Lemma in_range1 (lo hi x : Z) : lo <= x < hi -> x ∈ Py.range lo hi 1.
Proof.
  intros H. unfold Py.range. destruct (Z.leb_spec hi lo); [lia|].
  apply list_elem_of_fmap. exists (Z.to_nat (x - lo)). split; [lia|].
  apply elem_of_seq. replace ((hi - lo + 1 - 1) / 1) with (hi - lo) by (rewrite Z.div_1_r; lia). lia.
Qed.

Lemma doy2md_spec (y m d : Z) :
  1 <= m <= 12 -> 1 <= d <= days_in_month y m ->
  doy2md (is_leap y) (days_before_month y m + d - 1) = (m, d).
Proof.
  intros Hm Hd.
  assert (Hd31 : d <= 31).
  { rewrite days_in_month_leap in Hd.
    assert (m = 1 \/ m = 2 \/ m = 3 \/ m = 4 \/ m = 5 \/ m = 6 \/ m = 7 \/ m = 8 \/ m = 9
            \/ m = 10 \/ m = 11 \/ m = 12) as Hc by lia.
    destruct (is_leap y); repeat (destruct Hc as [->|Hc]); try subst m; eval_dim Hd; lia. }
  rewrite days_before_month_leap. rewrite days_in_month_leap in Hd.
  pose proof md_check_ok as [Ht Hf].
  destruct (is_leap y).
  - unfold md_check in Ht. rewrite forallb_forall in Ht.
    specialize (Ht m). rewrite forallb_forall in Ht.
    specialize (Ht (proj1 (list_elem_of_In _ _) (in_range1 1 13 m ltac:(lia))) d
                   (proj1 (list_elem_of_In _ _) (in_range1 1 32 d ltac:(lia)))).
    cbv zeta in Ht. destruct (Z.leb_spec d (days_in_month 4 m)); [|lia]. simpl in Ht.
    destruct (doy2md true _) as [m' d']. f_equal; lia.
  - unfold md_check in Hf. rewrite forallb_forall in Hf.
    specialize (Hf m). rewrite forallb_forall in Hf.
    specialize (Hf (proj1 (list_elem_of_In _ _) (in_range1 1 13 m ltac:(lia))) d
                   (proj1 (list_elem_of_In _ _) (in_range1 1 32 d ltac:(lia)))).
    cbv zeta in Hf. destruct (Z.leb_spec d (days_in_month 1 m)); [|lia]. simpl in Hf.
    destruct (doy2md false _) as [m' d']. f_equal; lia.
Qed.

Lemma days_before_month_bound (y m d : Z) :
  1 <= m <= 12 -> 1 <= d <= days_in_month y m ->
  0 <= days_before_month y m + d - 1 < 365 + (if is_leap y then 1 else 0).
Proof.
  intros Hm Hd. rewrite days_before_month_leap. rewrite days_in_month_leap in Hd.
  assert (m = 1 \/ m = 2 \/ m = 3 \/ m = 4 \/ m = 5 \/ m = 6 \/ m = 7 \/ m = 8 \/ m = 9
          \/ m = 10 \/ m = 11 \/ m = 12) as Hc by lia.
  destruct (is_leap y); repeat (destruct Hc as [->|Hc]); try subst m;
    eval_dim Hd; eval_dbm; lia.
Qed.

Lemma ord2ymd_year (y k : Z) :
  1 <= y -> 0 <= k < 365 + (if is_leap y then 1 else 0) ->
  ord2ymd (days_before_year y + k + 1) =
    let '(m, d) := doy2md (is_leap y) k in (y, m, d).
Proof.
  intros Hy Hk.
  destruct (year_decompose y Hy) as (a & b & c & r & HY & Ha & Hb & Hc & Hr & Hdby & Hleap).
  rewrite Hdby, Hleap in *. clear Hdby.
  assert (Hk' : 0 <= k <= 364 \/ (k = 365 /\ r = 3 /\ (c <> 24 \/ b = 3))).
  { destruct ((r =? 3) && (negb (c =? 24) || (b =? 3))) eqn:E; lia. }
  clear Hk.
  assert (Hmd : k = 365 -> doy2md ((r =? 3) && (negb (c =? 24) || (b =? 3))) k = (12, 31)).
  { intros ->. replace ((r =? 3) && (negb (c =? 24) || (b =? 3))) with true by lia. reflexivity. }
  remember (doy2md ((r =? 3) && (negb (c =? 24) || (b =? 3))) k) as md eqn:Emd.
  clear Hleap.
  unfold ord2ymd. cbv zeta.
  replace (146097 * a + 36524 * b + 1461 * c + 365 * r + k + 1 - 1)
    with (146097 * a + (36524 * b + 1461 * c + 365 * r + k)) by lia.
  unfold DI400Y, DI100Y, DI4Y.
  destruct (div_mod_small 146097 a (36524 * b + 1461 * c + 365 * r + k)) as [-> ->]; [lia|].
  destruct (Z.eq_dec k 365) as [Hk365|Hk365].
  - (* last day of a leap year *)
    specialize (Hmd Hk365). rewrite Hmd in *. clear Emd Hmd md. subst k. assert (r = 3) as -> by lia.
    destruct (Z.eq_dec c 24) as [->|Hc24].
    + assert (b = 3) as -> by lia.
      change ((36524 * 3 + 1461 * 24 + 365 * 3 + 365) / 36524) with 4.
      change ((36524 * 3 + 1461 * 24 + 365 * 3 + 365) mod 36524) with 0.
      simpl. change (0 / 1461) with 0. change (0 mod 1461 / 365) with 0. f_equal. f_equal. lia.
    + replace (36524 * b + 1461 * c + 365 * 3 + 365) with (36524 * b + (1461 * c + 1460)) by lia.
      destruct (div_mod_small 36524 b (1461 * c + 1460)) as [-> ->]; [lia|].
      destruct (div_mod_small 1461 c 1460) as [-> ->]; [lia|].
      change (1460 / 365) with 4. change (1460 mod 365) with 0.
      simpl. f_equal. f_equal. lia.
  - clear Hmd.
    replace (36524 * b + 1461 * c + 365 * r + k) with (36524 * b + (1461 * c + 365 * r + k)) by lia.
    destruct (div_mod_small 36524 b (1461 * c + 365 * r + k)) as [-> ->]; [lia|].
    replace (1461 * c + 365 * r + k) with (1461 * c + (365 * r + k)) by lia.
    destruct (div_mod_small 1461 c (365 * r + k)) as [-> ->]; [lia|].
    destruct (div_mod_small 365 r k) as [-> ->]; [lia|].
    replace (r =? 4) with false by lia. replace (b =? 4) with false by lia. simpl.
    rewrite <- Emd. destruct md as [m d]. f_equal. f_equal. lia.
Qed.

Lemma ord2ymd_ymd2ord (y m d : Z) :
  1 <= y -> 1 <= m <= 12 -> 1 <= d <= days_in_month y m ->
  ord2ymd (ymd2ord y m d) = (y, m, d).
Proof.
  intros Hy Hm Hd. unfold ymd2ord.
  replace (days_before_year y + days_before_month y m + d)
    with (days_before_year y + (days_before_month y m + d - 1) + 1) by lia.
  rewrite ord2ymd_year; [|done|by apply days_before_month_bound].
  by rewrite doy2md_spec.
Qed.

Lemma days_before_year_succ (y : Z) :
  days_before_year (y + 1) = days_before_year y + 365 + (if is_leap y then 1 else 0).
Proof.
  unfold days_before_year, is_leap. cbv zeta.
  replace (y + 1 - 1) with y by lia.
  destruct ((y mod 4 =? 0) && (negb (y mod 100 =? 0) || (y mod 400 =? 0))) eqn:E;
    Z.div_mod_to_equations; lia.
Qed.

Lemma days_before_year_mono (y y' : Z) :
  y <= y' -> days_before_year y <= days_before_year y'.
Proof.
  intros H. replace y' with (y + Z.of_nat (Z.to_nat (y' - y))) by lia.
  induction (Z.to_nat (y' - y)) as [|n IH].
  - replace (y + Z.of_nat 0) with y by lia. lia.
  - replace (y + Z.of_nat (S n)) with (y + Z.of_nat n + 1) by lia.
    rewrite days_before_year_succ. destruct (is_leap _); lia.
Qed.

Lemma month_cases (m : Z) :
  1 <= m <= 12 ->
  m = 1 \/ m = 2 \/ m = 3 \/ m = 4 \/ m = 5 \/ m = 6 \/ m = 7 \/ m = 8 \/ m = 9
  \/ m = 10 \/ m = 11 \/ m = 12.
Proof. lia. Qed.

Lemma days_in_month_bounds (y m : Z) : 1 <= m <= 12 -> 28 <= days_in_month y m <= 31.
Proof.
  intros Hm. rewrite days_in_month_leap.
  destruct (month_cases m Hm) as [->|[->|[->|[->|[->|[->|[->|[->|[->|[->|[->| ->]]]]]]]]]]];
    destruct (is_leap y); vm_compute; split; discriminate.
Qed.

Lemma days_before_month_succ (y m : Z) :
  1 <= m < 12 -> days_before_month y (m + 1) = days_before_month y m + days_in_month y m.
Proof.
  intros Hm. rewrite (days_before_month_leap y (m + 1)), (days_before_month_leap y m),
    days_in_month_leap.
  assert (Hm' : 1 <= m <= 12) by lia.
  destruct (month_cases m Hm') as [->|[->|[->|[->|[->|[->|[->|[->|[->|[->|[->| ->]]]]]]]]]]];
    [..|exfalso; clear -Hm; lia]; destruct (is_leap y); reflexivity.
Qed.

Lemma days_before_month_mono (y m m' : Z) :
  1 <= m -> m < m' <= 12 ->
  days_before_month y m + days_in_month y m <= days_before_month y m'.
Proof.
  intros Hm Hm'. rewrite (days_before_month_leap y m), (days_before_month_leap y m'),
    days_in_month_leap.
  assert (H1 : 1 <= m <= 12) by lia. assert (H2 : 1 <= m' <= 12) by lia.
  destruct (month_cases m H1) as [->|[->|[->|[->|[->|[->|[->|[->|[->|[->|[->| ->]]]]]]]]]]];
    destruct (month_cases m' H2) as [->|[->|[->|[->|[->|[->|[->|[->|[->|[->|[->| ->]]]]]]]]]]];
    try (exfalso; clear -Hm'; lia); destruct (is_leap y); vm_compute; discriminate.
Qed.

Lemma ymd2ord_bounds (y m d : Z) :
  1 <= m <= 12 -> 1 <= d <= days_in_month y m ->
  days_before_year y < ymd2ord y m d <= days_before_year (y + 1).
Proof.
  intros Hm Hd. pose proof (days_before_month_bound y m d Hm Hd).
  rewrite days_before_year_succ. unfold ymd2ord. destruct (is_leap y); lia.
Qed.

(** [ymd2ord] is strictly monotone for the lexicographic order of dates. *)
Lemma ymd2ord_lt (y m d y' m' d' : Z) :
  1 <= m <= 12 -> 1 <= d <= days_in_month y m ->
  1 <= m' <= 12 -> 1 <= d' <= days_in_month y' m' ->
  y < y' \/ (y = y' /\ (m < m' \/ (m = m' /\ d < d'))) ->
  ymd2ord y m d < ymd2ord y' m' d'.
Proof.
  intros Hm Hd Hm' Hd' [Hy|[-> [Hlt|[-> Hlt]]]].
  - pose proof (ymd2ord_bounds y m d Hm Hd). pose proof (ymd2ord_bounds y' m' d' Hm' Hd').
    pose proof (days_before_year_mono (y + 1) y'). lia.
  - pose proof (days_before_month_mono y' m m'). unfold ymd2ord. lia.
  - unfold ymd2ord. lia.
Qed.

Lemma ymd2ord_max (y m d : Z) :
  y <= 9999 -> 1 <= m <= 12 -> 1 <= d <= days_in_month y m -> ymd2ord y m d <= MAXORDINAL.
Proof.
  intros Hy Hm Hd. pose proof (ymd2ord_bounds y m d Hm Hd).
  pose proof (days_before_year_mono (y + 1) 10000).
  change (days_before_year 10000) with 3652059 in *. unfold MAXORDINAL. lia.
Qed.

Lemma ymd2ord_min (y m d : Z) :
  1 <= y -> 1 <= m <= 12 -> 1 <= d <= days_in_month y m -> 1 <= ymd2ord y m d.
Proof.
  intros Hy Hm Hd. pose proof (ymd2ord_bounds y m d Hm Hd).
  pose proof (days_before_year_mono 1 y). change (days_before_year 1) with 0 in *. lia.
Qed.

Lemma valid_fields (d : datetime) :
  valid d <->
  1 <= year d <= 9999 /\ 1 <= month d <= 12 /\ 1 <= day d <= days_in_month (year d) (month d)
  /\ 0 <= hour d <= 23 /\ 0 <= minute d <= 59 /\ 0 <= second d <= 59
  /\ 0 <= microsecond d <= 999999 /\ (fold d = 0 \/ fold d = 1).
Proof.
  unfold valid, fields_ok, MINYEAR, MAXYEAR.
  rewrite !andb_true_iff, orb_true_iff, !Z.leb_le, !Z.eqb_eq. tauto.
Qed.

Lemma make_valid (d : datetime) : valid d -> make d = Ok d.
Proof. unfold valid, make. by intros ->. Qed.

Lemma make_Ok (d d' : datetime) : make d = Ok d' -> d' = d /\ valid d.
Proof. unfold make, valid. destruct (fields_ok d); [|discriminate]. by intros [= ->]. Qed.

Lemma time_us_bounds (d : datetime) : valid d -> 0 <= time_us d < US_PER_DAY.
Proof.
  rewrite valid_fields. unfold time_us, US_PER_DAY, US_PER_SECOND. lia.
Qed.

Lemma civil_us_split (d : datetime) :
  civil_us d = US_PER_DAY * ymd2ord (year d) (month d) (day d) + time_us d.
Proof. unfold civil_us, time_us. lia. Qed.

(** Stepping back one day from the first of a month. *)
Lemma ymd2ord_pred_first (y m : Z) :
  1 <= y -> 1 <= m <= 12 ->
  ymd2ord y (m mod 12 + 1) 1 - 1 =
    if m =? 12 then days_before_year y else ymd2ord y m (days_in_month y m).
Proof.
  intros Hy Hm. destruct (Z.eqb_spec m 12) as [->|Hne].
  - change (12 mod 12 + 1) with 1. unfold ymd2ord. change (days_before_month y 1) with 0. lia.
  - rewrite Z.mod_small by lia. unfold ymd2ord.
    rewrite days_before_month_succ by lia. lia.
Qed.

Lemma result_bind_Ok {A B} (a : A) (f : A -> result B) : (Ok a ≫= f) = f a.
Proof. reflexivity. Qed.

Lemma result_bind_Raise {A B} (e : exn) (f : A -> result B) : (Raise e ≫= f) = Raise e.
Proof. reflexivity. Qed.

(** The date of [d - timedelta(days=1)]. *)
Lemma add_minus_day (d : datetime) :
  valid d ->
  let o := ymd2ord (year d) (month d) (day d) - 1 in
  day <$> add d (- US_PER_DAY) =
    if (0 <? o) && (o <=? MAXORDINAL) then Ok (snd (ord2ymd o)) else Raise OverflowError.
Proof.
  intros Hv o. pose proof (time_us_bounds d Hv) as Ht.
  unfold add. rewrite civil_us_split.
  replace (US_PER_DAY * ymd2ord (year d) (month d) (day d) + time_us d + - US_PER_DAY)
    with (US_PER_DAY * o + time_us d) by (subst o; lia).
  destruct (div_mod_small US_PER_DAY o (time_us d) Ht) as [Hdiv Hmod].
  rewrite Hdiv. destruct ((0 <? o) && (o <=? MAXORDINAL)); [|reflexivity].
  unfold of_civil_us. rewrite Hdiv. destruct (ord2ymd o) as [[y m] dd]. reflexivity.
Qed.

Lemma days_in_month_spec (d : datetime) :
  valid d ->
  _days_in_month d =
    if (year d =? 1) && (month d =? 12) then Raise OverflowError
    else Ok (days_in_month (year d) (month d)).
Proof.
  intros Hv. pose proof Hv as Hf. rewrite valid_fields in Hf.
  destruct Hf as (Hy & Hm & Hd & Hh & Hmi & Hs & Hus & Hfold).
  unfold _days_in_month.
  set (first := mk_datetime _ _ _ _ _ _ _ _).
  assert (Hfirst : valid first).
  { rewrite valid_fields. subst first. cbn [year month day hour minute second microsecond fold].
    assert (1 <= month d mod 12 + 1 <= 12) by (Z.div_mod_to_equations; lia).
    pose proof (days_in_month_bounds (year d) (month d mod 12 + 1)). lia. }
  rewrite (make_valid _ Hfirst), result_bind_Ok.
  transitivity (day <$> add first (- US_PER_DAY)).
  { destruct (add first (- US_PER_DAY)); reflexivity. }
  rewrite (add_minus_day first Hfirst). cbv zeta.
  subst first. cbn [year month day].
  rewrite (ymd2ord_pred_first (year d) (month d) (proj1 Hy) Hm).
  destruct (Z.eqb_spec (month d) 12) as [Hm12|Hm12].
  - destruct (Z.eqb_spec (year d) 1) as [Hy1|Hy1].
    + rewrite Hy1. reflexivity.
    + cbn [andb].
      replace (days_before_year (year d)) with (ymd2ord (year d - 1) 12 31).
      2:{ unfold ymd2ord. replace (year d) with (year d - 1 + 1) at 3 by lia.
          rewrite days_before_year_succ. rewrite days_before_month_leap.
          destruct (is_leap (year d - 1)); vm_compute days_before_month; lia. }
      assert (H31 : 1 <= 31 <= days_in_month (year d - 1) 12).
      { rewrite days_in_month_leap. destruct (is_leap _); vm_compute; split; discriminate. }
      pose proof (ymd2ord_min (year d - 1) 12 31 ltac:(lia) ltac:(lia) H31).
      pose proof (ymd2ord_max (year d - 1) 12 31 ltac:(lia) ltac:(lia) H31).
      destruct (Z.ltb_spec 0 (ymd2ord (year d - 1) 12 31)); [|lia].
      destruct (Z.leb_spec (ymd2ord (year d - 1) 12 31) MAXORDINAL); [|lia].
      cbn [andb]. rewrite ord2ymd_ymd2ord by lia. cbn [snd].
      rewrite Hm12. rewrite days_in_month_leap. destruct (is_leap _); reflexivity.
  - rewrite andb_false_r.
    pose proof (days_in_month_bounds (year d) (month d) Hm) as Hb.
    pose proof (ymd2ord_min (year d) (month d) (days_in_month (year d) (month d))
                  ltac:(lia) Hm ltac:(lia)).
    pose proof (ymd2ord_max (year d) (month d) (days_in_month (year d) (month d))
                  ltac:(lia) Hm ltac:(lia)).
    destruct (Z.ltb_spec 0 (ymd2ord (year d) (month d) (days_in_month (year d) (month d)))); [|lia].
    destruct (Z.leb_spec (ymd2ord (year d) (month d) (days_in_month (year d) (month d))) MAXORDINAL);
      [|lia].
    cbn [andb]. rewrite ord2ymd_ymd2ord by lia. reflexivity.
Qed.

(** ** The day merge *)
Lemma range_seqZ (lo hi : Z) : Py.range lo hi 1 = seqZ lo (hi - lo).
Proof.
  unfold Py.range, seqZ. destruct (Z.leb_spec hi lo).
  - replace (Z.to_nat (hi - lo)) with 0%nat by lia. reflexivity.
  - replace (hi - lo + 1 - 1) with (hi - lo) by lia. rewrite Z.div_1_r.
    apply list_fmap_ext. intros _ k _. lia.
Qed.

Lemma merge_loop_step (b : bool) (ds ws : gset Z) (day : Z) (rest : list Z) (w : Z)
    (acc : list Z) :
  merge_loop b ds ws (day :: rest) w acc =
    merge_loop b ds ws rest ((w + 1) mod 7)
      (acc ++ if pick b ds ws ((w + 1) mod 7) day then [day] else []).
Proof.
  cbn [merge_loop]. unfold pick.
  destruct b, (bool_decide (day ∈ ds)), (bool_decide (((w + 1) mod 7) ∈ ws));
    cbn [andb orb negb]; rewrite ?app_nil_r; reflexivity.
Qed.

Lemma merge_loop_elem (b : bool) (ds ws : gset Z) (range : list Z) :
  forall (w : Z) (acc : list Z) (day : Z),
    day ∈ merge_loop b ds ws range w acc <->
    day ∈ acc \/
    exists k : nat, range !! k = Some day /\ pick b ds ws ((w + Z.of_nat k + 1) mod 7) day = true.
Proof.
  induction range as [|d0 rest IH]; intros w acc day.
  - cbn [merge_loop]. split; [auto|]. intros [?|(k & Hk & _)]; [done|].
    by rewrite lookup_nil in Hk.
  - rewrite merge_loop_step, IH. rewrite elem_of_app. split.
    + intros [[Hacc|Hd0]|(k & Hk & Hp)].
      * by left.
      * right. exists 0%nat. destruct (pick b ds ws ((w + 1) mod 7) d0) eqn:E.
        -- apply list_elem_of_singleton in Hd0 as ->. split; [done|].
           by replace (w + Z.of_nat 0 + 1) with (w + 1) by lia.
        -- by apply elem_of_nil in Hd0.
      * right. exists (S k). split; [done|]. rewrite <- Hp. f_equal.
        rewrite Nat2Z.inj_succ. Z.div_mod_to_equations; lia.
    + intros [Hacc|(k & Hk & Hp)]; [by left; left|].
      destruct k as [|k].
      * simpl in Hk. injection Hk as ->. left. right.
        replace (w + Z.of_nat 0 + 1) with (w + 1) in Hp by lia. rewrite Hp.
        by apply list_elem_of_singleton.
      * right. exists k. split; [done|]. rewrite <- Hp. f_equal.
        rewrite Nat2Z.inj_succ. Z.div_mod_to_equations; lia.
Qed.

Lemma merge_loop_sorted (b : bool) (ds ws : gset Z) (range : list Z) :
  forall (w : Z) (acc : list Z),
    StronglySorted Z.lt (acc ++ range) ->
    StronglySorted Z.lt (merge_loop b ds ws range w acc).
Proof.
  induction range as [|d0 rest IH]; intros w acc Hs.
  - cbn [merge_loop]. by rewrite app_nil_r in Hs.
  - rewrite merge_loop_step. apply IH.
    destruct (pick b ds ws ((w + 1) mod 7) d0).
    + by rewrite <- app_assoc.
    + rewrite app_nil_r. apply StronglySorted_app in Hs as (H12 & H1 & H2).
      apply StronglySorted_app. apply StronglySorted_cons in H2 as [_ H2].
      split_and!; [|done..]. intros x1 x2 Hx1 Hx2. apply H12; [done|]. by right.
Qed.

Lemma seqZ_sorted (m : Z) (n : nat) : StronglySorted Z.lt (seqZ m (Z.of_nat n)).
Proof.
  revert m. induction n as [|n IH]; intros m.
  - rewrite seqZ_nil by lia. constructor.
  - rewrite seqZ_cons by lia. replace (Z.pred (Z.of_nat (S n))) with (Z.of_nat n) by lia.
    constructor; [apply IH|]. apply Forall_forall. intros x Hx.
    apply elem_of_seqZ in Hx. lia.
Qed.

Lemma cron_weekday_step (y m day : Z) (k : nat) :
  day = 1 + Z.of_nat k ->
  (weekday (mk_datetime y m 1 0 0 0 0 0) + Z.of_nat k + 1) mod 7 = cron_weekday y m day.
Proof.
  intros ->. unfold cron_weekday, weekday, ymd2ord. cbn [year month Cal.day].
  Z.div_mod_to_equations; lia.
Qed.

Lemma weekday_date_only (d : datetime) :
  weekday d = weekday (mk_datetime (year d) (month d) (day d) 0 0 0 0 0).
Proof. reflexivity. Qed.

Lemma merge_closed (e : _CronEntry) (d : datetime) (o : option bool) :
  valid d ->
  merge_days_and_days_of_week e d o =
    if (year d =? 1) && (month d =? 12) then Raise OverflowError
    else Ok (merged e o (year d) (month d)).
Proof.
  intros Hv. unfold merge_days_and_days_of_week. cbv zeta.
  set (first := mk_datetime _ _ 1 _ _ _ _ _).
  assert (Hfirst : valid first).
  { rewrite valid_fields in Hv |- *. subst first.
    cbn [year month day hour minute second microsecond fold].
    pose proof (days_in_month_bounds (year d) (month d)). lia. }
  rewrite (make_valid _ Hfirst), result_bind_Ok.
  rewrite (days_in_month_spec d Hv).
  destruct ((year d =? 1) && (month d =? 12)); [reflexivity|].
  rewrite result_bind_Ok. reflexivity.
Qed.

Lemma merged_sorted (e : _CronEntry) (o : option bool) (y m : Z) :
  StronglySorted Z.lt (merged e o y m).
Proof.
  unfold merged. apply merge_loop_sorted. rewrite app_nil_l, range_seqZ.
  destruct (Z.le_gt_cases 0 (days_in_month y m + 1 - 1)).
  - rewrite <- (Z2Nat.id (days_in_month y m + 1 - 1)) by done. apply seqZ_sorted.
  - rewrite seqZ_nil by lia. constructor.
Qed.

Lemma merged_elem (e : _CronEntry) (y m day : Z) :
  day ∈ merged e None y m <->
  1 <= day <= days_in_month y m /\ day_selected e y m day.
Proof.
  unfold merged. rewrite merge_loop_elem, range_seqZ.
  replace (days_in_month y m + 1 - 1) with (days_in_month y m) by lia.
  assert (Hpick : forall wd,
    pick (day_star e || day_of_week_star e) (list_to_set (days e))
      (list_to_set (if bool_decide (7 ∈ days_of_week e)
                    then 0 :: days_of_week e else days_of_week e)) wd day = true <->
    if day_star e || day_of_week_star e
    then day ∈ days e /\ (wd ∈ days_of_week e \/ (wd = 0 /\ 7 ∈ days_of_week e))
    else day ∈ days e \/ (wd ∈ days_of_week e \/ (wd = 0 /\ 7 ∈ days_of_week e))).
  { intros wd. unfold pick.
    assert (Hw : wd ∈ (list_to_set (if bool_decide (7 ∈ days_of_week e)
                                   then 0 :: days_of_week e else days_of_week e) : gset Z) <->
                 wd ∈ days_of_week e \/ (wd = 0 /\ 7 ∈ days_of_week e)).
    { rewrite elem_of_list_to_set. case_bool_decide as H7.
      - rewrite elem_of_cons. tauto.
      - tauto. }
    destruct (day_star e || day_of_week_star e).
    - rewrite andb_true_iff, !bool_decide_eq_true, elem_of_list_to_set, Hw. done.
    - rewrite orb_true_iff, !bool_decide_eq_true, elem_of_list_to_set, Hw. done. }
  split.
  - intros [Hnil|(k & Hk & Hp)]; [by apply elem_of_nil in Hnil|].
    apply lookup_seqZ in Hk as [-> Hk]. split; [lia|].
    apply Hpick in Hp. rewrite (cron_weekday_step y m (1 + Z.of_nat k) k eq_refl) in Hp.
    exact Hp.
  - intros [Hday Hsel]. right. exists (Z.to_nat (day - 1)). split.
    + apply lookup_seqZ. lia.
    + apply Hpick. rewrite (cron_weekday_step y m day (Z.to_nat (day - 1))) by lia.
      exact Hsel.
Qed.

Lemma merged_bounds (e : _CronEntry) (o : option bool) (y m day : Z) :
  day ∈ merged e o y m -> 1 <= day <= days_in_month y m.
Proof.
  unfold merged. rewrite merge_loop_elem, range_seqZ.
  intros [Hnil|(k & Hk & _)]; [by apply elem_of_nil in Hnil|].
  apply lookup_seqZ in Hk. lia.
Qed.

(** C3, outside December of year 1: with the operator left out the merge
    returns the strictly ascending list of the days of the month of [d],
    from 1 to the last, that the schedule selects: under AND when the day or
    the day-of-week field was a wildcard, under OR otherwise, the day of the
    week 7 read as 0. *)
Theorem C3_merge_days (e : _CronEntry) (d : datetime) :
  valid d -> ~ (year d = 1 /\ month d = 12) ->
  exists l, merge_days_and_days_of_week e d None = Ok l
    /\ StronglySorted Z.lt l
    /\ forall day, day ∈ l <->
         1 <= day <= days_in_month (year d) (month d)
         /\ day_selected e (year d) (month d) day.
Proof.
  intros Hv Hne. exists (merged e None (year d) (month d)).
  rewrite (merge_closed e d None Hv).
  replace ((year d =? 1) && (month d =? 12)) with false by lia.
  split; [done|]. split; [apply merged_sorted|]. intros day. apply merged_elem.
Qed.

(** ** The feasibility check *)
Lemma index_last_sorted (l : list Z) :
  l <> [] -> StronglySorted Z.lt l ->
  exists x, Py.index l (-1) = Ok x /\ greatest x l.
Proof.
  intros Hne Hs.
  assert (Hlen : 0 < Z.of_nat (length l)) by (destruct l; [done|simpl; lia]).
  unfold Py.index. cbv zeta. change (-1 <? 0) with true. cbn match.
  destruct (Z.ltb_spec (-1 + Z.of_nat (length l)) 0); [lia|].
  destruct (Z.leb_spec (Z.of_nat (length l)) (-1 + Z.of_nat (length l))); [lia|].
  cbn [orb].
  destruct (l !! Z.to_nat (-1 + Z.of_nat (length l))) as [x|] eqn:E.
  - exists x. split; [done|]. split; [by eapply list_elem_of_lookup_2|].
    intros y Hy. apply list_elem_of_lookup in Hy as [i Hi].
    apply (sorted_lookup_le l i (Z.to_nat (-1 + Z.of_nat (length l)))); [done| |done..].
    apply lookup_lt_Some in Hi. lia.
  - apply lookup_ge_None in E. lia.
Qed.

Lemma foldl_max_greatest (l : list Z) (x : Z) : greatest (foldl Z.max x l) (x :: l).
Proof.
  revert x. induction l as [|y l IH]; intros x.
  - simpl. split; [by left|]. intros z Hz. apply list_elem_of_singleton in Hz. lia.
  - cbn [foldl]. destruct (IH (Z.max x y)) as [Hin Hmax]. split.
    + apply elem_of_cons in Hin as [Heq|Hin].
      * rewrite Heq. destruct (Z.max_spec x y) as [[_ ->]|[_ ->]]; [right; left|left].
      * by right; right.
    + intros z Hz. apply elem_of_cons in Hz as [->|Hz].
      * specialize (Hmax (Z.max x y)). pose proof (Hmax ltac:(left)). lia.
      * apply elem_of_cons in Hz as [->|Hz].
        -- specialize (Hmax (Z.max x y)). pose proof (Hmax ltac:(left)). lia.
        -- apply Hmax. by right.
Qed.

Lemma max_greatest (l : list Z) :
  l <> [] -> exists x, Py.max l = Ok x /\ greatest x l.
Proof.
  destruct l as [|x l]; [done|]. intros _. exists (foldl Z.max x l).
  split; [done|]. apply foldl_max_greatest.
Qed.

Lemma longest_month_table (month : Z) :
  1 <= month <= 12 ->
  Py.index [31; 29; 31; 30; 31; 30; 31; 31; 30; 31; 30; 31] (month - 1)
  = Ok (longest_month month).
Proof.
  intros Hm.
  destruct (month_cases month Hm) as [->|[->|[->|[->|[->|[->|[->|[->|[->|[->|[->| ->]]]]]]]]]]];
    reflexivity.
Qed.

Lemma mapM_longest (months : list Z) :
  Forall (fun v => 1 <= v <= 12) months ->
  mapM (fun month => Py.index [31; 29; 31; 30; 31; 30; 31; 31; 30; 31; 30; 31] (month - 1)) months
  = Ok (longest_month <$> months).
Proof.
  induction 1 as [|m l Hm Hl IH]; [done|].
  cbn [mapM]. rewrite (longest_month_table m Hm), result_bind_Ok, IH. reflexivity.
Qed.

Lemma has_triggers_spec (e : _CronEntry) :
  schedule_ok e ->
  exists dmax lmax,
    greatest dmax (days e) /\ greatest lmax (longest_month <$> months e)
    /\ has_triggers e = Ok (negb (day_of_week_star e) || (dmax <=? lmax)).
Proof.
  intros (_ & _ & (Hdne & Hds & _) & (Hmne & _ & Hmb) & _).
  destruct (index_last_sorted (days e) Hdne Hds) as (dmax & Hidx & Hdmax).
  destruct (max_greatest (longest_month <$> months e)) as (lmax & Hmax & Hlmax).
  { destruct (months e); [done|discriminate]. }
  exists dmax, lmax. split; [done|]. split; [done|].
  unfold has_triggers. cbv zeta. destruct (day_of_week_star e); [|reflexivity].
  rewrite Hidx, result_bind_Ok, (mapM_longest _ Hmb), result_bind_Ok, Hmax, result_bind_Ok.
  cbn [negb orb]. destruct (Z.ltb_spec lmax dmax), (Z.leb_spec dmax lmax); try lia; reflexivity.
Qed.

Lemma greatest_unique (x y : Z) (l : list Z) : greatest x l -> greatest y l -> x = y.
Proof. intros [Hx Hxm] [Hy Hym]. specialize (Hxm y Hy). specialize (Hym x Hx). lia. Qed.

(** C6: without the day-of-week wildcard the check accepts; with it, the
    check accepts exactly when the largest day of the month is at most the
    longest length of a selected month, February counted with 29 days. *)
Theorem C6_has_triggers (e : _CronEntry) :
  schedule_ok e ->
  exists b, has_triggers e = Ok b
    /\ (day_of_week_star e = false -> b = true)
    /\ (day_of_week_star e = true ->
        forall dmax lmax,
          greatest dmax (days e) -> greatest lmax (longest_month <$> months e) ->
          (b = true <-> dmax <= lmax)).
Proof.
  intros Hok. destruct (has_triggers_spec e Hok) as (dmax & lmax & Hd & Hl & Hht).
  eexists. split; [exact Hht|]. split.
  - intros ->. reflexivity.
  - intros -> dmax' lmax' Hd' Hl'.
    rewrite (greatest_unique _ _ _ Hd' Hd), (greatest_unique _ _ _ Hl' Hl).
    cbn [negb orb]. apply Z.leb_le.
Qed.

(** ** The expression parser *)
Lemma sorted_spec (s : gset Z) :
  StronglySorted Z.lt (sorted s) /\ forall x, x ∈ sorted s <-> x ∈ s.
Proof.
  unfold sorted. split.
  - assert (Hnd : NoDup (merge_sort Z.le (elements s))).
    { rewrite merge_sort_Permutation. apply NoDup_elements. }
    assert (Hs : StronglySorted Z.le (merge_sort Z.le (elements s))).
    { apply StronglySorted_merge_sort; [intros ???; lia|intros x y; lia]. }
    induction Hs as [|a l Hs IH Hall]; [constructor|].
    apply NoDup_cons in Hnd as [Hna Hnd]. constructor; [by apply IH|].
    rewrite Forall_forall in Hall |- *. intros x Hx.
    specialize (Hall x Hx). assert (a <> x) by (intros ->; done). lia.
  - intros x. rewrite merge_sort_Permutation. apply elem_of_elements.
Qed.

Lemma elem_of_range (lo hi step x : Z) :
  0 < step -> x ∈ Py.range lo hi step -> lo <= x < hi.
Proof.
  intros Hstep. unfold Py.range. destruct (Z.leb_spec hi lo); [by intros ?%elem_of_nil|].
  intros (k & -> & Hk)%list_elem_of_fmap. apply elem_of_seq in Hk.
  assert (Z.of_nat k < (hi - lo + step - 1) / step) by lia.
  split; [nia|]. 
  assert (Z.of_nat k + 1 <= (hi - lo + step - 1) / step) by lia.
  assert (step * ((hi - lo + step - 1) / step) <= hi - lo + step - 1).
  { apply Z.mul_div_le. lia. }
  nia.
Qed.

Lemma split1_chars_length (sep : ascii) (l cur : list ascii) :
  length (Py.split1_chars sep cur l) = 1%nat \/ length (Py.split1_chars sep cur l) = 2%nat.
Proof.
  revert cur. induction l as [|c l IH]; intros cur; cbn [Py.split1_chars]; [by left|].
  destruct (Ascii.eqb c sep); [by right|apply IH].
Qed.

Lemma split1_length (sep : ascii) (s : string) :
  length (Py.split1 sep s) = 1%nat \/ length (Py.split1 sep s) = 2%nat.
Proof. unfold Py.split1. rewrite length_fmap. apply split1_chars_length. Qed.

Lemma bad_raises {A} (name : string) : raises_CronDstError (@bad A name).
Proof. unfold bad. by eexists. Qed.

Lemma within_union (f : _CronField) (s t : gset Z) :
  within f s -> within f t -> within f (s ∪ t).
Proof. intros Hs Ht x [?|?]%elem_of_union; auto. Qed.

Lemma within_range (f : _CronField) (lo hi step : Z) :
  0 < step -> fst (bound f) <= lo -> hi <= snd (bound f) + 1 ->
  within f (list_to_set (Py.range lo hi step)).
Proof.
  intros Hstep Hlo Hhi x Hx. apply elem_of_list_to_set in Hx.
  apply elem_of_range in Hx; lia.
Qed.

Lemma parse_token_spec (f : _CronField) (token : string) (s : gset Z) :
  within f s ->
  match parse_token f token s with
  | Ok s' => within f s' /\ s ⊆ s'
  | Raise e => exists msg, e = CronDstError msg
  end.
Proof.
  intros Hs. unfold parse_token. cbv zeta.
  destruct (split1_length "/" token) as [Hlen|Hlen].
  - (* no step *)
    destruct (Py.split1 "/" token) as [|list_item [|? ?]] eqn:Eparts; try discriminate.
    change (Py.index [list_item] 0) with (Ok list_item). rewrite result_bind_Ok.
    cbn [length]. change (1 <? Z.of_nat 1) with false. cbn match. rewrite result_bind_Ok.
    change (1 <=? 0) with false. cbn match.
    destruct (String.eqb list_item "*").
    { split; [|apply union_subseteq_l]. apply within_union; [done|]. apply within_range; lia. }
    destruct (Z.of_nat (length (Py.split "-" list_item)) =? 1) eqn:E1.
    { destruct (_number_from_item list_item (text_map f)) as [num|]; [|by eexists].
      destruct (Z.ltb_spec num (fst (bound f))); [by eexists|].
      destruct (Z.ltb_spec (snd (bound f)) num); [by eexists|]. cbn [orb].
      split; [|apply union_subseteq_l]. apply within_union; [done|].
      intros x ->%elem_of_singleton. lia. }
    destruct (Z.of_nat (length (Py.split "-" list_item)) =? 2) eqn:E2; [|by eexists].
    cbn [negb].
    destruct (Py.split "-" list_item) as [|r0 [|r1 [|? ?]]] eqn:Er;
      try discriminate; try (exfalso; apply Z.eqb_eq in E2; cbn [length] in E2; lia).
    change (Py.index [r0; r1] 0) with (Ok r0). change (Py.index [r0; r1] 1) with (Ok r1).
    rewrite !result_bind_Ok.
    destruct (_number_from_item r0 (text_map f)) as [lower|]; [|by eexists].
    destruct (_number_from_item r1 (text_map f)) as [upper|]; [|by eexists].
    destruct (Z.ltb_spec upper lower); [by eexists|].
    destruct (Z.ltb_spec lower (fst (bound f))); [by eexists|].
    destruct (Z.ltb_spec (snd (bound f)) upper); [by eexists|]. cbn [orb].
    split; [|apply union_subseteq_l]. apply within_union; [done|]. apply within_range; lia.
  - (* with a step *)
    destruct (Py.split1 "/" token) as [|list_item [|p1 [|? ?]]] eqn:Eparts; try discriminate.
    change (Py.index [list_item; p1] 0) with (Ok list_item). rewrite result_bind_Ok.
    cbn [length]. change (1 <? Z.of_nat 2) with true. cbn match.
    change (Py.index [list_item; p1] 1) with (Ok p1). rewrite result_bind_Ok.
    destruct (Py.int p1) as [step|]; [|by eexists]. rewrite result_bind_Ok.
    destruct (Z.leb_spec step 0); [by eexists|].
    destruct (String.eqb list_item "*").
    { split; [|apply union_subseteq_l]. apply within_union; [done|]. apply within_range; lia. }
    destruct (Z.of_nat (length (Py.split "-" list_item)) =? 1) eqn:E1.
    { destruct (_number_from_item list_item (text_map f)) as [num|]; [|by eexists].
      destruct (Z.ltb_spec num (fst (bound f))); [by eexists|].
      destruct (Z.ltb_spec (snd (bound f)) num); [by eexists|]. cbn [orb].
      split; [|apply union_subseteq_l]. apply within_union; [done|]. apply within_range; lia. }
    destruct (Z.of_nat (length (Py.split "-" list_item)) =? 2) eqn:E2; [|by eexists].
    cbn [negb].
    destruct (Py.split "-" list_item) as [|r0 [|r1 [|? ?]]] eqn:Er;
      try discriminate; try (exfalso; apply Z.eqb_eq in E2; cbn [length] in E2; lia).
    change (Py.index [r0; r1] 0) with (Ok r0). change (Py.index [r0; r1] 1) with (Ok r1).
    rewrite !result_bind_Ok.
    destruct (_number_from_item r0 (text_map f)) as [lower|]; [|by eexists].
    destruct (_number_from_item r1 (text_map f)) as [upper|]; [|by eexists].
    destruct (Z.ltb_spec upper lower); [by eexists|].
    destruct (Z.ltb_spec lower (fst (bound f))); [by eexists|].
    destruct (Z.ltb_spec (snd (bound f)) upper); [by eexists|]. cbn [orb].
    split; [|apply union_subseteq_l]. apply within_union; [done|]. apply within_range; lia.
Qed.

Lemma parse_tokens_spec (f : _CronField) (tokens : list string) :
  forall s : gset Z,
    within f s ->
    match parse_tokens f tokens s with
    | Ok s' => within f s' /\ s ⊆ s'
    | Raise e => exists msg, e = CronDstError msg
    end.
Proof.
  induction tokens as [|token rest IH]; intros s Hs; cbn [parse_tokens]; [done|].
  pose proof (parse_token_spec f token s Hs) as Ht.
  destruct (parse_token f token s) as [s'|e]; [|done].
  rewrite result_bind_Ok. destruct Ht as [Hw Hsub].
  specialize (IH s' Hw). destruct (parse_tokens f rest s') as [s''|e]; [|done].
  destruct IH. split; [done|]. by etrans.
Qed.

Lemma parse_fields_spec (fields : list string) :
  forall (idx : Z) (structure : list (gset Z)) (st : stars),
    0 <= idx -> idx + Z.of_nat (length fields) = 5 -> structure_ok structure ->
    match parse_fields idx fields structure st with
    | Ok (structure', _) => structure_ok structure'
    | Raise e => exists msg, e = CronDstError msg
    end.
Proof.
  induction fields as [|field rest IH]; intros idx structure st Hidx Hlen Hok;
    cbn [parse_fields]; [done|].
  cbn [length] in Hlen.
  destruct (index_in_range FIELD_PROPS idx) as (f & -> & Hf); [simpl; lia|].
  destruct Hok as [Hl Hw].
  destruct (index_in_range structure idx) as (s & -> & Hs); [lia|].
  rewrite !result_bind_Ok.
  pose proof (parse_tokens_spec f (Py.split "," field) s (Hw _ _ _ Hf Hs)) as Ht.
  destruct (parse_tokens f (Py.split "," field) s) as [s'|e]; [|done].
  rewrite result_bind_Ok. destruct Ht as [Hw' _].
  apply IH; [lia|lia|]. split; [by rewrite length_insert|].
  intros i f' s'' Hf' Hs''.
  destruct (decide (i = Z.to_nat idx)) as [->|Hne].
  - rewrite list_lookup_insert_eq in Hs'' by lia. simplify_eq. done.
  - rewrite list_lookup_insert_ne in Hs'' by done. eauto.
Qed.

Lemma field_ok_sorted (f : _CronField) (s : gset Z) :
  within f s -> s <> ∅ -> field_ok (fst (bound f)) (snd (bound f)) (sorted s).
Proof.
  intros Hw Hne. destruct (sorted_spec s) as [Hs Hel]. split; [|split; [done|]].
  - intros Hnil. apply Hne. apply set_eq. intros x. rewrite <- Hel, Hnil.
    split; [by intros ?%elem_of_nil|by intros ?%not_elem_of_empty].
  - apply Forall_forall. intros x Hx. apply Hw, Hel, Hx.
Qed.

(** What the parser returns satisfies the invariants of a schedule, and
    the only exception it raises is its own. *)
Lemma from_expression_spec (expression : string) :
  match from_expression expression with
  | Ok e => schedule_ok e
  | Raise x => exists msg, x = CronDstError msg
  end.
Proof.
  unfold from_expression.
  destruct (MAX_EXPRESSION_LENGTH <? Py.len expression); [by eexists|].
  cbv zeta.
  destruct (Z.eqb_spec (Z.of_nat (length (Py.split_ws (Py.strip expression)))) 5) as [Hlen|Hlen];
    cbn [negb]; [|by eexists].
  pose proof (parse_fields_spec (Py.split_ws (Py.strip expression)) 0 (replicate 5 ∅)
                (false, false, false, false)) as Hp.
  destruct (parse_fields 0 _ _ _) as [[structure [[[ms hs] ds] ws]]|e].
  2:{ apply Hp; [lia|lia|]. split; [done|]. intros i f s _ Hs.
      apply lookup_replicate in Hs as [-> _]. intros x Hx. by apply not_elem_of_empty in Hx. }
  rewrite result_bind_Ok.
  destruct Hp as [Hl Hw]; [lia|lia| |].
  { split; [done|]. intros i f s _ Hs.
    apply lookup_replicate in Hs as [-> _]. intros x Hx. by apply not_elem_of_empty in Hx. }
  destruct structure as [|s0 [|s1 [|s2 [|s3 [|s4 [|? ?]]]]]]; try discriminate.
  destruct (existsb _ _) eqn:Eex; [by eexists|].
  cbn [existsb] in Eex. rewrite !orb_false_iff, !bool_decide_eq_false in Eex.
  destruct Eex as (H0 & H1 & H2 & H3 & H4 & _).
  change (Py.index [s0; s1; s2; s3; s4] 0) with (Ok s0).
  change (Py.index [s0; s1; s2; s3; s4] 1) with (Ok s1).
  change (Py.index [s0; s1; s2; s3; s4] 2) with (Ok s2).
  change (Py.index [s0; s1; s2; s3; s4] 3) with (Ok s3).
  change (Py.index [s0; s1; s2; s3; s4] 4) with (Ok s4).
  rewrite !result_bind_Ok.
  set (entry := mk_CronEntry _ _ _ _ _ _ _ _ _).
  assert (Hok : schedule_ok entry).
  { unfold schedule_ok, entry. cbn [minutes hours days months days_of_week].
    split_and!.
    - apply (field_ok_sorted (mk_CronField "minute" (0, 59) None)); [|done].
      by apply (Hw 0%nat _ s0).
    - apply (field_ok_sorted (mk_CronField "hour" (0, 23) None)); [|done].
      by apply (Hw 1%nat _ s1).
    - apply (field_ok_sorted (mk_CronField "day-of-month" (1, 31) None)); [|done].
      by apply (Hw 2%nat _ s2).
    - pose proof (Hw 3%nat _ s3 eq_refl eq_refl) as H.
      by apply (field_ok_sorted _ _ H).
    - pose proof (Hw 4%nat _ s4 eq_refl eq_refl) as H.
      by apply (field_ok_sorted _ _ H). }
  destruct (has_triggers_spec entry Hok) as (dmax & lmax & _ & _ & ->).
  rewrite result_bind_Ok.
  destruct (negb _); [by eexists|done].
Qed.

Lemma from_expression_schedule_ok (expression : string) (e : _CronEntry) :
  from_expression expression = Ok e -> schedule_ok e.
Proof. intros H. pose proof (from_expression_spec expression) as Hs. by rewrite H in Hs. Qed.

(** C2: the parser either raises [CronDstError] or returns a schedule
    whose five sequences are non-empty, strictly ascending and within the
    bounds of their fields. *)
Theorem C2_from_expression (expression : string) :
  (exists msg, from_expression expression = Raise (CronDstError msg))
  \/ (exists e, from_expression expression = Ok e /\ schedule_ok e).
Proof.
  pose proof (from_expression_spec expression) as Hs.
  destruct (from_expression expression) as [e|x].
  - right. by exists e.
  - left. destruct Hs as [msg ->]. by exists msg.
Qed.

Lemma parse_fields_stars (fields : list string) :
  forall (idx : Z) (structure structure' : list (gset Z)) (st st' : stars),
    parse_fields idx fields structure st = Ok (structure', st') ->
    st' = stars_after idx fields st.
Proof.
  induction fields as [|field rest IH]; intros idx structure structure' st st' H;
    cbn [parse_fields stars_after] in *.
  - by injection H as _ <-.
  - destruct (Py.index FIELD_PROPS idx) as [f|]; [|discriminate].
    destruct (Py.index structure idx) as [s|]; [|discriminate].
    rewrite !result_bind_Ok in H.
    destruct (parse_tokens f (Py.split "," field) s) as [s'|]; [|discriminate].
    rewrite result_bind_Ok in H. by apply IH in H.
Qed.

Lemma from_expression_stars (expression : string) (e : _CronEntry) :
  from_expression expression = Ok e ->
  (minute_star e, hour_star e, day_star e, day_of_week_star e)
  = stars_after 0 (Py.split_ws (Py.strip expression)) (false, false, false, false).
Proof.
  unfold from_expression.
  destruct (MAX_EXPRESSION_LENGTH <? Py.len expression); [discriminate|].
  cbv zeta. destruct (negb _); [discriminate|].
  destruct (parse_fields 0 _ _ _) as [[structure [[[ms hs] ds] ws]]|] eqn:Ep; [|discriminate].
  apply parse_fields_stars in Ep. rewrite result_bind_Ok.
  destruct (existsb _ _); [discriminate|].
  destruct (Py.index structure 0); [|discriminate].
  destruct (Py.index structure 1); [|discriminate].
  destruct (Py.index structure 2); [|discriminate].
  destruct (Py.index structure 3); [|discriminate].
  destruct (Py.index structure 4); [|discriminate].
  rewrite !result_bind_Ok.
  destruct (has_triggers _) as [b|]; [|discriminate].
  rewrite result_bind_Ok. destruct (negb b); [discriminate|].
  intros [= <-]. cbn [minute_star hour_star day_star day_of_week_star]. done.
Qed.

Lemma from_expression_five_fields (expression : string) (e : _CronEntry) :
  from_expression expression = Ok e ->
  exists f0 f1 f2 f3 f4, Py.split_ws (Py.strip expression) = [f0; f1; f2; f3; f4].
Proof.
  unfold from_expression.
  destruct (MAX_EXPRESSION_LENGTH <? Py.len expression); [discriminate|].
  cbv zeta.
  destruct (Z.eqb_spec (Z.of_nat (length (Py.split_ws (Py.strip expression)))) 5) as [Hlen|Hlen];
    cbn [negb]; [|discriminate].
  intros _.
  destruct (Py.split_ws (Py.strip expression)) as [|f0 [|f1 [|f2 [|f3 [|f4 [|? ?]]]]]];
    cbn [length] in Hlen; try lia.
  by exists f0, f1, f2, f3, f4.
Qed.

(** C7, as the code has it: each of the four flags is set exactly when
    the text of its field starts with [*], so a first item [*/step] sets it
    and a [*] in a later item of a comma list does not. *)
Theorem C7_wildcard_flags (expression : string) (e : _CronEntry) :
  from_expression expression = Ok e ->
  exists f0 f1 f2 f3 f4,
    Py.split_ws (Py.strip expression) = [f0; f1; f2; f3; f4]
    /\ minute_star e = Py.startswith "*" f0
    /\ hour_star e = Py.startswith "*" f1
    /\ day_star e = Py.startswith "*" f2
    /\ day_of_week_star e = Py.startswith "*" f4.
Proof.
  intros H. destruct (from_expression_five_fields _ _ H) as (f0 & f1 & f2 & f3 & f4 & Hf).
  exists f0, f1, f2, f3, f4. split; [done|].
  apply from_expression_stars in H. rewrite Hf in H.
  cbn [stars_after] in H. unfold update_stars in H.
  destruct (Py.startswith "*" f0), (Py.startswith "*" f1), (Py.startswith "*" f2),
    (Py.startswith "*" f3), (Py.startswith "*" f4);
    cbn in H; injection H as -> -> -> ->; done.
Qed.

Lemma C7_wildcard_flags_witness :
  exists e, from_expression "*/15 0 1,* jan *" = Ok e
    /\ exists f0 f1 f2 f3 f4,
        Py.split_ws (Py.strip "*/15 0 1,* jan *") = [f0; f1; f2; f3; f4]
        /\ minute_star e = Py.startswith "*" f0
        /\ hour_star e = Py.startswith "*" f1
        /\ day_star e = Py.startswith "*" f2
        /\ day_of_week_star e = Py.startswith "*" f4.
Proof.
  eexists. split; [vm_compute; reflexivity|].
  apply (C7_wildcard_flags "*/15 0 1,* jan *"). vm_compute. reflexivity.
Defined.

Lemma C7_counterexample : ~ C7_as_stated "*/2 * * * *".
Proof.
  intros H.
  destruct (from_expression "*/2 * * * *") as [e|] eqn:E; [|by vm_compute in E].
  destruct (H e) as (f0 & f1 & f2 & f3 & f4 & Hf & Hm & _); [by rewrite <- E|].
  vm_compute in Hf. injection Hf as <- <- <- <- <-.
  vm_compute in E. injection E as <-. cbn [minute_star] in Hm.
  destruct Hm as [Hm _]. specialize (Hm eq_refl). discriminate.
Qed.

(** The search in a sorted list: the smallest value at or above the
    target when the index is in range, no such value otherwise. *)
Lemma nearest_spec (l : list Z) (t : Z) :
  StronglySorted Z.lt l ->
  exists i, _index_of_nearest_number l t = Ok i
    /\ if i <? Z.of_nat (length l)
       then exists v, Py.index l i = Ok v /\ v ∈ l /\ t <= v
                      /\ forall x, x ∈ l -> t <= x -> v <= x
       else forall x, x ∈ l -> x < t.
Proof.
  intros Hs. destruct (index_of_nearest_number_insertion l t) as (i & Hi & Hr & Hlo & Hhi).
  exists i. split; [done|]. destruct (Z.ltb_spec i (Z.of_nat (length l))) as [Hlt|Hge].
  - destruct (Hhi Hlt) as (v & Hv & Htv).
    destruct (index_in_range l i) as (v' & Hidx & Hv'); [lia|]. simplify_eq.
    exists v. split; [done|]. split; [by eapply list_elem_of_lookup_2|]. split; [done|].
    intros x Hx Htx. apply list_elem_of_lookup in Hx as [j Hj].
    destruct (Z.le_gt_cases i (Z.of_nat j)) as [Hij|Hij].
    + apply (sorted_lookup_le l (Z.to_nat i) j); [done|lia|done..].
    + destruct Hlo as (w & Hw & Hwt); [lia|].
      assert (x <= w); [|lia].
      apply (sorted_lookup_le l j (Z.to_nat (i - 1))); [done|lia|done..].
  - intros x Hx. apply list_elem_of_lookup in Hx as [j Hj].
    pose proof (lookup_lt_Some _ _ _ Hj).
    destruct Hlo as (w & Hw & Hwt); [lia|].
    assert (x <= w); [|lia].
    apply (sorted_lookup_le l j (Z.to_nat (i - 1))); [done|lia|done..].
Qed.

Lemma first_spec (l : list Z) :
  l <> [] -> StronglySorted Z.lt l ->
  exists v, Py.index l 0 = Ok v /\ v ∈ l /\ forall x, x ∈ l -> v <= x.
Proof.
  intros Hne Hs. destruct l as [|v l]; [done|]. exists v.
  split; [done|]. split; [by left|]. intros x Hx.
  apply StronglySorted_cons in Hs as [Hall _]. rewrite Forall_forall in Hall.
  apply elem_of_cons in Hx as [->|Hx]; [lia|]. specialize (Hall x Hx). lia.
Qed.

Ltac step_nearest l t Hs i H :=
  let Hi := fresh "Hi" in
  destruct (nearest_spec l t Hs) as (i & Hi & H);
  rewrite Hi, result_bind_Ok; clear Hi;
  destruct (i <? Z.of_nat (length l));
  [ let v := fresh "v" in
    let Hv := fresh "Hv" in
    destruct H as (v & Hv & H); rewrite Hv, result_bind_Ok; clear Hv
  | ].

Ltac use_mem :=
  repeat match goal with
  | H : forall x, x ∈ ?l -> _, Hx : ?y ∈ ?l |- _ =>
      let P := type of (H y Hx) in
      let P' := eval cbv beta in P in
      lazymatch goal with
      | _ : P' |- _ => fail
      | _ => assert P' by exact (H y Hx)
      end
  end.

Lemma stages_spec (e : _CronEntry) (start : datetime) (M0 H0 : Z) :
  schedule_ok e ->
  Py.index (minutes e) 0 = Ok M0 -> M0 ∈ minutes e -> (forall x, x ∈ minutes e -> M0 <= x) ->
  Py.index (hours e) 0 = Ok H0 -> H0 ∈ hours e -> (forall x, x ∈ hours e -> H0 <= x) ->
  match merge_days_and_days_of_week e start None with
  | Ok D =>
      StronglySorted Z.lt D ->
      match wallclock_stages start e with
      | Ok c => stage_post e start D M0 H0 c
      | Raise _ => False
      end
  | Raise x => wallclock_stages start e = Raise x
  end.
Proof.
  intros ((_ & HMs & _) & (_ & HHs & _) & _) HM0 HM0in HM0min HH0 HH0in HH0min.
  unfold wallclock_stages. cbv zeta.
  step_nearest (minutes e) (minute start + 1) HMs i1 F1; cbv beta iota;
    rewrite ?HM0, ?HH0, ?result_bind_Ok; cbv beta iota.
  all: match goal with
       | |- context [_index_of_nearest_number (hours ?e') ?t] =>
           step_nearest (hours e') t HHs i2 F2
       end; cbv beta iota; rewrite ?HM0, ?HH0, ?result_bind_Ok; cbv beta iota.
  all: try match goal with
       | |- context [negb (?a =? ?b)] =>
           destruct (Z.eqb_spec a b); cbn [negb];
           rewrite ?HM0, ?HH0, ?result_bind_Ok; cbv beta iota
       end.
  all: destruct (merge_days_and_days_of_week e start None) as [D|x]; [|reflexivity].
  all: intros HDs; rewrite result_bind_Ok.
  all: match goal with
       | |- context [_index_of_nearest_number ?D' (?a + ?b)] =>
           step_nearest D' (a + b) HDs i3 F3
       | |- context [_index_of_nearest_number ?D' (Cal.day ?a)] =>
           step_nearest D' (Cal.day a) HDs i3 F3
       end; cbv beta iota; rewrite ?HM0, ?HH0, ?result_bind_Ok; cbv beta iota.
  all: try match goal with
       | |- context [negb (?a =? ?b)] =>
           destruct (Z.eqb_spec a b); cbn [negb];
           rewrite ?HM0, ?HH0, ?result_bind_Ok; cbv beta iota
       end.
  all: unfold stage_post, lex3_lt, lex3_le;
       cbn [next_year next_month next_day next_hour next_minute is_placeholder_day];
       (split; [reflexivity|]).
  all: repeat match goal with H : _ /\ _ |- _ => destruct H end.
  all: use_mem.
  all: solve
    [ left; split_and!; try done; try lia;
      intros d h mi Hd Hh Hmi Hlt; use_mem; lia
    | right; split_and!; try done; try lia;
      intros d h mi Hd Hh Hmi Hlt; use_mem; lia ].
Qed.

Lemma matches_merged (e : _CronEntry) (t : datetime) :
  valid t -> matches e t -> day t ∈ merged e None (year t) (month t).
Proof.
  intros Hv (_ & _ & _ & l & Hl & Hin). rewrite (merge_closed e t None Hv) in Hl.
  destruct ((year t =? 1) && (month t =? 12)); [discriminate|]. by injection Hl as <-.
Qed.

Lemma make_Raise (d : datetime) (x : exn) : make d = Raise x -> ~ valid d.
Proof. unfold make, valid. destruct (fields_ok d); [discriminate|]. intros _. discriminate. Qed.

Lemma make_raises (d : datetime) (x : exn) : make d = Raise x -> x = ValueError.
Proof. unfold make. destruct (fields_ok d); [discriminate|]. by intros [= <-]. Qed.

(** The merge raises in December of year 1, so nothing matches there. *)
Lemma no_match_in_first_december (e : _CronEntry) (t : datetime) :
  valid t -> matches e t -> ~ (year t = 1 /\ month t = 12).
Proof.
  intros Hv (_ & _ & _ & l & Hl & _) [Hy Hm]. rewrite (merge_closed e t None Hv) in Hl.
  rewrite Hy, Hm in Hl. discriminate Hl.
Qed.

Lemma search_post_weaken (e : _CronEntry) (start : datetime) (lower last_year last_year' : Z)
    (n : nat) (p : Z) (r : result (option datetime * Z)) :
  last_year' <= last_year ->
  search_post e start lower last_year' n p r -> search_post e start lower last_year n p r.
Proof.
  intros Hle. unfold search_post, search_raises. destruct r as [[[t|] p']|x]; [done|done|].
  intros [H|(-> & Hy & Hn)]; [by left|]. right. split; [done|]. split; [lia|done].
Qed.

Section Search.

Variable e : _CronEntry.

Variable start : datetime.
Variables M0 H0 Mo0 : Z.

Hypothesis He : schedule_ok e.

Hypothesis Hstart : valid start.

Hypothesis HM0 : Py.index (minutes e) 0 = Ok M0.

Hypothesis HM0in : M0 ∈ minutes e.

Hypothesis HM0min : forall x, x ∈ minutes e -> M0 <= x.

Hypothesis HH0 : Py.index (hours e) 0 = Ok H0.

Hypothesis HH0in : H0 ∈ hours e.

Hypothesis HH0min : forall x, x ∈ hours e -> H0 <= x.

Hypothesis HMo0 : Py.index (months e) 0 = Ok Mo0.

Hypothesis HMo0in : Mo0 ∈ months e.

Hypothesis HMo0min : forall x, x ∈ months e -> Mo0 <= x.

Lemma minutes_range (x : Z) : x ∈ minutes e -> 0 <= x <= 59.
Proof. destruct He as ((_ & _ & H) & _). rewrite Forall_forall in H. apply H. Qed.

Lemma hours_range (x : Z) : x ∈ hours e -> 0 <= x <= 23.
Proof. destruct He as (_ & (_ & _ & H) & _). rewrite Forall_forall in H. apply H. Qed.

Lemma months_range (x : Z) : x ∈ months e -> 1 <= x <= 12.
Proof. destruct He as (_ & _ & _ & (_ & _ & H) & _). rewrite Forall_forall in H. apply H. Qed.

(** The rest of a pass once the month is settled on a placeholder day. *)
Lemma placeholder_valid (y mo : Z) :
  1 <= y <= 9999 -> 1 <= mo <= 12 -> valid (mk_datetime y mo 1 H0 M0 0 0 0).
Proof.
  intros Hy Hmo. rewrite valid_fields.
  cbn [year month day hour minute second microsecond fold].
  pose proof (minutes_range M0 HM0in). pose proof (hours_range H0 HH0in).
  pose proof (days_in_month_bounds y mo Hmo). lia.
Qed.

(** One pass from a settled placeholder month [(y, mo)] with [mo] a month
    of the schedule: the first merged day of that month, or the next pass. *)
Lemma settled_pass (n : nat) (p : Z) (y mo lower : Z)
    (rest : candidate -> result (option datetime * Z)) :
  year start <= y -> 1 <= year start -> mo ∈ months e ->
  ym (year start) (month start) < ym y mo ->
  (forall t, valid t -> matches e t -> civil_lt start t -> ym y mo <= ym (year t) (month t)) ->
  lower <= ym y mo ->
  (merged e None y mo = [] ->
   search_post e start (ym y (mo + 1)) (y + Z.of_nat n) n (p + 1)
     (rest (mk_candidate M0 H0 1 (mo + 1) y true))) ->
  search_post e start lower (y + Z.of_nat n) (S n) p
    (timestamp ← datetime5 y mo 1 H0 M0;
     days_and_days_of_week ← merge_days_and_days_of_week e timestamp None;
     match days_and_days_of_week with
     | d :: _ =>
         t ← make (mk_datetime y mo d (hour timestamp) (minute timestamp)
                               (second timestamp) (microsecond timestamp) (fold timestamp));
         Ok (Some t, p + 1)
     | [] => rest (mk_candidate M0 H0 1 (mo + 1) y true)
     end).
Proof.
  intros Hy Hys Hmo Hafter Hlb Hlower Hrest.
  pose proof (months_range mo Hmo) as Hmor.
  pose proof Hstart as Hsf. rewrite valid_fields in Hsf.
  unfold datetime5. destruct (Z.le_gt_cases y 9999) as [Hy9|Hy9].
  2:{ destruct (make _) as [ts|x] eqn:Ets.
      - apply make_Ok in Ets as [_ Hv]. rewrite valid_fields in Hv. cbn in Hv. lia.
      - rewrite result_bind_Raise. cbn [search_post]. right.
        apply make_raises in Ets as ->. split; [done|]. split; [lia|].
        intros t Hv Hm Hlt. specialize (Hlb t Hv Hm Hlt). rewrite valid_fields in Hv.
        unfold ym in Hlb. lia. }
  pose proof (placeholder_valid y mo ltac:(lia) Hmor) as Hts.
  rewrite (make_valid _ Hts), result_bind_Ok, (merge_closed e _ None Hts).
  cbn [year month hour minute second microsecond fold].
  destruct ((y =? 1) && (mo =? 12)) eqn:Edec.
  { rewrite result_bind_Raise. cbn [search_post]. left.
    assert (y = 1 /\ mo = 12) as [-> ->] by lia.
    split; [done|]. split; [lia|]. split; [by right|].
    intros t Hv Hm Hlt. specialize (Hlb t Hv Hm Hlt).
    pose proof (no_match_in_first_december e t Hv Hm) as Hdec.
    rewrite valid_fields in Hv. unfold ym in Hlb. lia. }
  rewrite result_bind_Ok.
  destruct (merged e None y mo) as [|d0 ds] eqn:Em.
  - (* no day in this month *)
    specialize (Hrest eq_refl).
    destruct (rest _) as [[[t|] p']|x]; cbn [search_post] in *.
    + destruct Hrest as (? & ? & ? & ? & ?). split_and!; try done; lia.
    + destruct Hrest as [-> Hn]. split; [lia|]. intros t' Hv' Hm' Hlt'.
      specialize (Hn t' Hv' Hm' Hlt'). unfold ym in *. lia.
    + done.
  - (* the first merged day *)
    assert (Hd0 : d0 ∈ merged e None y mo) by (rewrite Em; left).
    pose proof (merged_bounds e None y mo d0 Hd0) as Hd0b.
    assert (Hr : valid (mk_datetime y mo d0 H0 M0 0 0 0)).
    { rewrite valid_fields in Hts |- *.
      cbn [year month day hour minute second microsecond fold] in *. lia. }
    rewrite (make_valid _ Hr), result_bind_Ok. cbn [search_post].
    split; [done|]. split.
    { unfold civil_lt, ym in *. cbn [year month]. lia. }
    split.
    { unfold matches. cbn [year month day hour minute]. split_and!; try done.
      exists (merged e None y mo). rewrite (merge_closed e _ None Hr).
      cbn [year month]. replace ((y =? 1) && (mo =? 12)) with false by lia. done. }
    split; [|lia].
    intros t' Hv' Hm' Hlt' Hlt.
    specialize (Hlb t' Hv' Hm' Hlt').
    pose proof (matches_merged e t' Hv' Hm') as Hday.
    destruct Hm' as (Hmi' & Hh' & Hmo' & _).
    pose proof (HM0min _ Hmi'). pose proof (HH0min _ Hh').
    pose proof (months_range _ Hmo').
    unfold civil_lt, ym in *. cbn [year month day hour minute] in Hlt.
    assert (Hsame : year t' = y /\ month t' = mo) by lia. destruct Hsame as [Hy' Hmo''].
    rewrite Hy', Hmo'', Em in Hday.
    pose proof (merged_sorted e None y mo) as Hsorted. rewrite Em in Hsorted.
    apply StronglySorted_cons in Hsorted as [Hall _]. rewrite Forall_forall in Hall.
    apply elem_of_cons in Hday as [Heq|Hin]; [lia|]. specialize (Hall _ Hin). lia.
Qed.

Lemma months_sorted : StronglySorted Z.lt (months e).
Proof. by destruct He as (_ & _ & _ & (_ & H & _) & _). Qed.

(** The loop from a candidate on a placeholder day. *)
Lemma loop_placeholder (n : nat) :
  forall (c : candidate) (p : Z),
    placeholder_inv e start M0 H0 c ->
    search_post e start (ym (next_year c) (next_month c)) (next_year c + Z.of_nat n) n p
      (month_loop start e n c p).
Proof.
  pose proof Hstart as Hsf. rewrite valid_fields in Hsf.
  induction n as [|n IH]; intros c p (Hph & Hd & Hh & Hmi & Hmo & Hy & Hafter & Hlb).
  - cbn [month_loop search_post]. split; [lia|]. intros t' Hv' Hm' Hlt'.
    specialize (Hlb t' Hv' Hm' Hlt'). lia.
  - cbn [month_loop]. cbv zeta.
    destruct c as [cmi ch cd cmo cy cph].
    cbn [next_minute next_hour next_day next_month next_year is_placeholder_day] in *.
    subst cmi ch cd cph.
    step_nearest (months e) cmo months_sorted i F.
    + (* a month of this year *)
      destruct F as (Hvin & Hge & Hvmin).
      pose proof (months_range _ Hvin) as Hvr.
      assert (Hsame : (if negb (v =? month start)
                       then m ← Py.index (minutes e) 0; h ← Py.index (hours e) 0;
                            Ok (mk_candidate m h 1 v cy true)
                       else Ok (mk_candidate M0 H0 1 v cy true))
                      = Ok (mk_candidate M0 H0 1 v cy true)).
      { destruct (negb _); [|done]. by rewrite HM0, result_bind_Ok, HH0, result_bind_Ok. }
      rewrite Hsame, result_bind_Ok. clear Hsame.
      cbn [next_minute next_hour next_day next_month next_year is_placeholder_day].
      replace (cy + Z.of_nat (S n)) with (cy + 1 + Z.of_nat n) by lia.
      eapply (search_post_weaken _ _ _ _ (cy + Z.of_nat n)); [lia|].
      apply (settled_pass n p cy v (ym cy cmo)
               (fun c' => month_loop start e n c' (p + 1))); try done; try lia.
      * unfold ym in *. lia.
      * intros t Hv Hm Hlt. specialize (Hlb t Hv Hm Hlt).
        destruct Hm as (_ & _ & Hmo' & _). pose proof (months_range _ Hmo').
        specialize (Hvmin _ Hmo'). unfold ym in *. lia.
      * unfold ym. lia.
      * intros Hempty. apply (IH (mk_candidate M0 H0 1 (v + 1) cy true)).
        unfold placeholder_inv.
        cbn [next_minute next_hour next_day next_month next_year is_placeholder_day].
        split_and!; try done; try lia.
        { unfold ym in *. lia. }
        intros t Hv Hm Hlt. specialize (Hlb t Hv Hm Hlt).
        pose proof (matches_merged e t Hv Hm) as Hday.
        destruct Hm as (_ & _ & Hmo' & _). pose proof (months_range _ Hmo').
        specialize (Hvmin _ Hmo'). unfold ym in *.
        destruct (Z.eq_dec (year t) cy) as [Hyt|Hyt]; [|lia].
        destruct (Z.eq_dec (month t) v) as [Hmt|Hmt]; [|lia].
        rewrite Hyt, Hmt, Hempty in Hday. by apply elem_of_nil in Hday.
    + (* no month left in this year *)
      rewrite HM0, result_bind_Ok, HH0, result_bind_Ok, HMo0, result_bind_Ok, result_bind_Ok.
      cbn [next_minute next_hour next_day next_month next_year is_placeholder_day].
      pose proof (months_range _ HMo0in) as Hvr.
      replace (cy + Z.of_nat (S n)) with (cy + 1 + Z.of_nat n) by lia.
      apply (settled_pass n p (cy + 1) Mo0 (ym cy cmo)
               (fun c' => month_loop start e n c' (p + 1))); try done; try lia.
      * unfold ym in *. lia.
      * intros t Hv Hm Hlt. specialize (Hlb t Hv Hm Hlt).
        destruct Hm as (_ & _ & Hmo' & _). pose proof (months_range _ Hmo').
        specialize (F _ Hmo'). specialize (HMo0min _ Hmo'). unfold ym in *. lia.
      * unfold ym. lia.
      * intros Hempty. apply (IH (mk_candidate M0 H0 1 (Mo0 + 1) (cy + 1) true)).
        unfold placeholder_inv.
        cbn [next_minute next_hour next_day next_month next_year is_placeholder_day].
        split_and!; try done; try lia.
        { unfold ym in *. lia. }
        intros t Hv Hm Hlt. specialize (Hlb t Hv Hm Hlt).
        pose proof (matches_merged e t Hv Hm) as Hday.
        destruct Hm as (_ & _ & Hmo' & _). pose proof (months_range _ Hmo').
        specialize (F _ Hmo'). specialize (HMo0min _ Hmo'). unfold ym in *.
        destruct (Z.eq_dec (year t) (cy + 1)) as [Hyt|Hyt]; [|lia].
        destruct (Z.eq_dec (month t) Mo0) as [Hmt|Hmt]; [|lia].
        rewrite Hyt, Hmt, Hempty in Hday. by apply elem_of_nil in Hday.
Qed.

(** The loop from the candidate the stages leave. *)
Lemma loop_after_stages (n : nat) (c : candidate) (D : list Z) :
  merge_days_and_days_of_week e start None = Ok D ->
  stage_post e start D M0 H0 c ->
  search_post e start (ym (year start) (month start)) (year start + Z.of_nat n) n 0
    (month_loop start e n c 0).
Proof.
  intros HD [Hcy Hpost].
  pose proof Hstart as Hsf. rewrite valid_fields in Hsf.
  assert (HDeq : D = merged e None (year start) (month start)).
  { rewrite (merge_closed e start None Hstart) in HD.
    destruct ((year start =? 1) && (month start =? 12)); [discriminate|]. by injection HD. }
  assert (Hltym : forall t, valid t -> civil_lt start t ->
            ym (year start) (month start) <= ym (year t) (month t)).
  { intros t Hv Hlt. rewrite valid_fields in Hv. unfold civil_lt, ym in *. lia. }
  assert (Hin_month : forall t, valid t -> matches e t -> civil_lt start t ->
            ym (year t) (month t) = ym (year start) (month start) ->
            day t ∈ D /\ hour t ∈ hours e /\ minute t ∈ minutes e
            /\ lex3_lt (day start) (hour start) (minute start) (day t) (hour t) (minute t)).
  { intros t Hv Hm Hlt Hym. pose proof (matches_merged e t Hv Hm) as Hday.
    destruct Hm as (Hmi & Hh & _ & _). rewrite valid_fields in Hv.
    assert (year t = year start /\ month t = month start) as [Hy Hmo]
      by (unfold ym in Hym; lia).
    rewrite Hy, Hmo, <- HDeq in Hday. split_and!; try done.
    unfold civil_lt, lex3_lt in *. lia. }
  destruct Hpost as [(Hph & Hmo & Hd & Hh & Hmi & Hgt & Hlb)
                    |(Hph & Hmo & Hd & Hh & Hmi & Hnone)].
  - (* the day was found in the month of [start] *)
    destruct n as [|n].
    { cbn [month_loop search_post]. split; [lia|]. intros t' Hv' _ Hlt'.
      specialize (Hltym t' Hv' Hlt'). lia. }
    cbn [month_loop]. cbv zeta.
    destruct c as [cmi ch cd cmo cy cph].
    cbn [next_minute next_hour next_day next_month next_year is_placeholder_day] in *.
    subst cmo cy cph.
    step_nearest (months e) (month start) months_sorted i F.
    + destruct F as (Hvin & Hge & Hvmin).
      pose proof (months_range _ Hvin) as Hvr.
      destruct (Z.eqb_spec v (month start)) as [->|Hne]; cbn [negb].
      * (* the month of [start] is a month of the schedule *)
        rewrite result_bind_Ok.
        cbn [next_minute next_hour next_day next_month next_year is_placeholder_day].
        pose proof (minutes_range _ Hmi). pose proof (hours_range _ Hh).
        assert (Hcd : 1 <= cd <= days_in_month (year start) (month start)).
        { rewrite HDeq in Hd. by apply merged_bounds in Hd. }
        assert (Hts : valid (mk_datetime (year start) (month start) cd ch cmi 0 0 0)).
        { rewrite valid_fields. cbn [year month day hour minute second microsecond fold]. lia. }
        unfold datetime5. rewrite (make_valid _ Hts), result_bind_Ok. cbn [search_post].
        split; [done|]. split.
        { unfold civil_lt, lex3_lt in *. cbn [year month day hour minute]. lia. }
        split.
        { unfold matches. cbn [year month day hour minute]. split_and!; try done.
          exists D. split; [|done]. rewrite (merge_closed e _ None Hts), HDeq.
          cbn [year month].
          rewrite (merge_closed e start None Hstart) in HD.
          destruct ((year start =? 1) && (month start =? 12)); [discriminate|done]. }
        split; [|lia].
        intros t' Hv' Hm' Hlt' Hlt.
        pose proof (Hltym t' Hv' Hlt') as Hym.
        destruct (Z.eq_dec (ym (year t') (month t')) (ym (year start) (month start)))
          as [Heq|Hneq].
        -- destruct (Hin_month t' Hv' Hm' Hlt' Heq) as (Hd' & Hh' & Hmi' & Hlt3).
           specialize (Hlb _ _ _ Hd' Hh' Hmi' Hlt3).
           rewrite valid_fields in Hv'.
           unfold civil_lt, lex3_le, ym in *. cbn [year month day hour minute] in Hlt. lia.
        -- rewrite valid_fields in Hv'.
           unfold civil_lt, ym in *. cbn [year month day hour minute] in Hlt. lia.
      * (* a later month of this year *)
        rewrite HM0, result_bind_Ok, HH0, !result_bind_Ok.
        cbn [next_minute next_hour next_day next_month next_year is_placeholder_day].
        eapply (search_post_weaken _ _ _ _ (year start + Z.of_nat n)); [lia|].
        apply (settled_pass n 0 (year start) v (ym (year start) (month start))
                 (fun c' => month_loop start e n c' (0 + 1))); try done; try lia.
        -- unfold ym. lia.
        -- intros t Hv Hm Hlt. pose proof (Hltym t Hv Hlt).
           destruct Hm as (_ & _ & Hmo' & _). pose proof (months_range _ Hmo').
           specialize (Hvmin _ Hmo'). unfold ym in *. lia.
        -- unfold ym. lia.
        -- intros Hempty.
           apply (loop_placeholder n (mk_candidate M0 H0 1 (v + 1) (year start) true)).
           unfold placeholder_inv.
           cbn [next_minute next_hour next_day next_month next_year is_placeholder_day].
           split_and!; try done; try lia.
           { unfold ym. lia. }
           intros t Hv Hm Hlt. pose proof (Hltym t Hv Hlt).
           pose proof (matches_merged e t Hv Hm) as Hday.
           destruct Hm as (_ & _ & Hmo' & _). pose proof (months_range _ Hmo').
           specialize (Hvmin _ Hmo'). unfold ym in *.
           destruct (Z.eq_dec (year t) (year start)) as [Hyt|Hyt]; [|lia].
           destruct (Z.eq_dec (month t) v) as [Hmt|Hmt]; [|lia].
           rewrite Hyt, Hmt, Hempty in Hday. by apply elem_of_nil in Hday.
    + (* no month left in this year *)
      rewrite HM0, result_bind_Ok, HH0, result_bind_Ok, HMo0, result_bind_Ok, result_bind_Ok.
      cbn [next_minute next_hour next_day next_month next_year is_placeholder_day].
      pose proof (months_range _ HMo0in) as Hvr.
      replace (year start + Z.of_nat (S n)) with (year start + 1 + Z.of_nat n) by lia.
      apply (settled_pass n 0 (year start + 1) Mo0 (ym (year start) (month start))
               (fun c' => month_loop start e n c' (0 + 1))); try done; try lia.
      * unfold ym. lia.
      * intros t Hv Hm Hlt. pose proof (Hltym t Hv Hlt).
        destruct Hm as (_ & _ & Hmo' & _). pose proof (months_range _ Hmo').
        specialize (F _ Hmo'). specialize (HMo0min _ Hmo'). unfold ym in *. lia.
      * unfold ym. lia.
      * intros Hempty.
        apply (loop_placeholder n (mk_candidate M0 H0 1 (Mo0 + 1) (year start + 1) true)).
        unfold placeholder_inv.
        cbn [next_minute next_hour next_day next_month next_year is_placeholder_day].
        split_and!; try done; try lia.
        { unfold ym. lia. }
        intros t Hv Hm Hlt. pose proof (Hltym t Hv Hlt).
        pose proof (matches_merged e t Hv Hm) as Hday.
        destruct Hm as (_ & _ & Hmo' & _). pose proof (months_range _ Hmo').
        specialize (F _ Hmo'). specialize (HMo0min _ Hmo'). unfold ym in *.
        destruct (Z.eq_dec (year t) (year start + 1)) as [Hyt|Hyt]; [|lia].
        destruct (Z.eq_dec (month t) Mo0) as [Hmt|Hmt]; [|lia].
        rewrite Hyt, Hmt, Hempty in Hday. by apply elem_of_nil in Hday.
  - (* no day left in the month of [start] *)
    assert (Hinv : placeholder_inv e start M0 H0 c).
    { unfold placeholder_inv. rewrite Hph, Hd, Hh, Hmi, Hmo, Hcy.
      split_and!; try done; try lia.
      { unfold ym. lia. }
      intros t Hv Hm Hlt. pose proof (Hltym t Hv Hlt) as Hym.
      destruct (Z.eq_dec (ym (year t) (month t)) (ym (year start) (month start)))
        as [Heq|Hneq]; [|unfold ym in *; lia].
      destruct (Hin_month t Hv Hm Hlt Heq) as (Hd' & Hh' & Hmi' & Hlt3).
      by destruct (Hnone _ _ _ Hd' Hh' Hmi'). }
    pose proof (loop_placeholder n c 0 Hinv) as Hloop.
    rewrite Hcy, Hmo in Hloop.
    destruct (month_loop start e n c 0) as [[[t|] p']|x]; cbn [search_post] in *.
    + done.
    + destruct Hloop as [-> Hn]. split; [done|]. intros t' Hv' Hm' Hlt'.
      specialize (Hn t' Hv' Hm' Hlt'). unfold ym in *. lia.
    + done.
Qed.

End Search.

(** The search as a whole. *)
Lemma wallclock_search_spec (e : _CronEntry) (start : datetime) (max_years : Z) :
  schedule_ok e -> valid start ->
  search_post e start (ym (year start) (month start))
    (year start + Z.of_nat (Z.to_nat (Z.max max_years 0 * 12)))
    (Z.to_nat (Z.max max_years 0 * 12)) 0
    (wallclock_search start e max_years).
Proof.
  intros He Hstart.
  pose proof He as ((HMne & HMs & _) & (HHne & HHs & _) & _ & (HMone & HMos & _) & _).
  destruct (first_spec (minutes e) HMne HMs) as (M0 & HM0 & HM0in & HM0min).
  destruct (first_spec (hours e) HHne HHs) as (H0 & HH0 & HH0in & HH0min).
  destruct (first_spec (months e) HMone HMos) as (Mo0 & HMo0 & HMo0in & HMo0min).
  pose proof (stages_spec e start M0 H0 He HM0 HM0in HM0min HH0 HH0in HH0min) as Hst.
  unfold wallclock_search.
  destruct (merge_days_and_days_of_week e start None) as [D|x] eqn:HD.
  - assert (HDs : StronglySorted Z.lt D).
    { rewrite (merge_closed e start None Hstart) in HD.
      destruct ((year start =? 1) && (month start =? 12)); [discriminate|].
      injection HD as <-. apply merged_sorted. }
    specialize (Hst HDs). destruct (wallclock_stages start e) as [c|]; [|done].
    rewrite result_bind_Ok.
    by apply (loop_after_stages e start M0 H0 Mo0 He Hstart HM0 HM0in HM0min HH0 HH0in HH0min
                HMo0 HMo0in HMo0min _ c D).
  - rewrite Hst, result_bind_Raise. cbn [search_post]. left.
    rewrite (merge_closed e start None Hstart) in HD.
    destruct ((year start =? 1) && (month start =? 12)) eqn:Edec; [|discriminate HD].
    injection HD as <-. split; [done|]. split; [lia|]. split; [left; lia|].
    intros t Hv Hm Hlt. pose proof (no_match_in_first_december e t Hv Hm) as Hdec.
    pose proof Hstart as Hsf. rewrite valid_fields in Hv, Hsf. unfold civil_lt in Hlt. lia.
Qed.

(** Whenever the search returns, what it returns is right. *)
Lemma next_wallclock_Ok (e : _CronEntry) (start : datetime) (max_years : Z)
    (r : option datetime) :
  schedule_ok e -> valid start ->
  _next_wallclock_datetime start e max_years = Ok r ->
  wallclock_result_ok e start max_years r.
Proof.
  intros He Hs. unfold _next_wallclock_datetime.
  pose proof (wallclock_search_spec e start max_years He Hs) as Hpost.
  destruct (wallclock_search start e max_years) as [[r' p]|x]; [|discriminate].
  intros [= <-]. cbn [fst]. destruct r' as [t|]; cbn [search_post wallclock_result_ok] in *.
  - destruct Hpost as (? & ? & ? & ? & _). by split_and!.
  - destruct Hpost as [_ Hn]. intros t' Hv' Hm' Hlt'. specialize (Hn t' Hv' Hm' Hlt'). lia.
Qed.

(** The search raises nothing when it starts after year 1 and its budget
    ends by year 9999. *)
Lemma next_wallclock_returns (e : _CronEntry) (start : datetime) (max_years : Z) :
  schedule_ok e -> valid start ->
  2 <= year start -> year start + 12 * Z.max max_years 0 <= 9999 ->
  exists r, _next_wallclock_datetime start e max_years = Ok r.
Proof.
  intros He Hs Hy2 Hy9. unfold _next_wallclock_datetime.
  pose proof (wallclock_search_spec e start max_years He Hs) as Hpost.
  destruct (wallclock_search start e max_years) as [[r p]|x]; [by exists r|].
  cbn [search_post] in Hpost. destruct Hpost as [(_ & Hy1 & _)|(_ & Hlast & _)]; lia.
Qed.

(** The year of a result is at most one more per pass than that of the
    candidate the loop began with. *)
Lemma month_loop_year (start : datetime) (e : _CronEntry) (n : nat) :
  forall (c : candidate) (p p' : Z) (t : datetime),
    month_loop start e n c p = Ok (Some t, p') ->
    year t <= next_year c + (p' - p).
Proof.
  induction n as [|n IH]; intros c p p' t; cbn [month_loop]; [intros H; discriminate H|].
  cbv zeta.
  destruct (_index_of_nearest_number (months e) (next_month c)) as [idx|];
    [|intros H; discriminate H].
  rewrite result_bind_Ok.
  destruct (if idx <? Z.of_nat (length (months e)) then _ else _) as [c'|] eqn:Ec;
    [|intros H; discriminate H].
  rewrite result_bind_Ok.
  assert (Hc' : next_year c' <= next_year c + 1).
  { destruct (idx <? Z.of_nat (length (months e))).
    - destruct (Py.index (months e) idx) as [mo|]; [|discriminate Ec].
      rewrite result_bind_Ok in Ec. destruct (negb (mo =? month start)).
      + destruct (Py.index (minutes e) 0) as [m|]; [|discriminate Ec].
        rewrite result_bind_Ok in Ec.
        destruct (Py.index (hours e) 0) as [h|]; [|discriminate Ec].
        rewrite result_bind_Ok in Ec. injection Ec as <-. cbn [next_year]. lia.
      + injection Ec as <-. cbn [next_year]. lia.
    - destruct (Py.index (minutes e) 0) as [m|]; [|discriminate Ec].
      rewrite result_bind_Ok in Ec.
      destruct (Py.index (hours e) 0) as [h|]; [|discriminate Ec].
      rewrite result_bind_Ok in Ec.
      destruct (Py.index (months e) 0) as [mo|]; [|discriminate Ec].
      rewrite result_bind_Ok in Ec. injection Ec as <-. cbn [next_year]. lia. }
  clear Ec.
  destruct (datetime5 _ _ _ _ _) as [ts|] eqn:Ets; [|intros H; discriminate H].
  rewrite result_bind_Ok. unfold datetime5 in Ets. apply make_Ok in Ets as [-> Hts].
  destruct (is_placeholder_day c').
  - destruct (merge_days_and_days_of_week e _ None) as [[|d l]|]; [| |intros H; discriminate H].
    + rewrite result_bind_Ok. intros H. apply IH in H. cbn [next_year] in H. lia.
    + rewrite result_bind_Ok. cbn [hour minute second microsecond fold].
      destruct (make _) as [t'|] eqn:Et; [|intros H; discriminate H].
      rewrite result_bind_Ok. apply make_Ok in Et as [-> Hv]. intros [= <- <-].
      cbn [year]. lia.
  - intros [= <- <-]. cbn [year]. lia.
Qed.

(** The search with its pass count, outcome by outcome. *)
Lemma wallclock_search_outcome (e : _CronEntry) (start : datetime) (max_years : Z) :
  schedule_ok e -> valid start ->
  match wallclock_search start e max_years with
  | Ok (Some t, passes) =>
      earliest_after e start t
      /\ 1 <= passes <= Z.max max_years 0 * 12 /\ year t <= year start + passes
  | Ok (None, passes) =>
      none_within e start max_years /\ passes = Z.max max_years 0 * 12
  | Raise x => search_raises e start (year start + Z.max max_years 0 * 12) x
  end.
Proof.
  intros He Hs. pose proof (wallclock_search_spec e start max_years He Hs) as Hpost.
  replace (Z.of_nat (Z.to_nat (Z.max max_years 0 * 12))) with (Z.max max_years 0 * 12)
    in Hpost by lia.
  destruct (wallclock_search start e max_years) as [[[t|] p]|x] eqn:Ew;
    cbn [search_post] in Hpost; [| |done].
  - destruct Hpost as (Hv & Hlt & Hm & Hmin & Hp).
    rewrite Z2Nat.id in Hp by lia. split; [done|]. split; [lia|].
    revert Ew. unfold wallclock_search.
    pose proof He as ((HMne & HMs & _) & (HHne & HHs & _) & _).
    destruct (first_spec (minutes e) HMne HMs) as (M0 & HM0 & HM0in & HM0min).
    destruct (first_spec (hours e) HHne HHs) as (H0 & HH0 & HH0in & HH0min).
    pose proof (stages_spec e start M0 H0 He HM0 HM0in HM0min HH0 HH0in HH0min) as Hst.
    destruct (wallclock_stages start e) as [c|] eqn:Ec; [|intros H; discriminate H].
    rewrite result_bind_Ok. intros Hl. apply month_loop_year in Hl.
    assert (Hcy : next_year c = year start); [|lia].
    rewrite (merge_closed e start None Hs) in Hst.
    destruct ((year start =? 1) && (month start =? 12)); [discriminate Hst|].
    by destruct (Hst (merged_sorted _ _ _ _)) as [Hcy _].
  - destruct Hpost as [-> Hn]. rewrite Z2Nat.id by lia. split; [|done].
    intros t' Hv' Hm' Hlt'. specialize (Hn t' Hv' Hm' Hlt'). lia.
Qed.

(** C1, the ends of the calendar included: whenever the search returns,
    it returns the earliest civil timestamp after [start] whose minute,
    hour and month are in the lists of the schedule and whose day is in the
    merged days of its month, or [None], and then no such timestamp lies in
    the [12 * max_years] months that begin with the month of [start]. It
    raises only at an end of the calendar: [OverflowError] when [start] is
    in year 1, in December or with December in the schedule, and no match
    follows within year 1; [ValueError] when no match follows [start] up to
    year 9999 and the budget reaches past that year. *)
Theorem C1_next_wallclock_datetime (e : _CronEntry) (start : datetime) (max_years : Z) :
  schedule_ok e -> valid start ->
  match _next_wallclock_datetime start e max_years with
  | Ok r => wallclock_result_ok e start max_years r
  | Raise x => search_raises e start (year start + 12 * Z.max max_years 0) x
  end.
Proof.
  intros He Hs. pose proof (wallclock_search_outcome e start max_years He Hs) as H.
  unfold _next_wallclock_datetime.
  destruct (wallclock_search start e max_years) as [[[t|] p]|x];
    cbn [fmap result_fmap fst wallclock_result_ok].
  - apply H.
  - apply H.
  - by replace (12 * Z.max max_years 0) with (Z.max max_years 0 * 12) by lia.
Qed.


(** ** The iterator in a zone with a fixed offset *)
Lemma civil_us_lt (a b : datetime) :
  valid a -> valid b -> civil_lt a b -> civil_us a < civil_us b.
Proof.
  intros Ha Hb Hlt. rewrite valid_fields in Ha, Hb.
  destruct Ha as (Hya & Hma & Hda & Hha & Hmia & Hsa & Husa & _).
  destruct Hb as (Hyb & Hmb & Hdb & Hhb & Hmib & Hsb & Husb & _).
  unfold civil_us, US_PER_DAY, US_PER_SECOND.
  destruct (decide (year a = year b /\ month a = month b /\ day a = day b)) as [(Hy & Hm & Hd)|Hne].
  - rewrite Hy, Hm, Hd. unfold civil_lt in Hlt. lia.
  - assert (ymd2ord (year a) (month a) (day a) < ymd2ord (year b) (month b) (day b)).
    { apply ymd2ord_lt; try done. unfold civil_lt in Hlt. lia. }
    lia.
Qed.

Section Fixed.

Variable tz : tzinfo.

Variable e : _CronEntry.

Variable max_years : Z.

Hypothesis Hfixed : forall d d', utcoffset tz d = utcoffset tz d'.

Hypothesis He : schedule_ok e.

Lemma fixed_delta (d : datetime) : _delta_seconds_between_fold tz d = 0.
Proof.
  unfold _delta_seconds_between_fold, timestamp. cbv zeta.
  rewrite (Hfixed (mk_datetime _ _ _ _ _ _ 0 0) (mk_datetime (year d) (month d) (day d)
             (hour d) (minute d) (second d) 0 1)).
  unfold civil_us. cbn [year month day hour minute second microsecond].
  match goal with |- ?x / _ = 0 => replace x with 0 by lia end. reflexivity.
Qed.

Lemma fixed_timestamp_lt (a b : datetime) :
  valid a -> valid b -> civil_lt a b -> timestamp tz a < timestamp tz b.
Proof.
  intros Ha Hb Hlt. unfold timestamp. rewrite (Hfixed a b).
  pose proof (civil_us_lt a b Ha Hb Hlt). lia.
Qed.

(** In a zone with a fixed offset a pass of the loop is one search. *)
Lemma fixed_iter_body (s : datetime) :
  valid s ->
  iter_body tz e max_years (mk_cursor s s None) =
    match _next_wallclock_datetime s e max_years with
    | Raise x => Raise x
    | Ok None => Ok Return
    | Ok (Some r) => Ok (Yield r (mk_cursor r r None))
    end.
Proof.
  intros Hs. unfold iter_body, ambiguous_start. cbv zeta.
  cbn [start monotonic_datetime goto_datetime]. rewrite fixed_delta.
  change (0 <? 0) with false. cbn match. rewrite result_bind_Ok. cbv beta iota.
  destruct (_next_wallclock_datetime s e max_years) as [[r|]|x] eqn:Enw; [|done..].
  rewrite result_bind_Ok.
  destruct (next_wallclock_Ok e s max_years (Some r) He Hs Enw) as (Hr & Hlt & _).
  pose proof (fixed_timestamp_lt s r Hs Hr Hlt).
  destruct (Z.leb_spec (timestamp tz r) (timestamp tz s)); [lia|].
  rewrite result_bind_Ok, fixed_delta. reflexivity.
Qed.

Lemma fixed_take (fuel n : nat) :
  forall s, valid s ->
    take tz e max_years (S fuel) n (mk_cursor s s None) = wallclock_chain e max_years n s.
Proof.
  induction n as [|n IH]; intros s Hs; [done|].
  cbn [take pull wallclock_chain]. rewrite (fixed_iter_body s Hs).
  destruct (_next_wallclock_datetime s e max_years) as [[r|]|x] eqn:Enw; [|done..].
  rewrite result_bind_Ok.
  destruct (next_wallclock_Ok e s max_years (Some r) He Hs Enw) as (Hr & _).
  by rewrite (IH r Hr).
Qed.

Lemma iter_begin_cursor (start0 : datetime) (c : cursor) :
  iter_begin tz start0 = Ok c ->
  valid (start c) /\ c = mk_cursor (start c) (start c) None.
Proof.
  unfold iter_begin. destruct (fromtimestamp_float tz _) as [s|]; [|discriminate].
  rewrite result_bind_Ok. destruct (make _) as [s'|] eqn:Em; [|discriminate].
  rewrite result_bind_Ok. intros [= <-]. cbn [start]. apply make_Ok in Em as [-> Hv].
  done.
Qed.

End Fixed.

(** C4: in a zone whose offset is fixed, the values the iterator emits are
    the successive results of the wallclock search from the normalised
    start on, each as the search returned it. *)
Theorem C4_fixed_offset_chain (tz : tzinfo) (e : _CronEntry) (max_years : Z)
    (fuel n : nat) (start0 : datetime) :
  (forall d d', utcoffset tz d = utcoffset tz d') ->
  schedule_ok e ->
  iter tz e max_years (S fuel) n start0 =
    match iter_begin tz start0 with
    | Raise x => ([], Failed x)
    | Ok c => wallclock_chain e max_years n (start c)
    end.
Proof.
  intros Hfixed He. unfold iter.
  destruct (iter_begin tz start0) as [c|x] eqn:Eb; [|done].
  destruct (iter_begin_cursor tz start0 c Eb) as [Hv Hc]. rewrite Hc at 1.
  by apply fixed_take.
Qed.

Lemma vixie_hack_parsed : from_expression "0 13 */999 1,4,7,10 3" = Ok vixie_hack.
Proof. vm_compute. reflexivity. Qed.

Lemma new_year_parsed : from_expression "0 0 1 1 *" = Ok new_year.
Proof. vm_compute. reflexivity. Qed.

Lemma leap_sunday_parsed : from_expression "0 0 29 2 */7" = Ok leap_sunday.
Proof. vm_compute. reflexivity. Qed.

Lemma twice_an_hour_parsed : from_expression "15,50 2-3 * * *" = Ok twice_an_hour.
Proof. vm_compute. reflexivity. Qed.

Lemma vixie_hack_ok : schedule_ok vixie_hack.
Proof. exact (from_expression_schedule_ok _ _ vixie_hack_parsed). Qed.

Lemma new_year_ok : schedule_ok new_year.
Proof. exact (from_expression_schedule_ok _ _ new_year_parsed). Qed.

Lemma leap_sunday_ok : schedule_ok leap_sunday.
Proof. exact (from_expression_schedule_ok _ _ leap_sunday_parsed). Qed.

Lemma twice_an_hour_ok : schedule_ok twice_an_hour.
Proof. exact (from_expression_schedule_ok _ _ twice_an_hour_parsed). Qed.

Lemma fixed_tz_fixed (offset : Z) (d d' : datetime) :
  utcoffset (fixed_tz offset) d = utcoffset (fixed_tz offset) d'.
Proof. reflexivity. Qed.

(** ** Instances and counterexamples *)
Lemma C1_next_wallclock_datetime_witness :
  match _next_wallclock_datetime (mk_datetime 9500 1 1 0 0 0 0 0) new_year 1000 with
  | Ok r => wallclock_result_ok new_year (mk_datetime 9500 1 1 0 0 0 0 0) 1000 r
  | Raise x =>
      search_raises new_year (mk_datetime 9500 1 1 0 0 0 0 0)
        (year (mk_datetime 9500 1 1 0 0 0 0 0) + 12 * Z.max 1000 0) x
  end.
Proof.
  apply (C1_next_wallclock_datetime new_year (mk_datetime 9500 1 1 0 0 0 0 0) 1000).
  - exact new_year_ok.
  - reflexivity.
Defined.

(** At the last minute of a year 9999 that matches, the search builds a
    timestamp in year 10000 and the constructor raises. *)
Lemma C1_counterexample : ~ C1_as_stated new_year (mk_datetime 9999 1 1 0 0 0 0 0) 50.
Proof.
  intros H. destruct H as (r & Hr & _).
  - exact new_year_ok.
  - reflexivity.
  - lia.
  - assert (Hx : _next_wallclock_datetime (mk_datetime 9999 1 1 0 0 0 0 0) new_year 50
                 = Raise ValueError) by (vm_compute; reflexivity).
    rewrite Hx in Hr. discriminate Hr.
Qed.


Lemma C3_merge_days_witness :
  exists l, merge_days_and_days_of_week vixie_hack (mk_datetime 2025 1 15 8 30 0 0 0) None = Ok l
    /\ StronglySorted Z.lt l
    /\ forall day, day ∈ l <->
         1 <= day <= days_in_month 2025 1 /\ day_selected vixie_hack 2025 1 day.
Proof.
  apply (C3_merge_days vixie_hack (mk_datetime 2025 1 15 8 30 0 0 0)).
  - reflexivity.
  - cbn [year month]. lia.
Defined.

(** In December of year 1 the day before the first of January is not a
    date, and the merge raises. *)
Lemma C3_counterexample : ~ C3_as_stated new_year (mk_datetime 1 12 25 0 0 0 0 0).
Proof.
  intros H. destruct H as (l & Hl & _).
  - reflexivity.
  - assert (Hx : merge_days_and_days_of_week new_year (mk_datetime 1 12 25 0 0 0 0 0) None
                 = Raise OverflowError) by (vm_compute; reflexivity).
    rewrite Hx in Hl. discriminate Hl.
Qed.

Lemma C4_fixed_offset_chain_witness :
  iter (fixed_tz 0) vixie_hack 50 1 2 (mk_datetime 2020 9 24 0 0 0 0 0) =
    match iter_begin (fixed_tz 0) (mk_datetime 2020 9 24 0 0 0 0 0) with
    | Raise x => ([], Failed x)
    | Ok c => wallclock_chain vixie_hack 50 2 (start c)
    end.
Proof.
  apply (C4_fixed_offset_chain (fixed_tz 0) vixie_hack 50 0 2).
  - exact (fixed_tz_fixed 0).
  - exact vixie_hack_ok.
Defined.

(** On 2023-09-24 in the zone of the Chatham Islands, 02:50 and 03:15
    both fall in the hour that is skipped from 02:45 on: the first is moved
    to 03:00, itself skipped, the second to 04:00, and both are the same
    instant. *)
Lemma C5_counterexample :
  ~ C5_as_stated chatham_2023 twice_an_hour 50 2 2 (mk_datetime 2023 9 24 2 20 0 0 0).
Proof.
  intros H.
  specialize (H (mk_cursor (mk_datetime 2023 9 24 2 20 0 0 0)
                           (mk_datetime 2023 9 24 2 20 0 0 0) None)).
  assert (Hb : iter_begin chatham_2023 (mk_datetime 2023 9 24 2 20 0 0 0)
               = Ok (mk_cursor (mk_datetime 2023 9 24 2 20 0 0 0)
                               (mk_datetime 2023 9 24 2 20 0 0 0) None))
    by (vm_compute; reflexivity).
  specialize (H Hb).
  assert (Hi : iter chatham_2023 twice_an_hour 50 2 2 (mk_datetime 2023 9 24 2 20 0 0 0)
               = ([mk_datetime 2023 9 24 3 0 0 0 0; mk_datetime 2023 9 24 4 0 0 0 0],
                  Pending (mk_cursor (mk_datetime 2023 9 24 4 0 0 0 0)
                                     (mk_datetime 2023 9 24 4 0 0 0 0) None)))
    by (vm_compute; reflexivity).
  rewrite Hi in H. cbn [fst increasing] in H. destruct H as (_ & Hlt & _).
  assert (H3 : timestamp chatham_2023 (mk_datetime 2023 9 24 3 0 0 0 0) = 1695478500000000)
    by (vm_compute; reflexivity).
  assert (H4 : timestamp chatham_2023 (mk_datetime 2023 9 24 4 0 0 0 0) = 1695478500000000)
    by (vm_compute; reflexivity).
  rewrite H3, H4 in Hlt. clear -Hlt. lia.
Qed.

Lemma C6_has_triggers_witness :
  exists b, has_triggers leap_sunday = Ok b
    /\ (day_of_week_star leap_sunday = false -> b = true)
    /\ (day_of_week_star leap_sunday = true ->
        forall dmax lmax,
          greatest dmax (days leap_sunday) ->
          greatest lmax (longest_month <$> months leap_sunday) ->
          (b = true <-> dmax <= lmax)).
Proof. exact (C6_has_triggers leap_sunday leap_sunday_ok). Defined.


(** C8: the day field [*/999] of ["0 13 */999 1,4,7,10 3"] expands to day
    1 alone and sets the day wildcard flag, so the day is combined by AND
    with Wednesday; started at 2020-09-24T00:00 the first value is
    2025-01-01T13:00, the earliest match after the start, in every zone
    where neither of the two civil times is ambiguous or missing, the first
    precedes the second, and the start is its own normalisation. *)
Theorem C8_vixie_hack_first_value (tz : tzinfo) (fuel n : nat) :
  let start0 := mk_datetime 2020 9 24 0 0 0 0 0 in
  let first := mk_datetime 2025 1 1 13 0 0 0 0 in
  iter_begin tz start0 = Ok (mk_cursor start0 start0 None) ->
  _delta_seconds_between_fold tz start0 = 0 ->
  _delta_seconds_between_fold tz first = 0 ->
  timestamp tz start0 < timestamp tz first ->
  exists e, from_expression "0 13 */999 1,4,7,10 3" = Ok e
    /\ days e = [1] /\ day_star e = true
    /\ days_of_week e = [3] /\ day_of_week_star e = false
    /\ merge_days_and_days_of_week e first None = Ok [1]
    /\ earliest_after e start0 first
    /\ exists rest, fst (iter tz e 50 (S fuel) (S n) start0) = first :: rest.
Proof.
  intros start0 first Hb Hd0 Hd1 Hlt. exists vixie_hack.
  split; [exact vixie_hack_parsed|]. do 4 (split; [reflexivity|]).
  split; [vm_compute; reflexivity|].
  assert (Hnw : _next_wallclock_datetime start0 vixie_hack 50 = Ok (Some first))
    by (vm_compute; reflexivity).
  split.
  { exact (next_wallclock_Ok vixie_hack start0 50 (Some first) vixie_hack_ok eq_refl Hnw). }
  unfold iter. rewrite Hb. cbn [take pull].
  assert (Hbody : iter_body tz vixie_hack 50 (mk_cursor start0 start0 None)
                  = Ok (Yield first (mk_cursor first first None))).
  { unfold iter_body, ambiguous_start. cbv zeta.
    cbn [start monotonic_datetime goto_datetime]. rewrite Hd0.
    change (0 <? 0) with false. cbn match. rewrite result_bind_Ok. cbv beta iota.
    rewrite Hnw, result_bind_Ok.
    destruct (Z.leb_spec (timestamp tz first) (timestamp tz start0)); [lia|].
    rewrite result_bind_Ok, Hd1. reflexivity. }
  rewrite Hbody, result_bind_Ok.
  destruct (take tz vixie_hack 50 (S fuel) n (mk_cursor first first None)) as [values en].
  by exists values.
Qed.

Lemma C8_vixie_hack_first_value_witness :
  exists e, from_expression "0 13 */999 1,4,7,10 3" = Ok e
    /\ days e = [1] /\ day_star e = true
    /\ days_of_week e = [3] /\ day_of_week_star e = false
    /\ merge_days_and_days_of_week e (mk_datetime 2025 1 1 13 0 0 0 0) None = Ok [1]
    /\ earliest_after e (mk_datetime 2020 9 24 0 0 0 0 0) (mk_datetime 2025 1 1 13 0 0 0 0)
    /\ exists rest,
         fst (iter (fixed_tz 0) e 50 1 1 (mk_datetime 2020 9 24 0 0 0 0 0))
         = mk_datetime 2025 1 1 13 0 0 0 0 :: rest.
Proof.
  apply (C8_vixie_hack_first_value (fixed_tz 0) 0 0).
  - vm_compute. reflexivity.
  - vm_compute. reflexivity.
  - vm_compute. reflexivity.
  - vm_compute. reflexivity.
Defined.

(** * Further properties of the module *)

(** ** The binary search on arbitrary and on sorted lists *)

(** X1: on any list, sorted or not, empty or not, the search reads no index
    out of range: it returns an index [i] in [0..len] with
    [numbers[i-1] < target <= numbers[i]], each side where it exists. *)
Theorem X1_index_never_raises (numbers : list Z) (target : Z) :
  exists i, _index_of_nearest_number numbers target = Ok i
            /\ insertion_index numbers target i.
Proof. apply index_of_nearest_number_insertion. Qed.

Lemma sorted_take_drop (l : list Z) (t : Z) (i : nat) :
  StronglySorted Z.lt l -> (i <= length l)%nat ->
  (forall v, (0 < i)%nat -> l !! (i - 1)%nat = Some v -> v < t) ->
  (forall v, l !! i = Some v -> t <= v) ->
  Forall (fun x => x < t) (firstn i l) /\ Forall (fun x => ~ x < t) (skipn i l).
Proof.
  intros Hs Hil Hlo Hhi. split; apply Forall_forall; intros x Hx.
  - apply list_elem_of_lookup in Hx as [j Hj].
    apply lookup_take_Some in Hj as [Hj Hji].
    destruct (l !! (i - 1)%nat) as [v|] eqn:Ev.
    + specialize (Hlo v ltac:(lia) eq_refl).
      pose proof (sorted_lookup_le l j (i - 1) x v Hs ltac:(lia) Hj Ev). lia.
    + apply lookup_ge_None in Ev. apply lookup_lt_Some in Hj. lia.
  - apply list_elem_of_lookup in Hx as [j Hj]. rewrite lookup_drop in Hj.
    destruct (l !! i) as [v|] eqn:Ev.
    + specialize (Hhi v eq_refl).
      pose proof (sorted_lookup_le l i (i + j) v x Hs ltac:(lia) Ev Hj). lia.
    + apply lookup_ge_None in Ev. apply lookup_lt_Some in Hj. lia.
Qed.

Lemma filter_all {A} (P : A -> Prop) `{!forall x, Decision (P x)} (l : list A) :
  Forall P l -> filter P l = l.
Proof.
  induction 1 as [|x l Hx Hl IH]; [done|]. rewrite filter_cons_True by done. by rewrite IH.
Qed.

Lemma filter_none {A} (P : A -> Prop) `{!forall x, Decision (P x)} (l : list A) :
  Forall (fun x => ~ P x) l -> filter P l = [].
Proof.
  induction 1 as [|x l Hx Hl IH]; [done|]. rewrite filter_cons_False by done. exact IH.
Qed.

(** X2: on a strictly ascending list the index returned is the number of
    elements below the target; the element at that index, when there is
    one, is the least element at or above the target, so it is the target
    itself when the target is in the list. *)
Theorem X2_index_counts_smaller (numbers : list Z) (target : Z) :
  StronglySorted Z.lt numbers ->
  exists i, _index_of_nearest_number numbers target = Ok i
    /\ i = Z.of_nat (length (filter (fun x => x < target) numbers))
    /\ (forall v, numbers !! Z.to_nat i = Some v ->
          target <= v /\ forall x, x ∈ numbers -> target <= x -> v <= x)
    /\ (target ∈ numbers -> numbers !! Z.to_nat i = Some target).
Proof.
  intros Hs.
  destruct (index_of_nearest_number_insertion numbers target) as (i & Hi & Hr & Hlo & Hhi).
  exists i. split; [done|].
  destruct (sorted_take_drop numbers target (Z.to_nat i) Hs) as [Ht Hd]; [lia| | |].
  { intros v Hpos Hv. destruct Hlo as (w & Hw & Hlt); [lia|].
    replace (Z.to_nat (i - 1)) with (Z.to_nat i - 1)%nat in Hw by lia. by simplify_eq. }
  { intros v Hv. pose proof (lookup_lt_Some _ _ _ Hv).
    destruct Hhi as (w & Hw & Hle); [lia|]. by simplify_eq. }
  assert (Hcount : i = Z.of_nat (length (filter (fun x => x < target) numbers))).
  { rewrite <- (take_drop (Z.to_nat i) numbers) at 1.
    rewrite filter_app, (filter_all _ _ Ht), (filter_none _ _ Hd), app_nil_r.
    rewrite length_take. lia. }
  split; [done|].
  assert (Hleast : forall v, numbers !! Z.to_nat i = Some v ->
            target <= v /\ forall x, x ∈ numbers -> target <= x -> v <= x).
  { intros v Hv. pose proof (lookup_lt_Some _ _ _ Hv).
    destruct Hhi as (w & Hw & Hle); [lia|]. rewrite Hw in Hv. injection Hv as <-.
    split; [done|]. intros x Hx Htx. apply list_elem_of_lookup in Hx as [j Hj].
    destruct (decide (Z.to_nat i <= j)%nat) as [Hij|Hij].
    - by apply (sorted_lookup_le numbers (Z.to_nat i) j w x).
    - rewrite Forall_forall in Ht. assert (x < target); [|lia]. apply Ht.
      apply list_elem_of_lookup. exists j. apply lookup_take_Some. split; [done|lia]. }
  split; [done|].
  intros Hin. apply list_elem_of_lookup in Hin as [j Hj].
  destruct (decide (j < Z.to_nat i)%nat) as [Hji|Hji].
  - exfalso. rewrite Forall_forall in Ht. assert (target < target); [|lia]. apply Ht.
    apply list_elem_of_lookup. exists j. apply lookup_take_Some. split; [done|lia].
  - pose proof (lookup_lt_Some _ _ _ Hj).
    destruct (numbers !! Z.to_nat i) as [v|] eqn:Ev.
    + destruct (Hleast v eq_refl) as [Hge Hmin].
      assert (v <= target) by (apply Hmin; [by eapply list_elem_of_lookup_2|lia]).
      f_equal. lia.
    + apply lookup_ge_None in Ev. lia.
Qed.

Lemma X2_index_counts_smaller_witness :
  exists i, _index_of_nearest_number [1; 4; 7; 10] 7 = Ok i
    /\ i = Z.of_nat (length (filter (fun x => x < 7) [1; 4; 7; 10]))
    /\ (forall v, [1; 4; 7; 10] !! Z.to_nat i = Some v ->
          7 <= v /\ forall x, x ∈ [1; 4; 7; 10] -> 7 <= x -> v <= x)
    /\ (7 ∈ [1; 4; 7; 10] -> [1; 4; 7; 10] !! Z.to_nat i = Some 7).
Proof.
  apply (X2_index_counts_smaller [1; 4; 7; 10] 7).
  repeat (constructor; [|repeat constructor; lia]). constructor.
Defined.

(** ** The length of a month *)

(** X3: for a datetime outside December of year 1 the length of its month
    comes out as the calendar has it, whatever its day and time of day: 29
    or 28 for February according to the leap year rule, 30 for April, June,
    September and November, 31 otherwise. In December of year 1 the call
    raises [OverflowError]. *)
Theorem X3_days_in_month (d : datetime) :
  valid d ->
  _days_in_month d =
    if (year d =? 1) && (month d =? 12) then Raise OverflowError
    else Ok (if month d =? 2
             then (if (year d mod 4 =? 0)
                      && (negb (year d mod 100 =? 0) || (year d mod 400 =? 0))
                   then 29 else 28)
             else if (month d =? 4) || (month d =? 6) || (month d =? 9) || (month d =? 11)
                  then 30 else 31).
Proof.
  intros Hv. rewrite (days_in_month_spec d Hv).
  destruct ((year d =? 1) && (month d =? 12)); [done|]. f_equal.
  apply valid_fields in Hv as (_ & Hm & _).
  unfold days_in_month, is_leap.
  destruct (month_cases (month d) Hm) as [->|[->|[->|[->|[->|[->|[->|[->|[->|[->|[->| ->]]]]]]]]]]];
    reflexivity.
Qed.

Lemma X3_days_in_month_witness :
  _days_in_month (mk_datetime 1900 2 10 5 6 7 8 1) = Ok 28.
Proof.
  exact (X3_days_in_month (mk_datetime 1900 2 10 5 6 7 8 1) eq_refl).
Defined.

(** ** The day merge with the operator given, and its collapse under a wildcard *)
Lemma merged_elem_given (e : _CronEntry) (b : bool) (y m day : Z) :
  day ∈ merged e (Some b) y m <->
  1 <= day <= days_in_month y m
  /\ if b then day ∈ days e /\ weekday_selected e y m day
     else day ∈ days e \/ weekday_selected e y m day.
Proof.
  unfold merged. rewrite merge_loop_elem, range_seqZ.
  replace (days_in_month y m + 1 - 1) with (days_in_month y m) by lia.
  assert (Hpick : forall wd,
    pick b (list_to_set (days e))
      (list_to_set (if bool_decide (7 ∈ days_of_week e)
                    then 0 :: days_of_week e else days_of_week e)) wd day = true <->
    if b
    then day ∈ days e /\ (wd ∈ days_of_week e \/ (wd = 0 /\ 7 ∈ days_of_week e))
    else day ∈ days e \/ (wd ∈ days_of_week e \/ (wd = 0 /\ 7 ∈ days_of_week e))).
  { intros wd. unfold pick.
    assert (Hw : wd ∈ (list_to_set (if bool_decide (7 ∈ days_of_week e)
                                   then 0 :: days_of_week e else days_of_week e) : gset Z) <->
                 wd ∈ days_of_week e \/ (wd = 0 /\ 7 ∈ days_of_week e)).
    { rewrite elem_of_list_to_set. case_bool_decide as H7.
      - rewrite elem_of_cons. tauto.
      - tauto. }
    destruct b.
    - rewrite andb_true_iff, !bool_decide_eq_true, elem_of_list_to_set, Hw. done.
    - rewrite orb_true_iff, !bool_decide_eq_true, elem_of_list_to_set, Hw. done. }
  split.
  - intros [Hnil|(k & Hk & Hp)]; [by apply elem_of_nil in Hnil|].
    apply lookup_seqZ in Hk as [-> Hk]. split; [lia|].
    apply Hpick in Hp. rewrite (cron_weekday_step y m (1 + Z.of_nat k) k eq_refl) in Hp.
    exact Hp.
  - intros [Hday Hsel]. right. exists (Z.to_nat (day - 1)). split.
    + apply lookup_seqZ. lia.
    + apply Hpick. rewrite (cron_weekday_step y m day (Z.to_nat (day - 1))) by lia.
      exact Hsel.
Qed.

(** X4: with the operator given, outside December of year 1, the merge
    under AND returns the days of the month that are in the day list and
    whose day of the week is selected, under OR those for which either
    holds; both lists are strictly ascending and every day of the first is
    a day of the second. *)
Theorem X4_merge_and_or (e : _CronEntry) (d : datetime) :
  valid d -> ~ (year d = 1 /\ month d = 12) ->
  exists both either,
    merge_days_and_days_of_week e d (Some true) = Ok both
    /\ merge_days_and_days_of_week e d (Some false) = Ok either
    /\ StronglySorted Z.lt both /\ StronglySorted Z.lt either
    /\ (forall day, day ∈ both <->
          1 <= day <= days_in_month (year d) (month d)
          /\ day ∈ days e /\ weekday_selected e (year d) (month d) day)
    /\ (forall day, day ∈ either <->
          1 <= day <= days_in_month (year d) (month d)
          /\ (day ∈ days e \/ weekday_selected e (year d) (month d) day))
    /\ both ⊆ either.
Proof.
  intros Hv Hne.
  exists (merged e (Some true) (year d) (month d)), (merged e (Some false) (year d) (month d)).
  rewrite !(merge_closed e d _ Hv).
  replace ((year d =? 1) && (month d =? 12)) with false by lia.
  split_and!; try done; try apply merged_sorted.
  - intros day. apply (merged_elem_given e true).
  - intros day. apply (merged_elem_given e false).
  - intros day. rewrite (merged_elem_given e true), (merged_elem_given e false). tauto.
Qed.

Lemma X4_merge_and_or_witness :
  exists both either,
    merge_days_and_days_of_week vixie_hack (mk_datetime 2025 1 15 8 30 0 0 0) (Some true)
      = Ok both
    /\ merge_days_and_days_of_week vixie_hack (mk_datetime 2025 1 15 8 30 0 0 0) (Some false)
       = Ok either
    /\ StronglySorted Z.lt both /\ StronglySorted Z.lt either
    /\ (forall day, day ∈ both <->
          1 <= day <= days_in_month 2025 1
          /\ day ∈ days vixie_hack /\ weekday_selected vixie_hack 2025 1 day)
    /\ (forall day, day ∈ either <->
          1 <= day <= days_in_month 2025 1
          /\ (day ∈ days vixie_hack \/ weekday_selected vixie_hack 2025 1 day))
    /\ both ⊆ either.
Proof.
  apply (X4_merge_and_or vixie_hack (mk_datetime 2025 1 15 8 30 0 0 0)).
  - reflexivity.
  - cbn [year month]. lia.
Defined.

(** X5: the merge looks at the year and the month of its datetime only:
    two datetimes of one month give the same list, or the same exception. *)
Theorem X5_merge_month_only (e : _CronEntry) (d d' : datetime) (o : option bool) :
  valid d -> valid d' -> year d = year d' -> month d = month d' ->
  merge_days_and_days_of_week e d o = merge_days_and_days_of_week e d' o.
Proof.
  intros Hv Hv' Hy Hm. rewrite (merge_closed e d o Hv), (merge_closed e d' o Hv').
  by rewrite Hy, Hm.
Qed.

Lemma X5_merge_month_only_witness :
  merge_days_and_days_of_week leap_sunday (mk_datetime 2032 2 1 0 0 0 0 0) None
  = merge_days_and_days_of_week leap_sunday (mk_datetime 2032 2 29 23 59 59 999999 1) None.
Proof.
  apply (X5_merge_month_only leap_sunday (mk_datetime 2032 2 1 0 0 0 0 0)
           (mk_datetime 2032 2 29 23 59 59 999999 1) None); reflexivity.
Defined.

Lemma cron_weekday_range (y m day : Z) : 0 <= cron_weekday y m day <= 6.
Proof. unfold cron_weekday. Z.div_mod_to_equations; lia. Qed.

(** X6: when one of the two day fields was a wildcard the merge collapses
    to the other field. If the day-of-week list holds every day of the week
    (as a field [*] gives) the merged days of a month are the listed days
    that exist in that month; if the day list holds every day 1..31 they
    are the days of the month whose day of the week is selected. *)
Theorem X6_merge_collapses (e : _CronEntry) (d : datetime) :
  valid d -> ~ (year d = 1 /\ month d = 12) ->
  day_star e || day_of_week_star e = true ->
  exists l, merge_days_and_days_of_week e d None = Ok l
    /\ ((forall w, 0 <= w <= 6 -> w ∈ days_of_week e) ->
        forall day, day ∈ l <->
          1 <= day <= days_in_month (year d) (month d) /\ day ∈ days e)
    /\ ((forall x, 1 <= x <= 31 -> x ∈ days e) ->
        forall day, day ∈ l <->
          1 <= day <= days_in_month (year d) (month d)
          /\ weekday_selected e (year d) (month d) day).
Proof.
  intros Hv Hne Hstar. exists (merged e None (year d) (month d)).
  rewrite (merge_closed e d None Hv).
  replace ((year d =? 1) && (month d =? 12)) with false by lia.
  split; [done|]. split.
  - intros Hall day. rewrite merged_elem. unfold day_selected, weekday_selected.
    rewrite Hstar. pose proof (cron_weekday_range (year d) (month d) day) as Hr.
    specialize (Hall _ Hr). tauto.
  - intros Hall day. rewrite merged_elem. unfold day_selected. rewrite Hstar.
    apply valid_fields in Hv as (_ & Hm & _).
    pose proof (days_in_month_bounds (year d) (month d) Hm).
    split; [tauto|]. intros [Hday Hsel]. split; [done|]. split; [|done].
    apply Hall. lia.
Qed.

Lemma X6_merge_collapses_witness :
  exists l, merge_days_and_days_of_week new_year (mk_datetime 2024 1 5 0 0 0 0 0) None = Ok l
    /\ ((forall w, 0 <= w <= 6 -> w ∈ days_of_week new_year) ->
        forall day, day ∈ l <-> 1 <= day <= days_in_month 2024 1 /\ day ∈ days new_year)
    /\ ((forall x, 1 <= x <= 31 -> x ∈ days new_year) ->
        forall day, day ∈ l <->
          1 <= day <= days_in_month 2024 1 /\ weekday_selected new_year 2024 1 day).
Proof.
  apply (X6_merge_collapses new_year (mk_datetime 2024 1 5 0 0 0 0 0)).
  - reflexivity.
  - cbn [year month]. lia.
  - reflexivity.
Defined.

(** ** The parser: its items, its errors, its feasibility check *)
Lemma range_first (lo hi step : Z) : 0 < step -> lo < hi -> lo ∈ Py.range lo hi step.
Proof.
  intros Hs H. unfold Py.range. destruct (Z.leb_spec hi lo); [lia|].
  apply list_elem_of_fmap. exists 0%nat. split; [lia|].
  apply elem_of_seq. split; [lia|].
  assert (1 <= (hi - lo + step - 1) / step); [|lia].
  apply Z.div_le_lower_bound; lia.
Qed.

Lemma range_set_nonempty (lo hi step : Z) :
  0 < step -> lo < hi -> (list_to_set (Py.range lo hi step) : gset Z) <> ∅.
Proof.
  intros Hs H Hempty. pose proof (range_first lo hi step Hs H) as Hin.
  apply (elem_of_list_to_set (C := gset Z)) in Hin. rewrite Hempty in Hin.
  by apply not_elem_of_empty in Hin.
Qed.

Lemma singleton_nonempty (x : Z) : ({[ x ]} : gset Z) <> ∅.
Proof.
  intros H. assert (Hx : x ∈ (∅ : gset Z)) by (rewrite <- H; by apply elem_of_singleton).
  by apply not_elem_of_empty in Hx.
Qed.

Ltac token_done :=
  first
    [ split; [reflexivity|]; intros; reflexivity
    | split;
      [ intros Hb; rewrite (left_id_L ∅ (∪));
        first [ apply range_set_nonempty; lia | apply singleton_nonempty ]
      | intros; rewrite (left_id_L ∅ (∪)); reflexivity ] ].

(** An item either is malformed, whatever the set so far, or adds its own
    values, at least one, to the set so far. *)
Lemma parse_token_cases (f : _CronField) (token : string) :
  match parse_token f token ∅ with
  | Ok v => (fst (bound f) <= snd (bound f) -> v <> ∅)
            /\ forall s, parse_token f token s = Ok (s ∪ v)
  | Raise x => x = CronDstError ("Bad " +:+ name f)
               /\ forall s, parse_token f token s = Raise x
  end.
Proof.
  unfold parse_token, bad. cbv zeta.
  destruct (split1_length "/" token) as [Hlen|Hlen].
  - destruct (Py.split1 "/" token) as [|list_item [|? ?]] eqn:Eparts; try discriminate.
    change (Py.index [list_item] 0) with (Ok list_item).
    cbn [length]. change (1 <? Z.of_nat 1) with false. cbn match.
    cbn [mbind result_bind]. change (1 <=? 0) with false. cbn match.
    destruct (String.eqb list_item "*"); [token_done|].
    destruct (Z.of_nat (length (Py.split "-" list_item)) =? 1) eqn:E1.
    { destruct (_number_from_item list_item (text_map f)) as [num|]; [|token_done].
      destruct (Z.ltb_spec num (fst (bound f))); [token_done|].
      destruct (Z.ltb_spec (snd (bound f)) num); [token_done|]. cbn [orb]. token_done. }
    destruct (Z.of_nat (length (Py.split "-" list_item)) =? 2) eqn:E2; [|token_done].
    cbn [negb].
    destruct (Py.split "-" list_item) as [|r0 [|r1 [|? ?]]] eqn:Er;
      try discriminate; try (exfalso; apply Z.eqb_eq in E2; cbn [length] in E2; lia).
    change (Py.index [r0; r1] 0) with (Ok r0). change (Py.index [r0; r1] 1) with (Ok r1).
    cbn [mbind result_bind].
    destruct (_number_from_item r0 (text_map f)) as [lower|]; [|token_done].
    destruct (_number_from_item r1 (text_map f)) as [upper|]; [|token_done].
    destruct (Z.ltb_spec upper lower); [token_done|].
    destruct (Z.ltb_spec lower (fst (bound f))); [token_done|].
    destruct (Z.ltb_spec (snd (bound f)) upper); [token_done|]. cbn [orb]. token_done.
  - destruct (Py.split1 "/" token) as [|list_item [|p1 [|? ?]]] eqn:Eparts; try discriminate.
    change (Py.index [list_item; p1] 0) with (Ok list_item).
    cbn [length]. change (1 <? Z.of_nat 2) with true. cbn match.
    change (Py.index [list_item; p1] 1) with (Ok p1).
    cbn [mbind result_bind].
    destruct (Py.int p1) as [step|]; [|token_done].
    cbn [mbind result_bind].
    destruct (Z.leb_spec step 0); [token_done|].
    destruct (String.eqb list_item "*"); [token_done|].
    destruct (Z.of_nat (length (Py.split "-" list_item)) =? 1) eqn:E1.
    { destruct (_number_from_item list_item (text_map f)) as [num|]; [|token_done].
      destruct (Z.ltb_spec num (fst (bound f))); [token_done|].
      destruct (Z.ltb_spec (snd (bound f)) num); [token_done|]. cbn [orb]. token_done. }
    destruct (Z.of_nat (length (Py.split "-" list_item)) =? 2) eqn:E2; [|token_done].
    cbn [negb].
    destruct (Py.split "-" list_item) as [|r0 [|r1 [|? ?]]] eqn:Er;
      try discriminate; try (exfalso; apply Z.eqb_eq in E2; cbn [length] in E2; lia).
    change (Py.index [r0; r1] 0) with (Ok r0). change (Py.index [r0; r1] 1) with (Ok r1).
    cbn [mbind result_bind].
    destruct (_number_from_item r0 (text_map f)) as [lower|]; [|token_done].
    destruct (_number_from_item r1 (text_map f)) as [upper|]; [|token_done].
    destruct (Z.ltb_spec upper lower); [token_done|].
    destruct (Z.ltb_spec lower (fst (bound f))); [token_done|].
    destruct (Z.ltb_spec (snd (bound f)) upper); [token_done|]. cbn [orb]. token_done.
Qed.

Lemma parse_token_values (f : _CronField) (token : string) (s : gset Z) :
  parse_token f token s =
    match token_values f token with
    | Some v => Ok (s ∪ v)
    | None => bad (name f)
    end.
Proof.
  unfold token_values. pose proof (parse_token_cases f token) as H.
  destruct (parse_token f token ∅) as [v|x].
  - destruct H as [_ H]. apply H.
  - destruct H as [-> H]. apply H.
Qed.

Lemma token_values_nonempty (f : _CronField) (token : string) (v : gset Z) :
  fst (bound f) <= snd (bound f) -> token_values f token = Some v -> v <> ∅.
Proof.
  unfold token_values. pose proof (parse_token_cases f token) as H.
  destruct (parse_token f token ∅) as [v'|x]; [|discriminate].
  intros Hb [= <-]. by apply H.
Qed.

(** The loop over the items of a field adds the values of all items, or
    fails with the error of the field when one item is malformed. *)
Lemma parse_tokens_values (f : _CronField) (tokens : list string) :
  forall s, parse_tokens f tokens s =
    match tokens_values f tokens with
    | Some v => Ok (s ∪ v)
    | None => bad (name f)
    end.
Proof.
  induction tokens as [|token rest IH]; intros s; cbn [parse_tokens tokens_values].
  - by rewrite (right_id_L ∅ (∪)).
  - rewrite parse_token_values. destruct (token_values f token) as [v|]; [|done].
    rewrite result_bind_Ok, IH. destruct (tokens_values f rest) as [vs|]; [|done].
    by rewrite (assoc_L (∪)).
Qed.

Lemma tokens_values_None (f : _CronField) (tokens : list string) :
  tokens_values f tokens = None <-> exists t, t ∈ tokens /\ token_values f t = None.
Proof.
  induction tokens as [|token rest IH]; cbn [tokens_values].
  - split; [discriminate|]. intros (t & Ht & _). by apply elem_of_nil in Ht.
  - destruct (token_values f token) as [v|] eqn:Ev.
    + destruct (tokens_values f rest) as [vs|].
      * split; [discriminate|]. intros (t & Ht & Hn).
        apply elem_of_cons in Ht as [->|Ht]; [congruence|].
        destruct IH as [_ IH]. assert (Hs : Some vs = None) by (apply IH; by exists t).
        discriminate Hs.
      * split; [|done]. intros _. destruct IH as [IH _].
        destruct (IH eq_refl) as (t & Ht & Hn). exists t. split; [by right|done].
    + split; [|done]. intros _. exists token. split; [by left|done].
Qed.

Lemma tokens_values_Some (f : _CronField) (tokens : list string) (V : gset Z) (x : Z) :
  tokens_values f tokens = Some V ->
  (x ∈ V <-> exists t v, t ∈ tokens /\ token_values f t = Some v /\ x ∈ v).
Proof.
  revert V. induction tokens as [|token rest IH]; intros V; cbn [tokens_values].
  - intros [= <-]. split; [by intros ?%not_elem_of_empty|].
    intros (t & v & Ht & _). by apply elem_of_nil in Ht.
  - destruct (token_values f token) as [v|] eqn:Ev; [|discriminate].
    destruct (tokens_values f rest) as [vs|]; [|discriminate].
    intros [= <-]. rewrite elem_of_union, (IH vs eq_refl). split.
    + intros [Hx|(t & v' & Ht & Hv & Hx)].
      * exists token, v. split; [by left|done].
      * exists t, v'. split; [by right|done].
    + intros (t & v' & Ht & Hv & Hx). apply elem_of_cons in Ht as [->|Ht].
      * left. congruence.
      * right. by exists t, v'.
Qed.

(** X9: the set a field ends with depends on which items its comma list
    holds, not on their order or on how often one is repeated; the same
    holds for whether the field is rejected. *)
Theorem X9_items_order_irrelevant (f : _CronField) (tokens tokens' : list string)
    (s : gset Z) :
  (forall t, t ∈ tokens <-> t ∈ tokens') ->
  parse_tokens f tokens s = parse_tokens f tokens' s.
Proof.
  intros Hsame. rewrite !parse_tokens_values.
  destruct (tokens_values f tokens) as [V|] eqn:E, (tokens_values f tokens') as [V'|] eqn:E'.
  - f_equal. f_equal. apply set_eq. intros x.
    rewrite (tokens_values_Some f tokens V x E), (tokens_values_Some f tokens' V' x E').
    split; intros (t & v & Ht & Hv); exists t, v; split; try done; by apply Hsame.
  - exfalso. apply tokens_values_None in E' as (t & Ht & Hn).
    assert (tokens_values f tokens = None); [|congruence].
    apply tokens_values_None. exists t. split; [by apply Hsame|done].
  - exfalso. apply tokens_values_None in E as (t & Ht & Hn).
    assert (tokens_values f tokens' = None); [|congruence].
    apply tokens_values_None. exists t. split; [by apply Hsame|done].
  - done.
Qed.

Lemma X9_items_order_irrelevant_witness :
  parse_tokens (mk_CronField "minute" (0, 59) None) ["5"; "1-3"; "5"; "*/20"] ∅
  = parse_tokens (mk_CronField "minute" (0, 59) None) ["*/20"; "5"; "1-3"] ∅.
Proof.
  apply (X9_items_order_irrelevant (mk_CronField "minute" (0, 59) None)
           ["5"; "1-3"; "5"; "*/20"] ["*/20"; "5"; "1-3"] ∅).
  intros t. rewrite !elem_of_cons, !elem_of_nil. tauto.
Defined.

Lemma split_nonempty (sep : ascii) (s : string) : Py.split sep s <> [].
Proof.
  unfold Py.split. generalize (@nil ascii).
  induction (Py.chars s) as [|c l IH]; intros cur; cbn [Py.split_chars]; [done|].
  destruct (Ascii.eqb c sep); [done|apply IH].
Qed.

Lemma tokens_values_nonempty (f : _CronField) (tokens : list string) (V : gset Z) :
  fst (bound f) <= snd (bound f) -> tokens <> [] ->
  tokens_values f tokens = Some V -> V <> ∅.
Proof.
  intros Hb Hne. destruct tokens as [|token rest]; [done|]. cbn [tokens_values].
  destruct (token_values f token) as [v|] eqn:Ev; [|discriminate].
  destruct (tokens_values f rest) as [vs|]; [|discriminate].
  intros [= <-] Hempty. apply (token_values_nonempty f token v Hb Ev).
  apply set_eq. intros x. split; [|by intros ?%not_elem_of_empty].
  intros Hx. rewrite <- Hempty. apply elem_of_union. by left.
Qed.

Lemma FIELD_PROPS_bounds (f : _CronField) :
  f ∈ FIELD_PROPS -> fst (bound f) <= snd (bound f).
Proof.
  unfold FIELD_PROPS. rewrite !elem_of_cons, elem_of_nil.
  intros [->|[->|[->|[->|[->|[]]]]]]; cbn [bound fst snd]; lia.
Qed.

Lemma FIELD_PROPS_messages (f : _CronField) :
  f ∈ FIELD_PROPS -> "Bad " +:+ name f ∈ parser_messages.
Proof.
  unfold FIELD_PROPS, parser_messages. rewrite !elem_of_cons, elem_of_nil.
  intros [->|[->|[->|[->|[->|[]]]]]]; cbn [name]; tauto.
Qed.

(** The loop over the fields: every field from [idx] on receives the
    values of the items of its text, at least one; the fields before stay
    as they are; the only error is that of a field. *)
Lemma parse_fields_values (fields : list string) :
  forall (idx : Z) (structure : list (gset Z)) (st : stars),
    0 <= idx -> idx + Z.of_nat (length fields) = 5 -> length structure = 5%nat ->
    match parse_fields idx fields structure st with
    | Ok (structure', _) =>
        length structure' = 5%nat
        /\ forall i : nat,
             ((i < Z.to_nat idx)%nat -> structure' !! i = structure !! i)
             /\ ((Z.to_nat idx <= i < 5)%nat ->
                 exists f field s V,
                   FIELD_PROPS !! i = Some f
                   /\ fields !! (i - Z.to_nat idx)%nat = Some field
                   /\ structure !! i = Some s
                   /\ tokens_values f (Py.split "," field) = Some V
                   /\ V <> ∅
                   /\ structure' !! i = Some (s ∪ V))
    | Raise x => exists f, f ∈ FIELD_PROPS /\ x = CronDstError ("Bad " +:+ name f)
    end.
Proof.
  induction fields as [|field rest IH]; intros idx structure st Hidx Hlen Hl;
    cbn [parse_fields].
  - split; [done|]. intros i. split; [done|]. cbn [length] in Hlen. lia.
  - cbn [length] in Hlen.
    destruct (index_in_range FIELD_PROPS idx) as (f & -> & Hf); [simpl; lia|].
    destruct (index_in_range structure idx) as (s & -> & Hs); [lia|].
    rewrite !result_bind_Ok, parse_tokens_values.
    assert (Hfin : f ∈ FIELD_PROPS) by (by eapply list_elem_of_lookup_2).
    destruct (tokens_values f (Py.split "," field)) as [V|] eqn:EV.
    2:{ exists f. done. }
    rewrite result_bind_Ok.
    specialize (IH (idx + 1) (<[Z.to_nat idx := s ∪ V]> structure) (update_stars idx field st)).
    destruct (parse_fields (idx + 1) rest _ _) as [[structure' st']|x].
    2:{ apply IH; [lia|lia|by rewrite length_insert]. }
    destruct IH as [Hl' IH]; [lia|lia|by rewrite length_insert|].
    split; [done|]. intros i. destruct (IH i) as [Hbefore Hafter]. split.
    + intros Hi. rewrite Hbefore by lia. apply list_lookup_insert_ne. lia.
    + intros Hi. destruct (decide (i = Z.to_nat idx)) as [->|Hne].
      * exists f, field, s, V. rewrite Nat.sub_diag. split_and!; try done.
        -- eapply tokens_values_nonempty; [by apply FIELD_PROPS_bounds|apply split_nonempty|done].
        -- rewrite Hbefore by lia. apply list_lookup_insert_eq. lia.
      * destruct Hafter as (f' & field' & s' & V' & H1 & H2 & H3 & H4 & H5 & H6); [lia|].
        exists f', field', s', V'. split_and!; try done.
        -- replace (i - Z.to_nat idx)%nat with (S (i - Z.to_nat (idx + 1)))%nat by lia.
           exact H2.
        -- by rewrite list_lookup_insert_ne in H3 by lia.
Qed.

Lemma index_raises {A} (l : list A) (i : Z) (x : exn) :
  Py.index l i = Raise x -> x = IndexError.
Proof.
  unfold Py.index. cbv zeta. destruct (_ || _); [congruence|].
  destruct (l !! _); congruence.
Qed.

Lemma mapM_raises {A B} (f : A -> result B) (l : list A) (x : exn) (P : exn -> Prop) :
  (forall a y, f a = Raise y -> P y) -> mapM f l = Raise x -> P x.
Proof.
  intros Hf. induction l as [|a l IH]; cbn [mapM]; [discriminate|].
  destruct (f a) as [b|y] eqn:Ea.
  - rewrite result_bind_Ok. destruct (mapM f l) as [ys|y]; [discriminate|].
    rewrite result_bind_Raise. intros [= <-]. by apply IH.
  - rewrite result_bind_Raise. intros [= <-]. by eapply Hf.
Qed.

(** The feasibility check raises no error of the parser. *)
Lemma has_triggers_raises (e : _CronEntry) (x : exn) :
  has_triggers e = Raise x -> x = IndexError \/ x = ValueError.
Proof.
  unfold has_triggers. cbv zeta. destruct (day_of_week_star e); [|discriminate].
  destruct (Py.index (days e) (-1)) as [last|y] eqn:E1.
  2:{ rewrite result_bind_Raise. intros [= <-]. left. by eapply index_raises. }
  rewrite result_bind_Ok. destruct (mapM _ (months e)) as [longest|y] eqn:E2.
  2:{ rewrite result_bind_Raise. intros [= <-]. left.
      apply (mapM_raises _ _ _ (fun y => y = IndexError) (fun a y => index_raises _ _ y) E2). }
  rewrite result_bind_Ok. destruct longest as [|m longest]; cbn [Py.max].
  - rewrite result_bind_Raise. intros [= <-]. by right.
  - rewrite result_bind_Ok. destruct (_ <? _); discriminate.
Qed.

Lemma parse_fields_start (fields : list string) (st st' : stars)
    (structure' : list (gset Z)) (i : nat) (s : gset Z) :
  length fields = 5%nat ->
  parse_fields 0 fields (replicate 5 ∅) st = Ok (structure', st') ->
  structure' !! i = Some s ->
  s <> ∅ /\ exists field, fields !! i = Some field /\ forall x, x ∈ s <-> item_value i field x.
Proof.
  intros Hlen Hp Hs.
  pose proof (parse_fields_values fields 0 (replicate 5 ∅) st) as H.
  rewrite Hp in H. destruct H as [Hl H]; [lia|lia|done|].
  assert (Hi : (i < 5)%nat) by (rewrite <- Hl; by eapply lookup_lt_Some).
  destruct (H i) as [_ (f & field & s0 & V & Hf & Hfield & Hs0 & HV & Hne & Hs')]; [lia|].
  apply lookup_replicate in Hs0 as [-> _]. rewrite (left_id_L ∅ (∪)) in Hs'.
  rewrite Hs in Hs'. injection Hs' as ->. split; [done|].
  exists field. rewrite Nat.sub_0_r in Hfield. split; [done|]. intros x.
  rewrite (tokens_values_Some f _ V x HV). unfold item_value. split.
  - intros (t & v & Ht & Hv & Hx). by exists f, t, v.
  - intros (f' & t & v & Hf' & Ht & Hv & Hx). exists t, v.
    rewrite Hf in Hf'. injection Hf' as <-. done.
Qed.

(** The parser, outcome by outcome: a schedule it returns passes the
    feasibility check and holds, field by field, the values of the items of
    the text; an exception is one of the named errors. *)
Lemma from_expression_cases (expression : string) :
  match from_expression expression with
  | Ok e =>
      has_triggers e = Ok true
      /\ exists f0 f1 f2 f3 f4,
           Py.split_ws (Py.strip expression) = [f0; f1; f2; f3; f4]
           /\ (forall x, x ∈ minutes e <-> item_value 0 f0 x)
           /\ (forall x, x ∈ hours e <-> item_value 1 f1 x)
           /\ (forall x, x ∈ days e <-> item_value 2 f2 x)
           /\ (forall x, x ∈ months e <-> item_value 3 f3 x)
           /\ (forall x, x ∈ days_of_week e <-> item_value 4 f4 x)
  | Raise x => exists msg, x = CronDstError msg /\ msg ∈ parser_messages
  end.
Proof.
  pose proof (from_expression_spec expression) as Hspec. revert Hspec.
  unfold from_expression.
  destruct (MAX_EXPRESSION_LENGTH <? Py.len expression).
  { intros _. eexists. split; [done|]. unfold parser_messages. rewrite !elem_of_cons. tauto. }
  cbv zeta.
  destruct (Z.eqb_spec (Z.of_nat (length (Py.split_ws (Py.strip expression)))) 5) as [Hlen|Hlen];
    cbn [negb].
  2:{ intros _. eexists. split; [done|]. unfold parser_messages. rewrite !elem_of_cons. tauto. }
  assert (Hlen' : length (Py.split_ws (Py.strip expression)) = 5%nat) by lia.
  pose proof (parse_fields_values (Py.split_ws (Py.strip expression)) 0 (replicate 5 ∅)
                (false, false, false, false)) as Hp.
  pose proof (parse_fields_start (Py.split_ws (Py.strip expression))
                (false, false, false, false)) as Hst.
  destruct (parse_fields 0 _ _ _) as [[structure [[[ms hs] ds] ws]]|x].
  2:{ intros _. destruct Hp as (f & Hf & ->); [lia|lia|done|].
      eexists. split; [done|]. by apply FIELD_PROPS_messages. }
  rewrite result_bind_Ok. destruct Hp as [Hl _]; [lia|lia|done|].
  specialize (Hst (ms, hs, ds, ws) structure).
  destruct structure as [|s0 [|s1 [|s2 [|s3 [|s4 [|? ?]]]]]]; try discriminate.
  destruct (Hst 0%nat s0 Hlen' eq_refl eq_refl) as (H0 & g0 & Hg0 & Hv0).
  destruct (Hst 1%nat s1 Hlen' eq_refl eq_refl) as (H1 & g1 & Hg1 & Hv1).
  destruct (Hst 2%nat s2 Hlen' eq_refl eq_refl) as (H2 & g2 & Hg2 & Hv2).
  destruct (Hst 3%nat s3 Hlen' eq_refl eq_refl) as (H3 & g3 & Hg3 & Hv3).
  destruct (Hst 4%nat s4 Hlen' eq_refl eq_refl) as (H4 & g4 & Hg4 & Hv4).
  clear Hst.
  assert (Eex : existsb (fun s : gset Z => bool_decide (s = ∅)) [s0; s1; s2; s3; s4] = false).
  { cbn [existsb]. rewrite !orb_false_iff, !bool_decide_eq_false. done. }
  rewrite Eex.
  change (Py.index [s0; s1; s2; s3; s4] 0) with (Ok s0).
  change (Py.index [s0; s1; s2; s3; s4] 1) with (Ok s1).
  change (Py.index [s0; s1; s2; s3; s4] 2) with (Ok s2).
  change (Py.index [s0; s1; s2; s3; s4] 3) with (Ok s3).
  change (Py.index [s0; s1; s2; s3; s4] 4) with (Ok s4).
  rewrite !result_bind_Ok.
  set (entry := mk_CronEntry _ _ _ _ _ _ _ _ _).
  destruct (has_triggers entry) as [b|x] eqn:Eh.
  2:{ rewrite result_bind_Raise. intros [msg ->].
      by apply has_triggers_raises in Eh as [Eh|Eh]. }
  rewrite result_bind_Ok. destruct b; cbn [negb].
  2:{ intros _. eexists. split; [done|]. unfold parser_messages. rewrite !elem_of_cons. tauto. }
  intros _. split; [done|].
  destruct (Py.split_ws (Py.strip expression)) as [|f0 [|f1 [|f2 [|f3 [|f4 [|? ?]]]]]];
    try discriminate.
  injection Hg0 as <-. injection Hg1 as <-. injection Hg2 as <-.
  injection Hg3 as <-. injection Hg4 as <-.
  exists f0, f1, f2, f3, f4. split; [done|].
  unfold entry. cbn [minutes hours days months days_of_week].
  split_and!; intros x.
  - rewrite <- Hv0. apply sorted_spec.
  - rewrite <- Hv1. apply sorted_spec.
  - rewrite <- Hv2. apply sorted_spec.
  - rewrite <- Hv3. apply sorted_spec.
  - rewrite <- Hv4. apply sorted_spec.
Qed.

(** X7: every exception of the parser is a [CronDstError] with one of eight
    messages: the length, the number of fields, a field by its name, or no
    triggers. The bare message [Bad expression], which the code raises for
    an empty set of values, never occurs: a field that parses has a value. *)
Theorem X7_parser_errors (expression : string) (x : exn) :
  from_expression expression = Raise x ->
  exists msg, x = CronDstError msg /\ msg ∈ parser_messages /\ msg <> "Bad expression".
Proof.
  intros H. pose proof (from_expression_cases expression) as Hc. rewrite H in Hc.
  destruct Hc as (msg & -> & Hmsg). exists msg. split; [done|]. split; [done|].
  intros ->. revert Hmsg. unfold parser_messages. rewrite !elem_of_cons, elem_of_nil.
  intros [Hm|[Hm|[Hm|[Hm|[Hm|[Hm|[Hm|[Hm|[]]]]]]]]]; discriminate Hm.
Qed.

Lemma X7_parser_errors_witness :
  exists msg, CronDstError "Bad day-of-week" = CronDstError msg
    /\ msg ∈ parser_messages /\ msg <> "Bad expression".
Proof.
  apply (X7_parser_errors "0 0 * * mon-8" (CronDstError "Bad day-of-week")).
  vm_compute. reflexivity.
Defined.

(** X8: a schedule the parser returns passes the feasibility check, and
    when its day-of-week field began with [*] every day of its day list is
    a day that one of its months can have, February counted with 29. *)
Theorem X8_parsed_schedule_feasible (expression : string) (e : _CronEntry) :
  from_expression expression = Ok e ->
  has_triggers e = Ok true
  /\ (day_of_week_star e = true ->
      forall d, d ∈ days e -> exists m, m ∈ months e /\ d <= longest_month m).
Proof.
  intros H. pose proof (from_expression_cases expression) as Hc. rewrite H in Hc.
  destruct Hc as [Ht _]. split; [done|]. intros Hstar d Hd.
  destruct (has_triggers_spec e (from_expression_schedule_ok _ _ H))
    as (dmax & lmax & [_ Hdmax] & [Hl _] & Hht).
  rewrite Ht, Hstar in Hht. cbn [negb orb] in Hht.
  apply list_elem_of_fmap in Hl as (m & -> & Hm). exists m. split; [done|].
  specialize (Hdmax d Hd). injection Hht as Hle. symmetry in Hle. apply Z.leb_le in Hle. lia.
Qed.

Lemma X8_parsed_schedule_feasible_witness :
  has_triggers leap_sunday = Ok true
  /\ (day_of_week_star leap_sunday = true ->
      forall d, d ∈ days leap_sunday ->
        exists m, m ∈ months leap_sunday /\ d <= longest_month m).
Proof.
  apply (X8_parsed_schedule_feasible "0 0 29 2 */7" leap_sunday).
  vm_compute. reflexivity.
Defined.

(** X10: each of the five sequences of a parsed schedule holds exactly the
    values of the items of the comma list of its own field, each item read
    on its own; no field contributes to the sequence of another. *)
Theorem X10_sequences_of_items (expression : string) (e : _CronEntry) :
  from_expression expression = Ok e ->
  exists f0 f1 f2 f3 f4,
    Py.split_ws (Py.strip expression) = [f0; f1; f2; f3; f4]
    /\ (forall x, x ∈ minutes e <-> item_value 0 f0 x)
    /\ (forall x, x ∈ hours e <-> item_value 1 f1 x)
    /\ (forall x, x ∈ days e <-> item_value 2 f2 x)
    /\ (forall x, x ∈ months e <-> item_value 3 f3 x)
    /\ (forall x, x ∈ days_of_week e <-> item_value 4 f4 x).
Proof.
  intros H. pose proof (from_expression_cases expression) as Hc. rewrite H in Hc.
  apply Hc.
Qed.

Lemma X10_sequences_of_items_witness :
  exists f0 f1 f2 f3 f4,
    Py.split_ws (Py.strip "0 13 */999 1,4,7,10 3") = [f0; f1; f2; f3; f4]
    /\ (forall x, x ∈ minutes vixie_hack <-> item_value 0 f0 x)
    /\ (forall x, x ∈ hours vixie_hack <-> item_value 1 f1 x)
    /\ (forall x, x ∈ days vixie_hack <-> item_value 2 f2 x)
    /\ (forall x, x ∈ months vixie_hack <-> item_value 3 f3 x)
    /\ (forall x, x ∈ days_of_week vixie_hack <-> item_value 4 f4 x).
Proof.
  apply (X10_sequences_of_items "0 13 */999 1,4,7,10 3" vixie_hack).
  vm_compute. reflexivity.
Defined.

(** ** The wallclock search: its result, its budget, its start *)
Lemma result_bind_ext {A B} (r : result A) (f g : A -> result B) :
  (forall a, f a = g a) -> (r ≫= f) = (r ≫= g).
Proof. intros H. destruct r; [apply H|reflexivity]. Qed.

(** What the loop returns is on a whole minute, with fold 0. *)
Lemma month_loop_shape (start : datetime) (e : _CronEntry) (n : nat) :
  forall (c : candidate) (p p' : Z) (t : datetime),
    month_loop start e n c p = Ok (Some t, p') ->
    valid t /\ second t = 0 /\ microsecond t = 0 /\ fold t = 0.
Proof.
  induction n as [|n IH]; intros c p p' t; cbn [month_loop]; [discriminate|].
  cbv zeta.
  destruct (_index_of_nearest_number (months e) (next_month c)) as [idx|];
    [|intros H; discriminate H].
  rewrite result_bind_Ok.
  destruct (if idx <? Z.of_nat (length (months e)) then _ else _) as [c'|];
    [|intros H; discriminate H].
  rewrite result_bind_Ok.
  destruct (datetime5 _ _ _ _ _) as [ts|] eqn:Ets; [|intros H; discriminate H].
  rewrite result_bind_Ok. unfold datetime5 in Ets. apply make_Ok in Ets as [-> Hts].
  destruct (is_placeholder_day c').
  - destruct (merge_days_and_days_of_week e _ None) as [[|d l]|]; [| |intros H; discriminate H].
    + rewrite result_bind_Ok. apply IH.
    + rewrite result_bind_Ok. cbn [hour minute second microsecond fold].
      destruct (make _) as [t'|] eqn:Et; [|intros H; discriminate H].
      rewrite result_bind_Ok. apply make_Ok in Et as [-> Hv]. intros [= <- _]. done.
  - intros [= <- _]. done.
Qed.

Lemma month_loop_start (start start' : datetime) (e : _CronEntry) (n : nat) :
  month start = month start' ->
  forall (c : candidate) (p : Z), month_loop start e n c p = month_loop start' e n c p.
Proof.
  intros Hm. induction n as [|n IH]; intros c p; cbn [month_loop]; [done|].
  cbv zeta. rewrite Hm.
  apply result_bind_ext. intros idx. apply result_bind_ext. intros c'.
  apply result_bind_ext. intros ts. destruct (is_placeholder_day c'); [|done].
  apply result_bind_ext. intros [|d l]; [apply IH|done].
Qed.

Lemma month_loop_more (start : datetime) (e : _CronEntry) (k n : nat) :
  forall (c : candidate) (p p' : Z) (t : datetime),
    month_loop start e n c p = Ok (Some t, p') ->
    month_loop start e (n + k) c p = Ok (Some t, p').
Proof.
  induction n as [|n IH]; intros c p p' t; cbn [month_loop Nat.add]; [discriminate|].
  cbv zeta.
  destruct (_index_of_nearest_number (months e) (next_month c)) as [idx|];
    [|intros H; discriminate H].
  rewrite !result_bind_Ok.
  destruct (if idx <? Z.of_nat (length (months e)) then _ else _) as [c'|];
    [|intros H; discriminate H].
  rewrite !result_bind_Ok.
  destruct (datetime5 _ _ _ _ _) as [ts|]; [|intros H; discriminate H].
  rewrite !result_bind_Ok.
  destruct (is_placeholder_day c'); [|done].
  destruct (merge_days_and_days_of_week e _ None) as [[|d l]|]; [| |intros H; discriminate H].
  - rewrite !result_bind_Ok. apply IH.
  - done.
Qed.

Lemma wallclock_stages_start (start start' : datetime) (e : _CronEntry) :
  valid start -> valid start' -> same_minute start start' ->
  wallclock_stages start e = wallclock_stages start' e.
Proof.
  intros Hv Hv' (Hy & Hm & Hd & Hh & Hmi). unfold wallclock_stages.
  rewrite (merge_closed e start None Hv), (merge_closed e start' None Hv').
  by rewrite Hy, Hm, Hd, Hh, Hmi.
Qed.

Lemma next_wallclock_shape (start : datetime) (e : _CronEntry) (max_years : Z)
    (t : datetime) :
  _next_wallclock_datetime start e max_years = Ok (Some t) ->
  valid t /\ second t = 0 /\ microsecond t = 0 /\ fold t = 0.
Proof.
  unfold _next_wallclock_datetime, wallclock_search.
  destruct (wallclock_stages start e) as [c|]; [|intros H; discriminate H].
  rewrite result_bind_Ok.
  destruct (month_loop start e _ c 0) as [[r p]|] eqn:El; [|intros H; discriminate H].
  intros [= ->]. by eapply month_loop_shape.
Qed.

(** X11: a timestamp the search returns is a valid datetime on a whole
    minute: its second and microsecond are 0, and its fold is 0 whatever the
    fold of the start. *)
Theorem X11_result_on_the_minute (start : datetime) (e : _CronEntry) (max_years : Z)
    (t : datetime) :
  _next_wallclock_datetime start e max_years = Ok (Some t) ->
  valid t /\ second t = 0 /\ microsecond t = 0 /\ fold t = 0.
Proof. apply next_wallclock_shape. Qed.

Lemma X11_result_on_the_minute_witness :
  valid (mk_datetime 2025 1 1 13 0 0 0 0)
  /\ second (mk_datetime 2025 1 1 13 0 0 0 0) = 0
  /\ microsecond (mk_datetime 2025 1 1 13 0 0 0 0) = 0
  /\ fold (mk_datetime 2025 1 1 13 0 0 0 0) = 0.
Proof.
  apply (X11_result_on_the_minute (mk_datetime 2020 9 24 0 0 59 999999 1) vixie_hack 50).
  vm_compute. reflexivity.
Defined.

(** X12: the search reads its start down to the minute only: two valid
    starts that differ in second, microsecond or fold give the same result,
    after the same number of passes, or the same exception. *)
Theorem X12_start_to_the_minute (start start' : datetime) (e : _CronEntry) (max_years : Z) :
  valid start -> valid start' -> same_minute start start' ->
  wallclock_search start e max_years = wallclock_search start' e max_years.
Proof.
  intros Hv Hv' Hsame. unfold wallclock_search.
  rewrite (wallclock_stages_start start start' e Hv Hv' Hsame).
  apply result_bind_ext. intros c. apply month_loop_start. apply Hsame.
Qed.

Lemma X12_start_to_the_minute_witness :
  wallclock_search (mk_datetime 2020 9 24 0 0 0 0 0) vixie_hack 50
  = wallclock_search (mk_datetime 2020 9 24 0 0 59 999999 1) vixie_hack 50.
Proof.
  apply (X12_start_to_the_minute (mk_datetime 2020 9 24 0 0 0 0 0)
           (mk_datetime 2020 9 24 0 0 59 999999 1) vixie_hack 50).
  - reflexivity.
  - reflexivity.
  - repeat split.
Defined.

(** X13: with a budget of zero years or less the loop over the months is
    not entered: outside December of year 1 the search returns [None] after
    no pass, also when the schedule has a match later in the month of the
    start. *)
Theorem X13_no_budget (start : datetime) (e : _CronEntry) (max_years : Z) :
  schedule_ok e -> valid start -> ~ (year start = 1 /\ month start = 12) ->
  max_years <= 0 ->
  wallclock_search start e max_years = Ok (None, 0).
Proof.
  intros He Hv Hne Hmax.
  pose proof (wallclock_search_spec e start max_years He Hv) as Hpost.
  revert Hpost. unfold wallclock_search.
  replace (Z.to_nat (Z.max max_years 0 * 12)) with 0%nat by lia.
  destruct (wallclock_stages start e) as [c|x] eqn:Es; [done|].
  intros _. exfalso.
  pose proof He as ((HMne & HMs & _) & (HHne & HHs & _) & _).
  destruct (first_spec (minutes e) HMne HMs) as (M0 & HM0 & HM0in & HM0min).
  destruct (first_spec (hours e) HHne HHs) as (H0 & HH0 & HH0in & HH0min).
  pose proof (stages_spec e start M0 H0 He HM0 HM0in HM0min HH0 HH0in HH0min) as Hst.
  rewrite (merge_closed e start None Hv) in Hst.
  replace ((year start =? 1) && (month start =? 12)) with false in Hst by lia.
  rewrite Es in Hst. apply Hst. apply merged_sorted.
Qed.

Lemma X13_no_budget_witness :
  wallclock_search (mk_datetime 2024 12 31 23 58 0 0 0) twice_an_hour 0 = Ok (None, 0).
Proof.
  apply (X13_no_budget (mk_datetime 2024 12 31 23 58 0 0 0) twice_an_hour 0).
  - apply twice_an_hour_ok.
  - reflexivity.
  - cbn [year month]. lia.
  - lia.
Defined.

(** X14: a larger budget does not change a result: what the search finds
    within [max_years] it finds, after the same number of passes, within
    any larger budget. *)
Theorem X14_budget_monotone (start : datetime) (e : _CronEntry) (max_years max_years' : Z)
    (t : datetime) (passes : Z) :
  max_years <= max_years' ->
  wallclock_search start e max_years = Ok (Some t, passes) ->
  wallclock_search start e max_years' = Ok (Some t, passes).
Proof.
  intros Hle. unfold wallclock_search.
  destruct (wallclock_stages start e) as [c|]; [|intros H; discriminate H].
  rewrite !result_bind_Ok. intros H.
  replace (Z.to_nat (Z.max max_years' 0 * 12))
    with (Z.to_nat (Z.max max_years 0 * 12)
          + (Z.to_nat (Z.max max_years' 0 * 12) - Z.to_nat (Z.max max_years 0 * 12)))%nat by lia.
  by apply month_loop_more.
Qed.

Lemma X14_budget_monotone_witness :
  wallclock_search (mk_datetime 2020 9 24 0 0 0 0 0) vixie_hack 60
  = Ok (Some (mk_datetime 2025 1 1 13 0 0 0 0), 18).
Proof.
  apply (X14_budget_monotone (mk_datetime 2020 9 24 0 0 0 0 0) vixie_hack 50 60).
  - lia.
  - vm_compute. reflexivity.
Defined.

Lemma same_minute_eq (a b : datetime) :
  ~ civil_lt a b -> ~ civil_lt b a ->
  second a = second b -> microsecond a = microsecond b -> fold a = fold b -> a = b.
Proof.
  destruct a as [y m d h mi s us f], b as [y' m' d' h' mi' s' us' f'].
  unfold civil_lt. cbn [year month day hour minute second microsecond fold].
  intros Hab Hba -> -> ->.
  assert (y = y' /\ m = m' /\ d = d' /\ h = h' /\ mi = mi') as (-> & -> & -> & -> & ->) by lia.
  reflexivity.
Qed.

(** X15: the search is complete within its budget. If a timestamp on a
    whole minute with fold 0 is the earliest match after the start and its
    month is one of the [12 * max_years] months that begin with the month
    of the start, the search returns that timestamp. *)
Theorem X15_search_complete (e : _CronEntry) (start t : datetime) (max_years : Z) :
  schedule_ok e -> valid start ->
  2 <= year start -> year start + 12 * Z.max max_years 0 <= 9999 ->
  earliest_after e start t ->
  second t = 0 -> microsecond t = 0 -> fold t = 0 ->
  ym (year t) (month t) < ym (year start) (month start) + 12 * Z.max max_years 0 ->
  _next_wallclock_datetime start e max_years = Ok (Some t).
Proof.
  intros He Hv Hy2 Hy9 (Htv & Hlt & Hm & Hmin) Hs Hus Hf Hym.
  destruct (next_wallclock_returns e start max_years He Hv Hy2 Hy9) as [r Hr].
  pose proof (next_wallclock_Ok e start max_years r He Hv Hr) as Hok.
  destruct r as [t'|]; cbn [wallclock_result_ok] in Hok.
  - destruct Hok as (Htv' & Hlt' & Hm' & Hmin').
    destruct (next_wallclock_shape start e max_years t' Hr) as (_ & Hs' & Hus' & Hf').
    rewrite Hr. do 2 f_equal. apply same_minute_eq; [by apply Hmin|by apply Hmin'|congruence..].
  - specialize (Hok t Htv Hm Hlt). lia.
Qed.

Lemma X15_search_complete_witness :
  _next_wallclock_datetime (mk_datetime 2020 9 24 0 0 0 0 0) vixie_hack 50
  = Ok (Some (mk_datetime 2025 1 1 13 0 0 0 0)).
Proof.
  apply (X15_search_complete vixie_hack (mk_datetime 2020 9 24 0 0 0 0 0)
           (mk_datetime 2025 1 1 13 0 0 0 0) 50).
  - apply vixie_hack_ok.
  - reflexivity.
  - cbn [year]. lia.
  - cbn [year]. lia.
  - apply (next_wallclock_Ok vixie_hack (mk_datetime 2020 9 24 0 0 0 0 0) 50
             (Some (mk_datetime 2025 1 1 13 0 0 0 0)) vixie_hack_ok eq_refl).
    vm_compute. reflexivity.
  - reflexivity.
  - reflexivity.
  - reflexivity.
  - unfold ym. cbn [year month]. lia.
Defined.

(** ** The iterator in a zone with a fixed offset, continued *)
Lemma last_cons_default {A} (l : list A) :
  forall r s : A, List.last (r :: l) s = List.last l r.
Proof.
  induction l as [|v l IH]; intros r s; [done|].
  change (List.last (r :: v :: l) s) with (List.last (v :: l) s).
  by rewrite (IH v s), (IH v r).
Qed.

Lemma chain_enumerates (e : _CronEntry) (max_years : Z) (n : nat) :
  schedule_ok e ->
  forall s, valid s ->
    let '(values, en) := wallclock_chain e max_years n s in
    enumerates e s values
    /\ en <> Stuck
    /\ (en = Ended -> none_within e (List.last values s) max_years)
    /\ (forall c, en = Pending c -> length values = n /\ start c = List.last values s).
Proof.
  intros He. induction n as [|n IH]; intros s Hs; cbn [wallclock_chain].
  - split_and!; try done. intros c [= <-]. done.
  - destruct (_next_wallclock_datetime s e max_years) as [[r|]|x] eqn:Enw.
    + pose proof (next_wallclock_Ok e s max_years (Some r) He Hs Enw) as Hr.
      specialize (IH r (proj1 Hr)).
      destruct (wallclock_chain e max_years n r) as [values en].
      destruct IH as (Hen & Hstuck & Hended & Hpending).
      rewrite last_cons_default. split_and!; try done.
      intros c Hc. destruct (Hpending c Hc) as [<- ->]. done.
    + pose proof (next_wallclock_Ok e s max_years None He Hs Enw) as Hr.
      split_and!; done.
    + split_and!; done.
Qed.

(** X16: in a zone whose offset is fixed the iterator skips no match: the
    first value is the earliest match after the normalised start and every
    further value the earliest match after the value before it. With one
    pass allowed per value the iterator is never short of passes; when it
    ends, no match lies within the budget after its last value; and when
    neither it ends nor raises, it has emitted all [n] values asked for. *)
Theorem X16_fixed_offset_enumerates (tz : tzinfo) (e : _CronEntry) (max_years : Z)
    (fuel n : nat) (start0 : datetime) (c : cursor) :
  (forall d d', utcoffset tz d = utcoffset tz d') ->
  schedule_ok e ->
  iter_begin tz start0 = Ok c ->
  let '(values, en) := iter tz e max_years (S fuel) n start0 in
  enumerates e (start c) values
  /\ en <> Stuck
  /\ (en = Ended -> none_within e (List.last values (start c)) max_years)
  /\ (forall c', en = Pending c' -> length values = n).
Proof.
  intros Hfixed He Eb. unfold iter. rewrite Eb.
  destruct (iter_begin_cursor tz start0 c Eb) as [Hv Hc].
  destruct c as [s m g]. cbn [start] in *. injection Hc as -> ->.
  rewrite (fixed_take tz e max_years Hfixed He fuel n s Hv).
  pose proof (chain_enumerates e max_years n He s Hv) as H.
  destruct (wallclock_chain e max_years n s) as [values en].
  destruct H as (H1 & H2 & H3 & H4). split_and!; try done.
  intros c' Hc'. by destruct (H4 c' Hc').
Qed.

Lemma X16_fixed_offset_enumerates_witness :
  let '(values, en) :=
    iter (fixed_tz 3600) vixie_hack 50 1 3 (mk_datetime 2020 9 24 0 0 30 5 0) in
  enumerates vixie_hack (mk_datetime 2020 9 24 0 0 0 0 0) values
  /\ en <> Stuck
  /\ (en = Ended ->
      none_within vixie_hack (List.last values (mk_datetime 2020 9 24 0 0 0 0 0)) 50)
  /\ (forall c', en = Pending c' -> length values = 3%nat).
Proof.
  apply (X16_fixed_offset_enumerates (fixed_tz 3600) vixie_hack 50 0 3
           (mk_datetime 2020 9 24 0 0 30 5 0)
           (mk_cursor (mk_datetime 2020 9 24 0 0 0 0 0) (mk_datetime 2020 9 24 0 0 0 0 0) None)).
  - apply fixed_tz_fixed.
  - apply vixie_hack_ok.
  - vm_compute. reflexivity.
Defined.

(** ** Ordinals and civil fields, both ways *)
Lemma december (y : Z) :
  days_in_month y 12 = 31
  /\ days_before_month y 12 + 31 = 365 + (if is_leap y then 1 else 0)
  /\ days_before_month (y + 1) 1 = 0.
Proof.
  rewrite (days_in_month_leap y 12), (days_before_month_leap y 12),
    (days_before_month_leap (y + 1) 1).
  destruct (is_leap y), (is_leap (y + 1)); done.
Qed.

(** Every ordinal from 1 on is the ordinal of a date. *)
Lemma ordinal_date (o : Z) :
  1 <= o ->
  exists y m d, 1 <= y /\ 1 <= m <= 12 /\ 1 <= d <= days_in_month y m /\ ymd2ord y m d = o.
Proof.
  intros Ho. replace o with (1 + (o - 1)) by lia.
  assert (Hk : 0 <= o - 1) by lia. revert Hk. generalize (o - 1). clear.
  apply natlike_ind.
  - exists 1, 1, 1. done.
  - intros k Hk (y & m & d & Hy & Hm & Hd & Ho).
    pose proof (days_in_month_bounds y m Hm) as Hdim.
    destruct (decide (d < days_in_month y m)) as [Hlt|Hge].
    { exists y, m, (d + 1). split_and!; try lia. unfold ymd2ord in *. lia. }
    destruct (decide (m < 12)) as [Hm12|Hm12].
    { exists y, (m + 1), 1. pose proof (days_in_month_bounds y (m + 1)).
      split_and!; try lia. unfold ymd2ord in *.
      rewrite (days_before_month_succ y m) by lia. lia. }
    assert (m = 12) as -> by lia.
    destruct (december y) as (H31 & Hdec & Hjan).
    exists (y + 1), 1, 1. pose proof (days_in_month_bounds (y + 1) 1).
    split_and!; try lia. unfold ymd2ord in *.
    rewrite days_before_year_succ, Hjan. lia.
Qed.

Lemma ymd2ord_ord2ymd (o : Z) :
  1 <= o <= MAXORDINAL ->
  exists y m d,
    ord2ymd o = (y, m, d)
    /\ 1 <= y <= 9999 /\ 1 <= m <= 12 /\ 1 <= d <= days_in_month y m
    /\ ymd2ord y m d = o.
Proof.
  intros [Ho Hmax]. destruct (ordinal_date o Ho) as (y & m & d & Hy & Hm & Hd & Hord).
  exists y, m, d. split; [by rewrite <- Hord, ord2ymd_ymd2ord|]. split_and!; try lia.
  destruct (decide (y <= 9999)) as [|Hbig]; [done|]. exfalso.
  pose proof (ymd2ord_bounds y m d Hm Hd) as [Hlo _].
  pose proof (days_before_year_mono 10000 y ltac:(lia)) as Hmono.
  change (days_before_year 10000) with MAXORDINAL in Hmono. lia.
Qed.

Lemma time_fields (h mi s us : Z) :
  0 <= h <= 23 -> 0 <= mi <= 59 -> 0 <= s <= 59 -> 0 <= us <= 999999 ->
  let r := (h * 3600 + mi * 60 + s) * US_PER_SECOND + us in
  let secs := r / US_PER_SECOND in
  secs / 3600 = h /\ secs mod 3600 / 60 = mi /\ secs mod 60 = s /\ r mod US_PER_SECOND = us.
Proof.
  intros Hh Hmi Hs Hus r secs. unfold US_PER_SECOND in *.
  assert (Hsecs : secs = h * 3600 + mi * 60 + s).
  { unfold secs, r. Z.div_mod_to_equations. lia. }
  assert (Hr : r mod 1000000 = us).
  { unfold r. Z.div_mod_to_equations. lia. }
  rewrite Hsecs. split_and!; [| | |done]; Z.div_mod_to_equations; lia.
Qed.

(** The civil fields of the microsecond count of a valid datetime are its
    own, the fold apart. *)
Lemma of_civil_us_civil_us (d : datetime) :
  valid d ->
  of_civil_us (civil_us d)
  = mk_datetime (year d) (month d) (day d) (hour d) (minute d) (second d) (microsecond d) 0.
Proof.
  intros Hv. pose proof (time_us_bounds d Hv) as Ht.
  apply valid_fields in Hv as (Hy & Hm & Hd & Hh & Hmi & Hs & Hus & _).
  unfold of_civil_us. rewrite civil_us_split.
  destruct (div_mod_small US_PER_DAY (ymd2ord (year d) (month d) (day d)) (time_us d) Ht)
    as [-> ->].
  rewrite ord2ymd_ymd2ord by lia.
  destruct (time_fields (hour d) (minute d) (second d) (microsecond d) Hh Hmi Hs Hus)
    as (H1 & H2 & H3 & H4).
  unfold time_us. by rewrite H1, H2, H3, H4.
Qed.

(** A microsecond count within the calendar has valid civil fields, and
    they count the same microseconds. *)
Lemma civil_us_of_civil_us (u : Z) :
  1 <= u / US_PER_DAY <= MAXORDINAL ->
  valid (of_civil_us u) /\ civil_us (of_civil_us u) = u.
Proof.
  intros Ho. destruct (ymd2ord_ord2ymd _ Ho) as (y & m & d & Hymd & Hy & Hm & Hd & Hord).
  unfold of_civil_us. rewrite Hymd.
  assert (Hr : 0 <= u mod US_PER_DAY < US_PER_DAY) by (apply Z.mod_pos_bound; done).
  set (r := u mod US_PER_DAY) in *. set (secs := r / US_PER_SECOND).
  assert (Hsecs : 0 <= secs < 86400).
  { unfold secs, US_PER_DAY, US_PER_SECOND in *. Z.div_mod_to_equations. lia. }
  split.
  - apply valid_fields. cbn [year month day hour minute second microsecond fold].
    unfold US_PER_SECOND. split_and!; try lia; try (Z.div_mod_to_equations; lia).
  - unfold civil_us. cbn [year month day hour minute second microsecond]. rewrite Hord.
    assert (Hu : u = u / US_PER_DAY * US_PER_DAY + r).
    { unfold r. pose proof (Z.div_mod u US_PER_DAY ltac:(done)). lia. }
    assert (Hs : secs / 3600 * 3600 + secs mod 3600 / 60 * 60 + secs mod 60 = secs).
    { clear. Z.div_mod_to_equations. lia. }
    rewrite Hs.
    assert (Ht : secs * US_PER_SECOND + r mod US_PER_SECOND = r).
    { unfold secs, US_PER_SECOND. clear. Z.div_mod_to_equations. lia. }
    clear -Hu Ht. lia.
Qed.

Lemma civil_us_ordinal (d : datetime) :
  valid d ->
  civil_us d / US_PER_DAY = ymd2ord (year d) (month d) (day d)
  /\ 1 <= ymd2ord (year d) (month d) (day d) <= MAXORDINAL.
Proof.
  intros Hv. pose proof (time_us_bounds d Hv) as Ht.
  apply valid_fields in Hv as (Hy & Hm & Hd & _).
  rewrite civil_us_split.
  destruct (div_mod_small US_PER_DAY (ymd2ord (year d) (month d) (day d)) (time_us d) Ht)
    as [-> _].
  split; [done|]. split; [apply ymd2ord_min; lia|apply ymd2ord_max; lia].
Qed.

(** ** The float of a whole number of seconds *)

Lemma round_half_even_exact (x q : Z) : 0 < q -> round_half_even (x * q) q = x.
Proof.
  intros Hq. unfold round_half_even. cbv zeta.
  rewrite Z.div_mul, Z.mod_mul by lia.
  destruct (Z.ltb_spec q (2 * 0)); [lia|]. destruct (Z.eqb_spec (2 * 0) q); [lia|]. done.
Qed.

Lemma microseconds_of_whole (s j : Z) :
  0 <= j -> microseconds_of_float (s * 2 ^ j, - j) = s * US_PER_SECOND.
Proof.
  intros Hj. unfold microseconds_of_float.
  assert (Hpow : 0 < 2 ^ j) by (apply Z.pow_pos_nonneg; lia).
  set (intpart := if 0 <=? - j then s * 2 ^ j * 2 ^ (- j) else Z.quot (s * 2 ^ j) (2 ^ (- - j))).
  assert (Hip : intpart = s).
  { unfold intpart. destruct (Z.leb_spec 0 (- j)).
    - assert (j = 0) as -> by lia. change (2 ^ (- 0)) with 1. change (2 ^ 0) with 1. lia.
    - rewrite Z.opp_involutive. apply Z.quot_mul. lia. }
  set (frac := if 0 <=? - j then ((0, 0) : float)
               else (s * 2 ^ j - intpart * 2 ^ (- - j), - j)).
  assert (Hfrac : fst frac = 0).
  { unfold frac. destruct (0 <=? - j); [done|]. cbn [fst].
    rewrite Hip, Z.opp_involutive. lia. }
  rewrite Hfrac, Hip. change (float_of_quotient (0 * US_PER_SECOND) (2 ^ (- snd frac)))
    with ((0, 0) : float).
  cbv beta iota. change (0 <=? 0) with true. cbv iota. change (0 * 2 ^ 0) with 0.
  change (US_PER_SECOND <=? 0) with false. change (0 <? 0) with false. cbv iota. lia.
Qed.

(** The float of a whole number of seconds is that number, on which
    [fromtimestamp] reads the seconds themselves and no microsecond. *)
Lemma float_whole_seconds (s : Z) :
  - 2 ^ 53 < s < 2 ^ 53 ->
  microseconds_of_float (float_of_quotient (s * US_PER_SECOND) US_PER_SECOND)
  = s * US_PER_SECOND.
Proof.
  intros Hs. destruct (Z.eq_dec s 0) as [->|Hne]; [reflexivity|].
  unfold float_of_quotient.
  destruct (Z.eqb_spec (s * US_PER_SECOND) 0) as [H0|_]; [unfold US_PER_SECOND in H0; lia|].
  cbv zeta.
  set (a := Z.abs (s * US_PER_SECOND)).
  assert (Ha : a = Z.abs s * US_PER_SECOND) by (unfold a, US_PER_SECOND; lia).
  set (e0 := Z.log2 a - Z.log2 US_PER_SECOND).
  set (reaches := if 0 <=? e0 then US_PER_SECOND * 2 ^ e0 <=? a
                  else US_PER_SECOND <=? a * 2 ^ (- e0)).
  set (e := if reaches then e0 else e0 - 1).
  assert (He : e <= 52).
  { assert (He0 : e0 <= 53).
    { assert (Z.log2 a < 73); [|unfold e0; change (Z.log2 US_PER_SECOND) with 19; lia].
      apply Z.log2_lt_pow2; [unfold US_PER_SECOND in Ha; lia|].
      rewrite Ha. unfold US_PER_SECOND. change (2 ^ 73) with (2 ^ 53 * 2 ^ 20).
      change (2 ^ 20) with 1048576. change (2 ^ 53) with 9007199254740992 in *. lia. }
    unfold e. destruct reaches eqn:Er; [|lia].
    destruct (Z.le_gt_cases e0 52) as [|Hbig]; [done|]. exfalso.
    assert (e0 = 53) as E53 by lia.
    unfold reaches in Er. rewrite E53 in Er. change (0 <=? 53) with true in Er. cbv iota in Er.
    apply Z.leb_le in Er. rewrite Ha in Er. unfold US_PER_SECOND in Er.
    change (2 ^ 53) with 9007199254740992 in *. lia. }
  set (k := e - 52). assert (Hk : k <= 0) by (unfold k; lia).
  assert (Hm : (if 0 <=? k then round_half_even a (US_PER_SECOND * 2 ^ k)
                else round_half_even (a * 2 ^ (- k)) US_PER_SECOND) = Z.abs s * 2 ^ (- k)).
  { destruct (Z.leb_spec 0 k) as [Hk0|Hk0].
    - assert (k = 0) as -> by lia. change (2 ^ 0) with 1. change (2 ^ (- 0)) with 1.
      rewrite Ha, !Z.mul_1_r. apply round_half_even_exact. done.
    - rewrite Ha. replace (Z.abs s * US_PER_SECOND * 2 ^ (- k))
        with (Z.abs s * 2 ^ (- k) * US_PER_SECOND) by lia.
      apply round_half_even_exact. done. }
  rewrite Hm. clear Hm.
  assert (Hsgn : Z.sgn (s * US_PER_SECOND) * (Z.abs s * 2 ^ (- k)) = s * 2 ^ (- k)).
  { unfold US_PER_SECOND. destruct s; cbn [Z.sgn Z.abs Z.mul]; lia. }
  rewrite Hsgn. clear Hsgn.
  replace k with (- - k) at 2 by lia. apply microseconds_of_whole. lia.
Qed.

(** X17: in a zone of fixed offset the statements before the loop, given a
    valid start on a whole second, truncate it to the minute and reset its
    fold: the cursor begins at the start with second 0, microsecond 0 and
    fold 0, also as the datetime the instants of the values are compared
    with, and with no jump pending. On a whole second the float of the
    timestamp is exact, so the round trip through it loses nothing. The
    only failure is [ValueError], when the UTC time of the start lies
    outside the calendar. *)
Theorem X17_begin_fixed_offset (offset : Z) (d : datetime) :
  valid d -> microsecond d = 0 -> - 86400 < offset < 86400 ->
  iter_begin (fixed_tz offset) d =
    let o := (civil_us d - offset * US_PER_SECOND) / US_PER_DAY in
    if (0 <? o) && (o <=? MAXORDINAL)
    then Ok (mk_cursor (to_the_minute d) (to_the_minute d) None)
    else Raise ValueError.
Proof.
  intros Hv Hus Hoff. unfold iter_begin, fromtimestamp_float, timestamp_float.
  destruct (civil_us_ordinal d Hv) as [Hdiv Hord].
  pose proof (time_us_bounds d Hv) as Ht.
  assert (Hts : timestamp (fixed_tz offset) d
                = ((ymd2ord (year d) (month d) (day d) - 719163) * 86400
                   + hour d * 3600 + minute d * 60 + second d - offset) * US_PER_SECOND).
  { unfold timestamp, civil_us, EPOCH_US, US_PER_DAY. cbn [fixed_tz utcoffset].
    rewrite Hus. lia. }
  rewrite Hts, float_whole_seconds.
  2:{ apply valid_fields in Hv. unfold MAXORDINAL in Hord.
      change (2 ^ 53) with 9007199254740992. lia. }
  rewrite <- Hts. clear Hts.
  unfold fromtimestamp, timestamp. cbv zeta. cbn [fixed_tz utcoffset fromutc].
  replace (civil_us d - offset * US_PER_SECOND - EPOCH_US + EPOCH_US)
    with (civil_us d - offset * US_PER_SECOND) by lia.
  set (u := civil_us d - offset * US_PER_SECOND).
  destruct ((0 <? u / US_PER_DAY) && (u / US_PER_DAY <=? MAXORDINAL)) eqn:Er; [|done].
  assert (Ho : 1 <= u / US_PER_DAY <= MAXORDINAL) by lia.
  destruct (civil_us_of_civil_us u Ho) as [_ Hu].
  unfold add. rewrite Hu.
  replace (u + offset * US_PER_SECOND) with (civil_us d) by (unfold u; lia).
  rewrite Hdiv.
  replace ((0 <? ymd2ord (year d) (month d) (day d))
           && (ymd2ord (year d) (month d) (day d) <=? MAXORDINAL)) with true by lia.
  rewrite (of_civil_us_civil_us d Hv), result_bind_Ok.
  cbn [year month day hour minute fold].
  rewrite make_valid; [done|].
  apply valid_fields in Hv. apply valid_fields.
  cbn [year month day hour minute second microsecond fold]. split_and!; try lia; apply Hv.
Qed.

Lemma X17_begin_fixed_offset_witness :
  iter_begin (fixed_tz 3600) (mk_datetime 2600 1 2 0 0 59 0 1) =
    let o := (civil_us (mk_datetime 2600 1 2 0 0 59 0 1) - 3600 * US_PER_SECOND) / US_PER_DAY in
    if (0 <? o) && (o <=? MAXORDINAL)
    then Ok (mk_cursor (to_the_minute (mk_datetime 2600 1 2 0 0 59 0 1))
                       (to_the_minute (mk_datetime 2600 1 2 0 0 59 0 1)) None)
    else Raise ValueError.
Proof.
  apply (X17_begin_fixed_offset 3600 (mk_datetime 2600 1 2 0 0 59 0 1)).
  - reflexivity.
  - reflexivity.
  - lia.
Defined.

(** ** The names of months and of days of the week *)

(** X20: a name stands for a value within the bound of its field. When an
    item is not a number, only the month and the day-of-week field give it
    a value, and then the item is one of their three-letter lower-case
    names and the value lies within the bound of the field; in a field
    without names the item has no value. *)
Theorem X20_names_within_bounds (f : _CronField) (item : string) (v : Z) :
  f ∈ FIELD_PROPS -> Py.int item = None ->
  _number_from_item item (text_map f) = Some v ->
  fst (bound f) <= v <= snd (bound f)
  /\ Py.len item = 3
  /\ (name f = "month" \/ name f = "day-of-week").
Proof.
  unfold FIELD_PROPS, _number_from_item. rewrite !elem_of_cons, elem_of_nil.
  intros [->|[->|[->|[->|[->|[]]]]]] ->; cbn [text_map bound fst snd name];
    try (intros H; discriminate H).
  - destruct (decide _); [intros H; discriminate H|].
    intros H%elem_of_list_to_map_2. rewrite !elem_of_cons, elem_of_nil in H.
    destruct H as [H|[H|[H|[H|[H|[H|[H|[H|[H|[H|[H|[H|[]]]]]]]]]]]]];
      injection H as -> ->; (split; [lia|]); split; try reflexivity; by left.
  - destruct (decide _); [intros H; discriminate H|].
    intros H%elem_of_list_to_map_2. rewrite !elem_of_cons, elem_of_nil in H.
    destruct H as [H|[H|[H|[H|[H|[H|[H|[]]]]]]]];
      injection H as -> ->; (split; [lia|]); split; try reflexivity; by right.
Qed.

Lemma X20_names_within_bounds_witness :
  fst (bound (mk_CronField "day-of-week" (0, 7)
                (Some (list_to_map
                   [("sun", 0); ("mon", 1); ("tue", 2); ("wed", 3); ("thu", 4); ("fri", 5);
                    ("sat", 6)])))) <= 6
  <= snd (bound (mk_CronField "day-of-week" (0, 7)
                   (Some (list_to_map
                      [("sun", 0); ("mon", 1); ("tue", 2); ("wed", 3); ("thu", 4); ("fri", 5);
                       ("sat", 6)]))))
  /\ Py.len "sat" = 3
  /\ (name (mk_CronField "day-of-week" (0, 7)
              (Some (list_to_map
                 [("sun", 0); ("mon", 1); ("tue", 2); ("wed", 3); ("thu", 4); ("fri", 5);
                  ("sat", 6)]))) = "month"
      \/ name (mk_CronField "day-of-week" (0, 7)
                 (Some (list_to_map
                    [("sun", 0); ("mon", 1); ("tue", 2); ("wed", 3); ("thu", 4); ("fri", 5);
                     ("sat", 6)]))) = "day-of-week").
Proof.
  apply (X20_names_within_bounds _ "sat" 6).
  - unfold FIELD_PROPS. rewrite !elem_of_cons. tauto.
  - vm_compute. reflexivity.
  - vm_compute. reflexivity.
Defined.

(** ** Sums within the calendar *)

Lemma add_valid (d d' : datetime) (delta : Z) : add d delta = Ok d' -> valid d'.
Proof.
  unfold add. cbv zeta.
  destruct ((0 <? (civil_us d + delta) / US_PER_DAY)
            && ((civil_us d + delta) / US_PER_DAY <=? MAXORDINAL)) eqn:Er;
    [|intros H; discriminate H].
  intros [= <-]. apply civil_us_of_civil_us. lia.
Qed.

(** ** Civil arithmetic *)
Lemma valid_in_calendar (d : datetime) : valid d -> in_calendar (civil_us d).
Proof.
  intros Hv. destruct (civil_us_ordinal d Hv) as [Hdiv Hord]. unfold in_calendar.
  rewrite <- Hdiv in Hord. clear Hdiv. revert Hord. generalize (civil_us d). intros w Hord.
  unfold US_PER_DAY, US_PER_SECOND in *. Z.div_mod_to_equations. lia.
Qed.

Lemma in_calendar_ordinal (w : Z) : in_calendar w -> 1 <= w / US_PER_DAY <= MAXORDINAL.
Proof.
  unfold in_calendar, US_PER_DAY, US_PER_SECOND. intros H. Z.div_mod_to_equations. lia.
Qed.

Lemma timestamp_offset (tz : tzinfo) (d : datetime) :
  valid d ->
  timestamp tz d = civil_us d - offset_at tz (civil_us d) (fold d) * US_PER_SECOND - EPOCH_US.
Proof.
  intros Hv. unfold timestamp, offset_at. cbv zeta. rewrite (of_civil_us_civil_us d Hv).
  cbn [year month day hour minute second microsecond]. by destruct d.
Qed.

Lemma delta_at_spec (tz : tzinfo) (d : datetime) :
  valid d -> _delta_seconds_between_fold tz d = delta_at tz (civil_us d - microsecond d).
Proof.
  intros Hv. unfold _delta_seconds_between_fold. cbv zeta.
  set (d0 := mk_datetime (year d) (month d) (day d) (hour d) (minute d) (second d) 0 0).
  set (d1 := mk_datetime (year d) (month d) (day d) (hour d) (minute d) (second d) 0 1).
  assert (Hv0 : valid d0).
  { apply valid_fields in Hv. apply valid_fields. unfold d0.
    cbn [year month day hour minute second microsecond fold]. split_and!; try lia; apply Hv. }
  assert (Hv1 : valid d1).
  { apply valid_fields in Hv. apply valid_fields. unfold d1.
    cbn [year month day hour minute second microsecond fold]. split_and!; try lia; apply Hv. }
  assert (Hw0 : civil_us d0 = civil_us d - microsecond d).
  { unfold civil_us, d0. cbn [year month day hour minute second microsecond]. lia. }
  assert (Hw1 : civil_us d1 = civil_us d - microsecond d).
  { unfold civil_us, d1. cbn [year month day hour minute second microsecond]. lia. }
  rewrite (timestamp_offset tz d0 Hv0), (timestamp_offset tz d1 Hv1), Hw0, Hw1.
  unfold delta_at. change (fold d0) with 0. change (fold d1) with 1.
  generalize (civil_us d - microsecond d). intros w.
  match goal with |- ?x / _ = _ =>
    replace x with ((offset_at tz w 1 - offset_at tz w 0) * US_PER_SECOND) by lia end.
  apply Z.div_mul. unfold US_PER_SECOND. lia.
Qed.

Lemma add_civil (d d' : datetime) (x : Z) :
  add d x = Ok d' ->
  valid d' /\ civil_us d' = civil_us d + x /\ fold d' = 0
  /\ microsecond d' = (civil_us d + x) mod US_PER_SECOND.
Proof.
  unfold add. cbv zeta.
  destruct ((0 <? (civil_us d + x) / US_PER_DAY)
            && ((civil_us d + x) / US_PER_DAY <=? MAXORDINAL)) eqn:Er;
    [|intros H; discriminate H].
  intros [= <-]. destruct (civil_us_of_civil_us (civil_us d + x)) as [Hv Hw]; [lia|].
  split; [done|]. split; [done|]. unfold of_civil_us.
  destruct (ord2ymd _) as [[y mo] da]. cbn [fold microsecond]. split; [done|].
  unfold US_PER_DAY, US_PER_SECOND. generalize (civil_us d + x). intros w.
  Z.div_mod_to_equations. lia.
Qed.

Lemma top_of_hour_civil (d : datetime) :
  valid d ->
  top_of_hour (civil_us d)
  = civil_us d - (minute d * 60 + second d) * US_PER_SECOND - microsecond d.
Proof.
  intros Hv. apply valid_fields in Hv as (_ & _ & _ & Hh & Hmi & Hs & Hus & _).
  unfold top_of_hour, civil_us, HOUR_US, US_PER_DAY, US_PER_SECOND.
  generalize (ymd2ord (year d) (month d) (day d)). intros o.
  assert (Hmod : (o * (86400 * 1000000) + (hour d * 3600 + minute d * 60 + second d) * 1000000
                  + microsecond d) mod (3600 * 1000000)
                 = (minute d * 60 + second d) * 1000000 + microsecond d).
  { symmetry. apply (Z.mod_unique_pos _ _ (o * 24 + hour d)); lia. }
  rewrite Hmod. lia.
Qed.

Lemma on_the_hour_civil (d h : datetime) :
  valid d -> on_the_hour d = Ok h ->
  valid h /\ civil_us h = top_of_hour (civil_us d).
Proof.
  intros Hv Hh. unfold on_the_hour in Hh. apply make_Ok in Hh as [-> Hvh].
  split; [done|]. rewrite (top_of_hour_civil d Hv). unfold civil_us.
  cbn [year month day hour minute second microsecond]. lia.
Qed.

Lemma with_fold_civil (d g : datetime) (f : Z) :
  with_fold d f = Ok g ->
  valid g /\ civil_us g = civil_us d /\ fold g = f /\ microsecond g = microsecond d.
Proof.
  unfold with_fold. intros H. apply make_Ok in H as [-> Hv]. done.
Qed.

Lemma top_of_hour_bounds (w : Z) : top_of_hour w <= w < top_of_hour w + HOUR_US.
Proof.
  unfold top_of_hour, HOUR_US, US_PER_SECOND.
  pose proof (Z.mod_pos_bound w (3600 * 1000000) ltac:(lia)). lia.
Qed.

Lemma top_of_hour_seconds (w : Z) : top_of_hour w mod US_PER_SECOND = 0.
Proof.
  unfold top_of_hour, HOUR_US, US_PER_SECOND. Z.div_mod_to_equations. lia.
Qed.

(** ** The iterator in a zone whose clock changes are aligned to the hour *)
Section Aligned.

Variable tz : tzinfo.

Variable e : _CronEntry.

Variable max_years : Z.

Hypothesis Hzone : hour_aligned tz.

Hypothesis He : schedule_ok e.

Lemma search_after (s r : datetime) :
  valid s -> _next_wallclock_datetime s e max_years = Ok (Some r) ->
  valid r /\ civil_us s < civil_us r /\ microsecond r = 0 /\ fold r = 0.
Proof.
  intros Hs Hr.
  destruct (next_wallclock_Ok e s max_years (Some r) He Hs Hr) as (Hv & Hlt & _).
  destruct (next_wallclock_shape s e max_years r Hr) as (_ & _ & Hus & Hf).
  split; [done|]. split; [by apply civil_us_lt|done].
Qed.

Lemma ahead_later (s s' m : datetime) :
  civil_us s <= civil_us s' -> ahead tz s m -> ahead tz s' m.
Proof. intros Hle Ha w Hw Hlt Hd. apply Ha; [done|lia|done]. Qed.

(** The instant of a valid datetime that is not missing is at most its
    instant at fold 1. *)
Lemma instant_le_fold_1 (v : datetime) :
  valid v -> microsecond v = 0 -> _delta_seconds_between_fold tz v <= 0 ->
  timestamp tz v + EPOCH_US <= instant_at_fold_1 tz (civil_us v).
Proof.
  intros Hv Hus Hd. rewrite (delta_at_spec tz v Hv), Hus, Z.sub_0_r in Hd.
  rewrite (timestamp_offset tz v Hv). unfold instant_at_fold_1, delta_at in *.
  apply valid_fields in Hv as (_ & _ & _ & _ & _ & _ & _ & [Hf|Hf]); rewrite Hf;
    unfold US_PER_SECOND; lia.
Qed.

Lemma ahead_self (v : datetime) :
  valid v -> microsecond v = 0 -> _delta_seconds_between_fold tz v <= 0 -> ahead tz v v.
Proof.
  intros Hv Hus Hd w Hw Hlt Hdw. pose proof (instant_le_fold_1 v Hv Hus Hd).
  pose proof (later_at_fold_1 tz Hzone (civil_us v) w (valid_in_calendar v Hv) Hw Hlt Hdw). lia.
Qed.

(** The first statements of the body keep what the invariant says of the
    start and of the pending jump. *)
Lemma ambiguous_start_inv (c : cursor) (s : datetime) (g : option datetime) :
  cursor_inv tz c -> ambiguous_start tz e c = Ok (s, g) ->
  valid s /\ ahead tz s (monotonic_datetime c) /\ goto_ok tz (monotonic_datetime c) g.
Proof.
  intros (Hv & Hus & Ha & Htype & Hg). unfold ambiguous_start. cbv zeta.
  destruct (Z.ltb_spec (_delta_seconds_between_fold tz (start c)) 0) as [Hamb|_].
  2:{ intros [= <- <-]. done. }
  destruct Htype as [Hsm|Hnot]; [|lia].
  destruct (is_wildcard e).
  - (* a wildcard job: the start stays, a jump back may be prepared *)
    cbn [negb andb]. rewrite result_bind_Ok.
    destruct (Z.leb_spec (fold (start c)) 0) as [Hf|_]; cbn [andb].
    2:{ rewrite result_bind_Ok. intros [= <- <-]. done. }
    destruct (goto_datetime c) as [G0|] eqn:EG.
    { rewrite result_bind_Ok. intros [= <- <-]. done. }
    destruct (on_the_hour (start c)) as [h|] eqn:Eh; [|intros H; discriminate H].
    rewrite result_bind_Ok.
    destruct (add h _) as [a|] eqn:Ea; [|intros H; discriminate H].
    rewrite result_bind_Ok.
    destruct (with_fold a 1) as [G|] eqn:EGf; [|intros H; discriminate H].
    rewrite !result_bind_Ok. intros [= <- <-]. split; [done|]. split; [done|].
    destruct (on_the_hour_civil _ _ Hv Eh) as [Hvh Hwh].
    destruct (add_civil _ _ _ Ea) as (Hva & Hwa & _ & Husa).
    destruct (with_fold_civil _ _ _ EGf) as (HvG & HwG & HfG & HusG).
    assert (Hus' : microsecond (start c) = 0) by (by rewrite Hsm).
    assert (Hd : _delta_seconds_between_fold tz (start c) = delta_at tz (civil_us (start c))).
    { by rewrite (delta_at_spec tz _ Hv), Hus', Z.sub_0_r. }
    set (w := civil_us (start c)) in *. set (dl := delta_at tz w) in *.
    assert (HwGeq : civil_us G = top_of_hour w + HOUR_US + dl * US_PER_SECOND).
    { rewrite HwG, Hwa, Hwh, Hd. unfold HOUR_US, US_PER_SECOND. lia. }
    destruct (overlap_start tz Hzone w) as [Hoff Hbefore].
    { by apply valid_in_calendar. }
    { unfold dl in *. lia. }
    { fold dl. rewrite <- HwGeq. by apply valid_in_calendar. }
    fold dl in Hoff, Hbefore. rewrite <- HwGeq in Hoff, Hbefore.
    cbn [goto_ok]. split; [done|]. split; [done|]. split.
    + rewrite <- Hsm, (timestamp_offset tz G HvG), (timestamp_offset tz _ Hv), HfG, Hoff.
      assert (Hf0 : fold (start c) = 0).
      { apply valid_fields in Hv as (_ & _ & _ & _ & _ & _ & _ & [Hf0|Hf1]); lia. }
      rewrite Hf0. fold w. rewrite HwGeq.
      pose proof (top_of_hour_bounds w). unfold dl, delta_at in *.
      unfold US_PER_SECOND in *. lia.
    + intros p Hp. destruct (add_civil _ _ _ Hp) as (Hvp & Hwp & _ & Husp).
      rewrite (delta_at_spec tz p Hvp), Hwp, Husp.
      replace (civil_us G + -1 - (civil_us G + -1) mod US_PER_SECOND)
        with (civil_us G - US_PER_SECOND); [done|].
      assert (HGs : civil_us G mod US_PER_SECOND = 0).
      { rewrite HwGeq. pose proof (top_of_hour_seconds w).
        unfold HOUR_US, US_PER_SECOND in *. Z.div_mod_to_equations. lia. }
      revert HGs. generalize (civil_us G). intros x. unfold US_PER_SECOND.
      intros. Z.div_mod_to_equations. lia.
  - (* a job at fixed times: no jump back, the start may move to the end
       of the hour *)
    cbn [negb andb].
    assert (Hgoto : forall s', (g' ← Ok (goto_datetime c); Ok (s', g'))
                               = (Ok (s', goto_datetime c) : result (datetime * option datetime)))
      by reflexivity.
    destruct (Z.ltb_spec 0 (fold (start c))) as [Hf|_].
    + destruct (on_the_hour (start c)) as [h|] eqn:Eh; [|intros H; discriminate H].
      rewrite result_bind_Ok.
      destruct (add h _) as [s'|] eqn:Ea; [|intros H; discriminate H].
      rewrite result_bind_Ok, result_bind_Ok. intros [= <- <-].
      destruct (on_the_hour_civil _ _ Hv Eh) as [Hvh Hwh].
      destruct (add_civil _ _ _ Ea) as (Hvs & Hws & _).
      split; [done|]. split; [|done].
      apply (ahead_later (start c)); [|done].
      rewrite Hws, Hwh. pose proof (top_of_hour_bounds (civil_us (start c))).
      unfold HOUR_US, US_PER_SECOND in *. lia.
    + rewrite !result_bind_Ok. intros [= <- <-]. done.
Qed.

Lemma minus_microsecond (x : Z) :
  x mod US_PER_SECOND = 0 -> x + -1 - (x + -1) mod US_PER_SECOND = x - US_PER_SECOND.
Proof. unfold US_PER_SECOND. intros H. Z.div_mod_to_equations. lia. Qed.

(** The end of a pass: the jump back when it is due, the value otherwise. *)
Lemma finish_inv (c : cursor) (g : option datetime) (v : datetime) (p : pass) :
  cursor_inv tz c -> goto_ok tz (monotonic_datetime c) g ->
  valid v -> microsecond v = 0 -> _delta_seconds_between_fold tz v <= 0 ->
  timestamp tz (monotonic_datetime c) < timestamp tz v ->
  match g with
  | Some G =>
      if timestamp tz G <=? timestamp tz v
      then s ← add G (-1); Ok (Continue (mk_cursor s (monotonic_datetime c) None))
      else Ok (Yield v (mk_cursor v v g))
  | None => Ok (Yield v (mk_cursor v v g))
  end = Ok p ->
  pass_post tz c p.
Proof.
  intros (_ & Hus & _) Hg Hv Husv Hdv Hlt.
  assert (Hself : ahead tz v v) by (by apply ahead_self).
  destruct g as [G|].
  - destruct Hg as (HvG & HfG & HltG & Hbefore).
    destruct (Z.leb_spec (timestamp tz G) (timestamp tz v)) as [Hdue|Hnot].
    + destruct (add G (-1)) as [s|] eqn:Es; [|intros H; discriminate H].
      rewrite result_bind_Ok. intros [= <-]. cbn [pass_post monotonic_datetime].
      split; [done|]. destruct (add_civil _ _ _ Es) as (Hvs & Hws & _).
      unfold cursor_inv. cbn [start monotonic_datetime goto_datetime goto_ok].
      split_and!; try done.
      * intros w Hw Hafter Hd.
        rewrite (timestamp_offset tz G HvG), HfG in HltG.
        change (civil_us G - offset_at tz (civil_us G) 1 * US_PER_SECOND)
          with (instant_at_fold_1 tz (civil_us G)) in HltG.
        destruct (Z.eq_dec w (civil_us G)) as [->|Hne]; [lia|].
        pose proof (later_at_fold_1 tz Hzone (civil_us G) w (valid_in_calendar G HvG) Hw
                      ltac:(lia) Hd). lia.
      * right. by apply Hbefore.
    + intros [= <-]. cbn [pass_post monotonic_datetime]. split; [done|]. split; [done|].
      unfold cursor_inv. cbn [start monotonic_datetime goto_datetime goto_ok].
      split_and!; try done; first [by left|lia].
  - intros [= <-]. cbn [pass_post monotonic_datetime]. split; [done|]. split; [done|].
    unfold cursor_inv. cbn [start monotonic_datetime goto_datetime goto_ok].
    split_and!; try done; by left.
Qed.

(** One pass of the loop body. *)
Lemma iter_body_inv (c : cursor) (p : pass) :
  cursor_inv tz c -> iter_body tz e max_years c = Ok p -> pass_post tz c p.
Proof.
  intros Hinv. unfold iter_body. cbv zeta.
  destruct (ambiguous_start tz e c) as [[s g]|] eqn:Ea; [|intros H; discriminate H].
  destruct (ambiguous_start_inv c s g Hinv Ea) as (Hvs & Has & Hg).
  rewrite result_bind_Ok. cbv beta iota.
  destruct (_next_wallclock_datetime s e max_years) as [[r|]|] eqn:Er;
    [| |intros H; discriminate H].
  2:{ rewrite result_bind_Ok. intros [= <-]. done. }
  rewrite result_bind_Ok.
  destruct (search_after s r Hvs Er) as (Hvr & Hsr & Husr & Hfr).
  set (m := monotonic_datetime c) in *.
  destruct (if timestamp tz r <=? timestamp tz m then with_fold r 1 else Ok r)
    as [r1|] eqn:Er1; [|intros H; discriminate H].
  rewrite result_bind_Ok.
  assert (Hr1 : valid r1 /\ civil_us r1 = civil_us r /\ microsecond r1 = 0
                /\ (delta_at tz (civil_us r) <= 0 -> timestamp tz m < timestamp tz r1)).
  { destruct (Z.leb_spec (timestamp tz r) (timestamp tz m)) as [Hforce|Hfree].
    - destruct (with_fold_civil _ _ _ Er1) as (Hv1 & Hw1 & Hf1 & Hus1).
      split; [done|]. split; [done|]. split; [lia|]. intros Hd.
      rewrite (timestamp_offset tz r1 Hv1), Hw1, Hf1.
      pose proof (Has (civil_us r) (valid_in_calendar r Hvr) Hsr Hd) as Hahead.
      unfold instant_at_fold_1 in Hahead. lia.
    - injection Er1 as <-. split; [done|]. split; [done|]. split; [done|]. lia. }
  destruct Hr1 as (Hv1 & Hw1 & Hus1 & Hlater).
  assert (Hd1 : _delta_seconds_between_fold tz r1 = delta_at tz (civil_us r)).
  { by rewrite (delta_at_spec tz r1 Hv1), Hus1, Z.sub_0_r, Hw1. }
  destruct (Z.ltb_spec 0 (_delta_seconds_between_fold tz r1)) as [Hgap|Hno].
  2:{ apply (finish_inv c g r1 p Hinv Hg Hv1 Hus1 Hno). apply Hlater. lia. }
  (* the result is in missing time *)
  destruct (on_the_hour r1) as [h|] eqn:Eh; [|intros H; discriminate H].
  rewrite result_bind_Ok.
  destruct (add h _) as [v|] eqn:Ev; [|intros H; discriminate H].
  rewrite result_bind_Ok.
  destruct (on_the_hour_civil _ _ Hv1 Eh) as [Hvh Hwh].
  destruct (add_civil _ _ _ Ev) as (Hvv & Hwv & Hfv & Husv).
  rewrite Hwh, Hw1, Hd1 in Hwv, Husv.
  set (w := civil_us r) in *. set (dl := delta_at tz w) in *.
  assert (Husv0 : microsecond v = 0).
  { rewrite Husv. pose proof (top_of_hour_seconds w).
    unfold US_PER_SECOND in *. Z.div_mod_to_equations. lia. }
  destruct (gap_snap tz Hzone w) as (Hpast & Hnormal & Hbefore).
  { by apply valid_in_calendar. }
  { unfold dl in *. lia. }
  { fold dl. rewrite <- Hwv. by apply valid_in_calendar. }
  fold dl in Hpast, Hnormal, Hbefore. rewrite <- Hwv in Hpast, Hnormal, Hbefore.
  assert (Hdv : _delta_seconds_between_fold tz v = 0).
  { by rewrite (delta_at_spec tz v Hvv), Husv0, Z.sub_0_r. }
  destruct (is_wildcard e).
  - (* a wildcard job goes round again from just before the end of the gap *)
    destruct (add v (-1)) as [s2|] eqn:Es2; [|intros H; discriminate H].
    rewrite result_bind_Ok. intros [= <-]. cbn [pass_post monotonic_datetime].
    split; [done|]. destruct (add_civil _ _ _ Es2) as (Hv2 & Hw2 & _ & Hus2).
    destruct Hinv as (_ & Husm & _).
    unfold cursor_inv. cbn [start monotonic_datetime goto_datetime].
    split_and!; try done.
    + intros x Hx Hafter Hd. apply Has; [done|lia|done].
    + right. rewrite (delta_at_spec tz s2 Hv2), Hw2, Hus2, minus_microsecond; [done|].
      rewrite Hwv, <- Husv. exact Husv0.
  - (* a job at fixed times runs at the end of the gap *)
    apply (finish_inv c g v p Hinv Hg Hvv Husv0); [lia|].
    rewrite (timestamp_offset tz v Hvv), Hfv.
    pose proof (Has (civil_us v) (valid_in_calendar v Hvv) ltac:(lia) ltac:(lia)) as Hahead.
    unfold instant_at_fold_1 in Hahead. unfold delta_at in Hnormal.
    unfold US_PER_SECOND in *. fold m. lia.
Qed.

Lemma pull_inv (fuel : nat) :
  forall (c : cursor) (v : datetime) (after : cursor),
    cursor_inv tz c -> pull tz e max_years fuel c = Ok (Next v after) ->
    timestamp tz (monotonic_datetime c) < timestamp tz v
    /\ monotonic_datetime after = v /\ cursor_inv tz after.
Proof.
  induction fuel as [|fuel IH]; intros c v after Hinv; cbn [pull]; [intros H; discriminate H|].
  pose proof (iter_body_inv c) as Hb.
  destruct (iter_body tz e max_years c) as [p|]; [|intros H; discriminate H].
  rewrite result_bind_Ok. specialize (Hb p Hinv eq_refl). destruct p as [value next|next|].
  - intros [= <- <-]. exact Hb.
  - destruct Hb as [Hm Hnext]. intros H. destruct (IH next v after Hnext H) as (Hlt & Hrest).
    rewrite Hm in Hlt. done.
  - intros H; discriminate H.
Qed.

Lemma take_increasing (fuel n : nat) :
  forall c, cursor_inv tz c ->
    increasing tz (timestamp tz (monotonic_datetime c)) (fst (take tz e max_years fuel n c)).
Proof.
  induction n as [|n IH]; intros c Hinv; [done|]. cbn [take].
  destruct (pull tz e max_years fuel c) as [[v after| |]|] eqn:Ep; try done.
  destruct (pull_inv fuel c v after Hinv Ep) as (Hlt & Hm & Hafter).
  specialize (IH after Hafter). rewrite Hm in IH.
  destruct (take tz e max_years fuel n after) as [values en]. cbn [fst increasing] in *. done.
Qed.

(** The statements before the loop establish the invariant. *)
Lemma iter_begin_inv (start0 : datetime) (c : cursor) :
  iter_begin tz start0 = Ok c -> cursor_inv tz c /\ monotonic_datetime c = start c.
Proof.
  unfold iter_begin, fromtimestamp_float, fromtimestamp. cbv zeta.
  destruct ((0 <? _) && (_ <=? MAXORDINAL)); [|intros H; discriminate H].
  destruct (fromutc tz _) as [d|] eqn:Ed; [|intros H; discriminate H].
  rewrite result_bind_Ok. destruct (make _) as [s|] eqn:Es; [|intros H; discriminate H].
  rewrite result_bind_Ok. intros [= <-]. cbn [start monotonic_datetime]. split; [|done].
  apply make_Ok in Es as [-> Hv].
  pose proof (fromutc_not_missing tz Hzone _ d Ed) as Hreal.
  set (s := mk_datetime _ _ _ _ _ 0 0 _) in *.
  assert (Hd : _delta_seconds_between_fold tz s <= 0).
  { rewrite (delta_at_spec tz s Hv). unfold s at 2. cbn [microsecond]. rewrite Z.sub_0_r.
    replace (civil_us s) with (civil_us d - second d * US_PER_SECOND - microsecond d); [done|].
    unfold civil_us, s. cbn [year month day hour minute second microsecond]. lia. }
  unfold cursor_inv. cbn [start monotonic_datetime goto_datetime goto_ok].
  split_and!; try done; first [by apply ahead_self|by left].
Qed.

End Aligned.

Lemma every_half_hour_parsed : from_expression "*/30 * * * *" = Ok every_half_hour.
Proof. vm_compute. reflexivity. Qed.

Lemma every_half_hour_ok : schedule_ok every_half_hour.
Proof. apply (from_expression_schedule_ok _ _ every_half_hour_parsed). Qed.

(** ** Zones whose clock changes are aligned to the hour *)

(** A zone with a fixed offset has no clock change at all. *)
Lemma fixed_offset_hour_aligned (tz : tzinfo) :
  (forall d d', utcoffset tz d = utcoffset tz d') -> hour_aligned tz.
Proof.
  intros Hfixed.
  assert (Hoff : forall w f w' f', offset_at tz w f = offset_at tz w' f').
  { intros. unfold offset_at. apply Hfixed. }
  assert (Hd : forall w, delta_at tz w = 0).
  { intros w. unfold delta_at. rewrite (Hoff w 1 w 0). lia. }
  split.
  - intros w1 w2 _ _ Hlt _. unfold instant_at_fold_1. rewrite (Hoff w1 1 w2 1). lia.
  - intros w _ Hgap. rewrite Hd in Hgap. lia.
  - intros w _ Hamb. rewrite Hd in Hamb. lia.
  - intros u d _. rewrite Hd. lia.
Qed.

(** The local time of a datetime, to the minute, is a multiple of a minute. *)
Lemma minute_floor (d : datetime) :
  valid d ->
  exists k, civil_us d - second d * US_PER_SECOND - microsecond d = k * (60 * US_PER_SECOND)
            /\ 0 <= second d * US_PER_SECOND + microsecond d < 60 * US_PER_SECOND
            /\ in_calendar (k * (60 * US_PER_SECOND)).
Proof.
  intros Hv. exists (ymd2ord (year d) (month d) (day d) * 1440 + hour d * 60 + minute d).
  assert (Hw : civil_us d - second d * US_PER_SECOND - microsecond d
               = (ymd2ord (year d) (month d) (day d) * 1440 + hour d * 60 + minute d)
                 * (60 * US_PER_SECOND)).
  { unfold civil_us, US_PER_DAY, US_PER_SECOND. lia. }
  split; [done|]. split.
  { apply valid_fields in Hv. unfold US_PER_SECOND. lia. }
  rewrite <- Hw.
  assert (Hv' : valid (mk_datetime (year d) (month d) (day d) (hour d) (minute d) 0 0 0)).
  { apply valid_fields in Hv. apply valid_fields.
    cbn [year month day hour minute second microsecond fold]. split_and!; try lia; apply Hv. }
  apply valid_in_calendar in Hv'. revert Hv'. unfold civil_us.
  cbn [year month day hour minute second microsecond]. unfold in_calendar.
  unfold US_PER_DAY, US_PER_SECOND. lia.
Qed.

Lemma top_of_hour_within (G w : Z) :
  G mod HOUR_US = 0 -> G <= w < G + HOUR_US -> top_of_hour w = G.
Proof.
  unfold top_of_hour, HOUR_US, US_PER_SECOND. intros HG Hw.
  assert (w mod (3600 * 1000000) = w - G); [|lia].
  symmetry. apply (Z.mod_unique_pos _ _ (G / (3600 * 1000000))); [lia|].
  pose proof (Z.div_mod G (3600 * 1000000) ltac:(lia)). lia.
Qed.

Section SummerTime.

Variables standard shift gap_start overlap_end : Z.

Hypothesis Hchanges : on_the_hour_changes shift gap_start overlap_end.

Let tz := summer_time standard shift gap_start overlap_end.

Lemma summer_offset_at (w f : Z) :
  in_calendar w ->
  offset_at tz w f = summer_offset standard shift gap_start overlap_end w f.
Proof.
  intros Hw. unfold offset_at, tz, summer_time. cbv zeta. cbn [utcoffset]. cbv beta.
  cbn [fold].
  destruct (civil_us_of_civil_us w (in_calendar_ordinal w Hw)) as [_ Hc].
  f_equal. transitivity (civil_us (of_civil_us w)); [|exact Hc]. unfold civil_us.
  by cbn [year month day hour minute second microsecond].
Qed.

(** The fold delta of the zone: the shift in the missing time, its
    opposite in the repeated time, zero elsewhere. *)
Lemma summer_delta (w : Z) :
  in_calendar w ->
  delta_at tz w
  = if (gap_start <=? w) && (w <? gap_start + shift * US_PER_SECOND) then shift
    else if (overlap_end - shift * US_PER_SECOND <=? w) && (w <? overlap_end) then - shift
    else 0.
Proof.
  intros Hw. unfold delta_at. rewrite !(summer_offset_at w _ Hw). unfold summer_offset.
  destruct Hchanges as (Hshift & _ & _ & _ & _ & Hsummer). unfold US_PER_SECOND in *.
  change (1 =? 0) with false. change (0 =? 0) with true. cbv iota.
  repeat match goal with
         | |- context [?a <? ?b] => destruct (Z.ltb_spec a b)
         end;
  repeat match goal with
         | |- context [?a <=? ?b] => destruct (Z.leb_spec a b)
         end; cbn [andb]; lia.
Qed.

Lemma summer_time_aligned : hour_aligned tz.
Proof.
  pose proof Hchanges as (Hshift & Hmin & HG & HE & Hfirst & Hsummer).
  assert (Hdelta_cases : forall w, in_calendar w ->
    (gap_start <= w < gap_start + shift * US_PER_SECOND /\ delta_at tz w = shift)
    \/ (overlap_end - shift * US_PER_SECOND <= w < overlap_end /\ delta_at tz w = - shift)
    \/ ((w < gap_start \/ gap_start + shift * US_PER_SECOND <= w)
        /\ (w < overlap_end - shift * US_PER_SECOND \/ overlap_end <= w)
        /\ delta_at tz w = 0)).
  { intros w Hw. rewrite (summer_delta w Hw). unfold US_PER_SECOND in *.
    destruct (Z.leb_spec gap_start w), (Z.ltb_spec w (gap_start + shift * 1000000));
      cbn [andb]; try (left; lia);
      destruct (Z.leb_spec (overlap_end - shift * 1000000) w), (Z.ltb_spec w overlap_end);
      cbn [andb]; try (right; left; lia); right; right; lia. }
  assert (Hoff1 : forall w, in_calendar w ->
    offset_at tz w 1 = if (gap_start <=? w) && (w <? overlap_end - shift * US_PER_SECOND)
                       then standard + shift else standard).
  { intros w Hw. rewrite (summer_offset_at w 1 Hw). unfold summer_offset.
    unfold US_PER_SECOND in *. change (1 =? 0) with false. cbv iota.
    repeat match goal with
           | |- context [?a <? ?b] => destruct (Z.ltb_spec a b)
           end;
    repeat match goal with
           | |- context [?a <=? ?b] => destruct (Z.leb_spec a b)
           end; cbn [andb]; lia. }
  split.
  - (* fold 1 *)
    intros w1 w2 H1 H2 Hlt Hd. unfold instant_at_fold_1. rewrite (Hoff1 w1 H1), (Hoff1 w2 H2).
    destruct (Hdelta_cases w2 H2) as [[Hin Heq]|[[Hin Heq]|(Hout1 & Hout2 & Heq)]];
      [lia| |]; unfold US_PER_SECOND in *;
      repeat match goal with
             | |- context [?a <? ?b] => destruct (Z.ltb_spec a b)
             end;
      repeat match goal with
             | |- context [?a <=? ?b] => destruct (Z.leb_spec a b)
             end; cbn [andb]; lia.
  - (* missing time *)
    intros w Hw Hgap He.
    destruct (Hdelta_cases w Hw) as [[Hin Heq]|[[Hin Heq]|(Hout1 & Hout2 & Heq)]]; [|lia|lia].
    rewrite Heq in He |- *.
    assert (Htop : top_of_hour w = gap_start).
    { apply top_of_hour_within; [done|]. unfold HOUR_US, US_PER_SECOND in *. lia. }
    rewrite Htop in He |- *. split; [lia|].
    assert (Hbefore : in_calendar (gap_start + shift * US_PER_SECOND - US_PER_SECOND)).
    { unfold in_calendar, HOUR_US, US_PER_SECOND in *. lia. }
    destruct (Hdelta_cases _ He) as [[Hin' Heq']|[[Hin' Heq']|(_ & _ & Heq')]];
      [unfold US_PER_SECOND in *; lia|unfold US_PER_SECOND in *; lia|].
    split; [done|].
    destruct (Hdelta_cases _ Hbefore) as [[_ Heq'']|[[Hin'' _]|(_ & _ & Heq'')]];
      unfold US_PER_SECOND in *; lia.
  - (* repeated time *)
    intros w Hw Hamb Hg.
    destruct (Hdelta_cases w Hw) as [[Hin Heq]|[[Hin Heq]|(Hout1 & Hout2 & Heq)]]; [lia| |lia].
    rewrite Heq in Hg |- *.
    assert (Htop : top_of_hour w = overlap_end - HOUR_US).
    { apply top_of_hour_within.
      - unfold HOUR_US, US_PER_SECOND in *. Z.div_mod_to_equations. lia.
      - unfold HOUR_US, US_PER_SECOND in *. lia. }
    rewrite Htop in Hg |- *.
    replace (overlap_end - HOUR_US + HOUR_US + - shift * US_PER_SECOND)
      with (overlap_end - shift * US_PER_SECOND) in * by lia.
    assert (Hbefore : in_calendar (overlap_end - shift * US_PER_SECOND - US_PER_SECOND)).
    { unfold in_calendar, HOUR_US, US_PER_SECOND in *. lia. }
    split.
    + rewrite (Hoff1 _ Hg), (Hoff1 _ Hw). unfold US_PER_SECOND in *.
      repeat match goal with
             | |- context [?a <? ?b] => destruct (Z.ltb_spec a b)
             end;
      repeat match goal with
             | |- context [?a <=? ?b] => destruct (Z.leb_spec a b)
             end; cbn [andb]; lia.
    + destruct (Hdelta_cases _ Hbefore) as [[_ Heq'']|[[Hin'' _]|(_ & _ & Heq'')]];
        unfold US_PER_SECOND in *; lia.
  - (* what [fromutc] returns *)
    intros u d Hd.
    assert (Hadd : valid d
                   /\ (civil_us d < gap_start \/ gap_start + shift * US_PER_SECOND <= civil_us d)).
    { revert Hd. unfold tz, summer_time. cbn [fromutc]. unfold US_PER_SECOND in *.
      repeat match goal with
             | |- context [?a <? ?b] => destruct (Z.ltb_spec a b)
             end.
      - intros Hd. destruct (add_civil _ _ _ Hd) as (? & ? & _). split; [done|]. lia.
      - intros Hd. destruct (add_civil _ _ _ Hd) as (? & ? & _). split; [done|]. lia.
      - destruct (add u (standard * 1000000)) as [d0|] eqn:E0; [|intros H'; discriminate H'].
        rewrite result_bind_Ok. intros Hd. destruct (add_civil _ _ _ E0) as (? & ? & _).
        destruct (with_fold_civil _ _ _ Hd) as (? & ? & _). split; [done|]. lia.
      - intros Hd. destruct (add_civil _ _ _ Hd) as (? & ? & _). split; [done|]. lia. }
    destruct Hadd as (Hv & Hout).
    destruct (minute_floor d Hv) as (k & Hk & Hrest & Hcal).
    rewrite Hk.
    destruct (Hdelta_cases _ Hcal) as [[Hin Heq]|[[Hin Heq]|(_ & _ & Heq)]]; [|lia|lia].
    exfalso. unfold HOUR_US, US_PER_SECOND in *.
    assert (HGm : gap_start mod 60000000 = 0) by (Z.div_mod_to_equations; lia).
    assert (HSm : (shift * 1000000) mod 60000000 = 0) by (Z.div_mod_to_equations; lia).
    Z.div_mod_to_equations. lia.
Qed.

End SummerTime.

Lemma new_york_2023_aligned : hour_aligned new_york_2023.
Proof.
  apply summer_time_aligned. unfold on_the_hour_changes. vm_compute.
  split_and!; try done; intros H; discriminate H.
Qed.

(** The zone of the Chatham Islands is not of this kind: its missing time
    begins at 02:45, so that from 02:50 the top of the hour plus the hour
    missing is 03:00, which is missing itself. *)
Lemma chatham_2023_not_aligned : ~ hour_aligned chatham_2023.
Proof.
  intros [_ Hgap _ _].
  specialize (Hgap (civil_us (mk_datetime 2023 9 24 2 50 0 0 0))).
  assert (Hd : delta_at chatham_2023 (civil_us (mk_datetime 2023 9 24 2 50 0 0 0)) = 3600)
    by (vm_compute; reflexivity).
  assert (He : top_of_hour (civil_us (mk_datetime 2023 9 24 2 50 0 0 0)) + 3600 * US_PER_SECOND
               = civil_us (mk_datetime 2023 9 24 3 0 0 0 0)) by (vm_compute; reflexivity).
  assert (Hd' : delta_at chatham_2023 (civil_us (mk_datetime 2023 9 24 3 0 0 0 0)) = 3600)
    by (vm_compute; reflexivity).
  rewrite Hd, He, Hd' in Hgap.
  destruct Hgap as (_ & Hnormal & _).
  - apply valid_in_calendar. reflexivity.
  - lia.
  - apply valid_in_calendar. reflexivity.
  - discriminate Hnormal.
Qed.

(** C5, in a zone whose clock changes are aligned to the hour: the
    instants of the emitted values increase strictly, the first being
    after the instant of the normalised start. A zone with a fixed offset
    is such a zone, and so is one with a period of summer time whose
    changes fall on the hour, through the missing and the repeated time. *)
Theorem C5_aligned_increasing (tz : tzinfo) (e : _CronEntry) (max_years : Z)
    (fuel n : nat) (start0 : datetime) :
  hour_aligned tz ->
  schedule_ok e ->
  forall c, iter_begin tz start0 = Ok c ->
    increasing tz (timestamp tz (start c)) (fst (iter tz e max_years fuel n start0)).
Proof.
  intros Hzone He c Eb. unfold iter. rewrite Eb.
  destruct (iter_begin_inv tz Hzone start0 c Eb) as [Hinv Hm]. rewrite <- Hm.
  by apply take_increasing.
Qed.

Lemma C5_aligned_increasing_witness :
  increasing new_york_2023
    (timestamp new_york_2023 (mk_datetime 2023 11 5 0 45 0 0 0))
    (fst (iter new_york_2023 every_half_hour 50 3 8 (mk_datetime 2023 11 5 0 45 10 0 0))).
Proof.
  apply (C5_aligned_increasing new_york_2023 every_half_hour 50 3 8
           (mk_datetime 2023 11 5 0 45 10 0 0) new_york_2023_aligned every_half_hour_ok
           (mk_cursor (mk_datetime 2023 11 5 0 45 0 0 0) (mk_datetime 2023 11 5 0 45 0 0 0)
                      None)).
  vm_compute. reflexivity.
Defined.

(** The run of the witness: the half hours of the repeated hour come
    twice, first at fold 0, then at fold 1. *)
Lemma new_york_fall_back :
  (fun d => (hour d, minute d, fold d))
    <$> fst (iter new_york_2023 every_half_hour 50 3 6 (mk_datetime 2023 11 5 0 45 10 0 0))
  = [(1, 0, 0); (1, 30, 0); (1, 0, 1); (1, 30, 1); (2, 0, 0); (2, 30, 0)].
Proof. vm_compute. reflexivity. Qed.

(** A job at fixed times that falls into the missing hour runs at its end. *)
Lemma new_york_spring_forward :
  (fun d => (day d, hour d, minute d))
    <$> fst (iter new_york_2023 twice_an_hour 50 3 4 (mk_datetime 2023 3 12 1 30 0 0 0))
  = [(12, 3, 0); (12, 3, 15); (12, 3, 50); (13, 2, 15)].
Proof. vm_compute. reflexivity. Qed.
